(** * acm-manager: the ingress certificate controller

    A shallow embedding of [controllers/annotations.go] and of the ingress
    reconciler (Reconcile, deleteCertificateForDomain, ensureCertificate,
    createRoute53ValidationRecords, findMatchingHostedZone), followed by the
    properties of the controller's specification.

    Conventions of the embedding:
    - a Go [string] is a Rocq [string] (a sequence of bytes);
    - a Go [map[string]string] is a [gmap string string]; indexing a missing
      key yields the zero value, written [m !!! k];
    - a nil-able pointer ([*string], [*ResourceRecord], [*metav1.Time]) is an
      [option]; [aws.ToString] maps [None] to the empty string;
    - a Go [(value, error)] result is a pair whose second component is an
      [option error] ([None] is [nil]);
    - [time.Duration] and clock readings are integers counting nanoseconds;
      the clock is the monotonic one: a call takes some time, never a
      negative one, and a sleep takes at least what it was asked for;
    - every call to the Kubernetes API server, to ACM, to Route 53 and to
      [time.Sleep] is recorded, newest first, in the log of the state that the
      controller's functions thread; what a call answers is decided by the
      [IngressReconciler]'s clients from the calls made so far. Logger calls
      are not modelled;
    - [strings.EqualFold] decodes UTF-8 and folds case as Go does; the case
      orbits of Unicode that it consults for characters outside ASCII are a
      parameter, carried by the [IngressReconciler]. *)

From Stdlib Require Import ZArith Ascii String List Bool Lia.
From stdpp Require Import base option list gmap strings.

Local Open Scope Z_scope.

(** ** The Go string functions the controller uses *)

Module strings.

(** Byte-wise lower-casing of 'A'..'Z'. Go's [strings.ToLower] also maps
    non-ASCII letters; bytes above 127 are left alone here (no non-ASCII text
    lower-cases to the literal "true"). *)
Definition lowerByte (c : ascii) : ascii :=
  let n := N_of_ascii c in
  if ((65 <=? n) && (n <=? 90))%N then ascii_of_N (n + 32) else c.

Fixpoint ToLower (s : string) : string :=
  match s with
  | EmptyString => EmptyString
  | String c s' => String (lowerByte c) (ToLower s')
  end.

(** [utf8.RuneSelf] and [utf8.RuneError] *)
Definition RuneSelf : Z := 0x80.
Definition RuneError : Z := 0xFFFD.

Definition byte (c : ascii) : Z := Z.of_N (N_of_ascii c).

(** [utf8.first]: the length of the sequence that a byte from [RuneSelf] up
    announces, 0 for a byte that leads no sequence. *)
Definition sequenceLength (b0 : Z) : nat :=
  if (0xC2 <=? b0) && (b0 <=? 0xDF) then 2
  else if (0xE0 <=? b0) && (b0 <=? 0xEF) then 3
  else if (0xF0 <=? b0) && (b0 <=? 0xF4) then 4
  else 0.

(** [utf8.acceptRanges]: the range of the second byte after lead byte [b0]. *)
Definition accepts (b0 b1 : Z) : bool :=
  let lo := if b0 =? 0xE0 then 0xA0 else if b0 =? 0xF0 then 0x90 else 0x80 in
  let hi := if b0 =? 0xED then 0x9F else if b0 =? 0xF4 then 0x8F else 0xBF in
  (lo <=? b1) && (b1 <=? hi).

(** A continuation byte, between [locb] and [hicb]. *)
Definition continues (b : Z) : bool := (0x80 <=? b) && (b <=? 0xBF).

(** The bits that the bytes of a well-formed sequence contribute. *)
Definition rune2 (b0 b1 : Z) : Z :=
  Z.lor (Z.shiftl (Z.land b0 0x1F) 6) (Z.land b1 0x3F).

Definition rune3 (b0 b1 b2 : Z) : Z :=
  Z.lor (Z.lor (Z.shiftl (Z.land b0 0x0F) 12) (Z.shiftl (Z.land b1 0x3F) 6))
        (Z.land b2 0x3F).

Definition rune4 (b0 b1 b2 b3 : Z) : Z :=
  Z.lor (Z.lor (Z.lor (Z.shiftl (Z.land b0 0x07) 18) (Z.shiftl (Z.land b1 0x3F) 12))
               (Z.shiftl (Z.land b2 0x3F) 6))
        (Z.land b3 0x3F).

(** The runes that [for _, r := range s] and repeated
    [utf8.DecodeRuneInString] read off a string: a byte below [RuneSelf] is
    its own rune, a well-formed sequence of two to four bytes is one rune,
    and a byte that starts neither is [RuneError], of width one. *)
Fixpoint runes (s : string) : list Z :=
  match s with
  | EmptyString => []
  | String c0 s1 =>
      let b0 := byte c0 in
      if b0 <? RuneSelf then b0 :: runes s1
      else
        match sequenceLength b0, s1 with
        | 2%nat, String c1 s2 =>
            if accepts b0 (byte c1) then rune2 b0 (byte c1) :: runes s2
            else RuneError :: runes s1
        | 3%nat, String c1 (String c2 s3) =>
            if accepts b0 (byte c1) && continues (byte c2)
            then rune3 b0 (byte c1) (byte c2) :: runes s3
            else RuneError :: runes s1
        | 4%nat, String c1 (String c2 (String c3 s4)) =>
            if accepts b0 (byte c1) && continues (byte c2) && continues (byte c3)
            then rune4 b0 (byte c1) (byte c2) (byte c3) :: runes s4
            else RuneError :: runes s1
        | _, _ => RuneError :: runes s1
        end
  end.

(** The test of [strings.EqualFold] on two ASCII characters that differ: the
    smaller one is an upper-case letter and the larger one its lower case. *)
Definition foldsASCII (sr tr : Z) : bool :=
  let lo := Z.min sr tr in
  let hi := Z.max sr tr in
  (65 <=? lo) && (lo <=? 90) && (hi =? lo + 32).

Section Folding.

(** The case orbits of Unicode are data of Go's [unicode] package, not of
    this repository. [reaches sr tr], asked for [sr < tr] with [tr] from
    [RuneSelf] up, is the outcome of the search that [strings.EqualFold]
    makes through them,
    [r := unicode.SimpleFold(sr); for r != sr && r < tr { r = unicode.SimpleFold(r) }; r == tr],
    that is whether [tr] lies on the orbit of [sr]. *)
Variable reaches : Z -> Z -> bool.

(** One step of the rune loop of [strings.EqualFold]. *)
Definition foldsRune (sr tr : Z) : bool :=
  (tr =? sr)
  || (if Z.max sr tr <? RuneSelf then foldsASCII sr tr
      else reaches (Z.min sr tr) (Z.max sr tr)).

(** The rune loop of [strings.EqualFold], after the label [hasUnicode]: the
    runes of both strings are compared pairwise, and both strings have to
    end together. *)
Fixpoint foldsRunes (s t : list Z) : bool :=
  match s, t with
  | [], [] => true
  | sr :: s', tr :: t' => foldsRune sr tr && foldsRunes s' t'
  | _, _ => false
  end.

(** [strings.EqualFold]: bytes are compared as long as both are ASCII
    ([sr|tr < utf8.RuneSelf]); from the first position where one is not, the
    rest of both strings is compared rune by rune. *)
Fixpoint EqualFold (s t : string) : bool :=
  match s, t with
  | EmptyString, EmptyString => true
  | String a s', String b t' =>
      if (RuneSelf <=? byte a) || (RuneSelf <=? byte b)
      then foldsRunes (runes s) (runes t)
      else if (byte b =? byte a) || foldsASCII (byte a) (byte b)
      then EqualFold s' t'
      else false
  | _, _ => false
  end.

End Folding.

(** [len(s) >= len(prefix) && s[:len(prefix)] == prefix] *)
Definition HasPrefix (s prefix : string) : bool :=
  (String.length prefix <=? String.length s)%nat
  && String.eqb (String.substring 0 (String.length prefix) s) prefix.

(** [len(s) >= len(suffix) && s[len(s)-len(suffix):] == suffix] *)
Definition HasSuffix (s suffix : string) : bool :=
  (String.length suffix <=? String.length s)%nat
  && String.eqb
       (String.substring (String.length s - String.length suffix)
          (String.length suffix) s)
       suffix.

Definition TrimPrefix (s prefix : string) : string :=
  if HasPrefix s prefix
  then String.substring (String.length prefix)
         (String.length s - String.length prefix) s
  else s.

Definition TrimSuffix (s suffix : string) : string :=
  if HasSuffix s suffix
  then String.substring 0 (String.length s - String.length suffix) s
  else s.

(** The ASCII white space of [unicode.IsSpace]: tab, line feed, vertical tab,
    form feed, carriage return and space. (Go's [strings.TrimSpace] also
    trims the non-ASCII spaces, such as U+0085 and U+00A0.) *)
Definition isSpace (c : ascii) : bool :=
  let n := N_of_ascii c in
  ((9 <=? n) && (n <=? 13) || (n =? 32))%N.

Fixpoint TrimLeft (s : string) : string :=
  match s with
  | EmptyString => EmptyString
  | String c s' => if isSpace c then TrimLeft s' else s
  end.

(** Drops the trailing white space: a character is kept when it is not a
    space or when something is kept after it. *)
Fixpoint TrimRight (s : string) : string :=
  match s with
  | EmptyString => EmptyString
  | String c s' =>
      match TrimRight s' with
      | EmptyString => if isSpace c then EmptyString else String c EmptyString
      | t => String c t
      end
  end.

Definition TrimSpace (s : string) : string := TrimRight (TrimLeft s).

(** [strings.Split(s, sep)] for a non-empty separator: [cur] is the piece
    being read and [skip] counts the bytes of a separator occurrence still to
    be passed over. The text between two occurrences, before the first and
    after the last is a piece, so [n] occurrences give [n + 1] pieces. *)
Fixpoint splitFrom (sep : string) (skip : nat) (cur s : string) : list string :=
  match s with
  | EmptyString => [cur]
  | String c s' =>
      match skip with
      | S k => splitFrom sep k cur s'
      | O =>
          if HasPrefix s sep
          then cur :: splitFrom sep (String.length sep - 1) EmptyString s'
          else splitFrom sep 0 (cur +:+ String c EmptyString) s'
      end
  end.

Definition Split (s sep : string) : list string := splitFrom sep 0 EmptyString s.

End strings.

(** ** annotations.go *)

Definition Nanosecond : Z := 1.
Definition Second : Z := 1000000000 * Nanosecond.
Definition Minute : Z := 60 * Second.
Definition Hour : Z := 60 * Minute.

Record IngressConfig := {
  Managed : bool;
  DomainOverride : string;
  ZoneID : string;
  Wildcard : bool;
  SANs : list string;
  CertTTL : Z;
  ReuseExisting : bool;
  DeleteCertOnIngress : bool;
  FallbackWildcard : bool
}.

Definition DefaultCertTTL : Z := 365 * 24 * Hour.

Section Annotations.

(** [time.ParseDuration] of the Go standard library: [None] when it reports
    an error. *)
Variable ParseDuration : string -> option Z.

Definition ParseIngressAnnotations (annotations : gmap string string) : IngressConfig :=
  let rawWildcard := strings.ToLower (annotations !!! "acm.tedens.dev/wildcard") in
  let rawDelete :=
    strings.ToLower (annotations !!! "acm.tedens.dev/delete-cert-on-ingress-delete") in
  {| Managed := String.eqb (annotations !!! "acm.tedens.dev/managed") "true";
     DomainOverride := annotations !!! "acm.tedens.dev/domain";
     ZoneID := annotations !!! "acm.tedens.dev/zone-id";
     Wildcard := String.eqb rawWildcard "true";
     SANs :=
       match annotations !! "acm.tedens.dev/san" with
       | Some sanStr => map strings.TrimSpace (strings.Split sanStr ",")
       | None => []
       end;
     CertTTL :=
       match annotations !! "acm.tedens.dev/cert-ttl" with
       | Some ttlStr =>
           match ParseDuration ttlStr with
           | Some dur => dur
           | None => DefaultCertTTL
           end
       | None => DefaultCertTTL
       end;
     ReuseExisting :=
       negb (String.eqb (annotations !!! "acm.tedens.dev/reuse-existing") "false");
     DeleteCertOnIngress := String.eqb rawDelete "true";
     FallbackWildcard :=
       String.eqb (annotations !!! "acm.tedens.dev/fallback-wildcard") "true" |}.

End Annotations.

(** ** The objects the controller exchanges with its collaborators *)

(** A Go [error]: its message, and whether [apierrors.IsNotFound] holds of
    it. [Errorf prefix err] is [fmt.Errorf(prefix + "%w", err)]: wrapping
    keeps what [errors.As] sees. *)
Record error := { IsNotFound : bool; Error : string }.

Definition errorString (msg : string) : error :=
  {| IsNotFound := false; Error := msg |}.

Definition Errorf (prefix : string) (err : error) : error :=
  {| IsNotFound := IsNotFound err; Error := prefix +:+ Error err |}.

Inductive result (A : Type) : Type :=
| Ok (a : A)
| Err (err : error).
Arguments Ok {A} a.
Arguments Err {A} err.

Module aws.
Definition ToString (p : option string) : string := default EmptyString p.
End aws.

(** networkingv1.Ingress, reduced to the fields the controller touches. The
    deletion timestamp counts nanoseconds from Go's zero instant. *)
Record IngressRule := { Host : string }.

Record Ingress := {
  Annotations : option (gmap string string);
  Finalizers : list string;
  DeletionTimestamp : option Z;
  Rules : list IngressRule
}.

Definition GetAnnotations (ingress : Ingress) : gmap string string :=
  default ∅ (Annotations ingress).

(** The [IsZero] method of a [metav1.Time] pointer. *)
Definition IsZero (t : option Z) : bool :=
  match t with
  | None => true
  | Some ns => ns =? 0
  end.

Module controllerutil.

Definition ContainsFinalizer (o : Ingress) (finalizer : string) : bool :=
  existsb (String.eqb finalizer) (Finalizers o).

Definition SetFinalizers (o : Ingress) (f : list string) : Ingress :=
  {| Annotations := Annotations o; Finalizers := f;
     DeletionTimestamp := DeletionTimestamp o; Rules := Rules o |}.

Definition AddFinalizer (o : Ingress) (finalizer : string) : Ingress :=
  if ContainsFinalizer o finalizer then o
  else SetFinalizers o (Finalizers o ++ [finalizer]).

Definition RemoveFinalizer (o : Ingress) (finalizer : string) : Ingress :=
  SetFinalizers o
    (List.filter (fun f => negb (String.eqb f finalizer)) (Finalizers o)).

End controllerutil.

(** [ingress.Annotations[key] = value], after the nil check of Reconcile. *)
Definition SetAnnotation (o : Ingress) (key value : string) : Ingress :=
  {| Annotations := Some (<[key := value]> (GetAnnotations o));
     Finalizers := Finalizers o;
     DeletionTimestamp := DeletionTimestamp o; Rules := Rules o |}.

Module acmtypes.

Definition CertificateStatus := string.
Definition CertificateStatusIssued : CertificateStatus := "ISSUED".
Definition CertificateStatusPendingValidation : CertificateStatus :=
  "PENDING_VALIDATION".
Definition CertificateStatusFailed : CertificateStatus := "FAILED".
Definition ValidationMethodDns : string := "DNS".

Record CertificateSummary := {
  DomainName : option string;
  CertificateArn : option string
}.

Record ResourceRecord := {
  Name : option string;
  Type_ : string;
  Value : option string
}.

Record DomainValidation := {
  ValidationDomainName : option string;
  ResourceRecord_ : option ResourceRecord
}.

Record CertificateDetail := {
  Status : CertificateStatus;
  FailureReason : string;
  DomainValidationOptions : list DomainValidation
}.

Record Tag := { Key : option string; TagValue : option string }.

Record RequestCertificateInput := {
  RequestDomainName : option string;
  ValidationMethod : string;
  SubjectAlternativeNames : list string;
  Tags : list Tag
}.

End acmtypes.

Module route53types.

Definition ChangeActionUpsert : string := "UPSERT".

Record HostedZone := { Id : option string; Name : option string }.

Record ResourceRecordSet := {
  RRName : option string;
  RRType : string;
  TTL : option Z;
  ResourceRecords : list (option string)
}.

Record Change := { Action : string; ChangeRecordSet : ResourceRecordSet }.

Record ChangeResourceRecordSetsInput := {
  HostedZoneId : option string;
  Changes : list Change
}.

End route53types.

(** ctrl.Result *)
Record Result := { RequeueAfter : Z }.

Definition noResult : Result := {| RequeueAfter := 0 |}.

(** ** Calls, the clients that answer them, and the state *)

Inductive call :=
| EvGet (name : string)
| EvUpdate (obj : Ingress)
| EvPatch (obj base : Ingress)
| EvListCertificates (statuses : list acmtypes.CertificateStatus)
| EvDeleteCertificate (arn : option string)
| EvRequestCertificate (input : acmtypes.RequestCertificateInput)
| EvDescribeCertificate (arn : option string)
| EvListHostedZones
| EvChangeResourceRecordSets (input : route53types.ChangeResourceRecordSetsInput)
| EvSleep (d : Z).

(** The reconciler's clients. Each answer may depend on every call made
    before it (the first argument, newest first). [Update] answers with the
    object as the API server stored it, which the client writes back into the
    caller's variable. [Elapsed] is the time a call takes, for [EvSleep] the
    time slept beyond the requested duration. A describe output always
    carries its certificate (the SDK never leaves it nil on success).
    [SimpleFoldReaches] is no client: it is the search through the case
    orbits of Go's [unicode] package that [strings.EqualFold] makes for
    characters outside ASCII, which the reconciler takes from its platform
    like the answers of its clients. *)
Record IngressReconciler := {
  Get : list call -> string -> result Ingress;
  Update : list call -> Ingress -> result Ingress;
  Patch : list call -> Ingress -> Ingress -> option error;
  ListCertificates :
    list call -> list acmtypes.CertificateStatus ->
    result (list acmtypes.CertificateSummary);
  DeleteCertificate : list call -> option string -> option error;
  RequestCertificate :
    list call -> acmtypes.RequestCertificateInput -> result (option string);
  DescribeCertificate :
    list call -> option string -> result acmtypes.CertificateDetail;
  ListHostedZones : list call -> result (list route53types.HostedZone);
  ChangeResourceRecordSets :
    list call -> route53types.ChangeResourceRecordSetsInput -> option error;
  Elapsed : list call -> call -> N;
  SimpleFoldReaches : Z -> Z -> bool
}.

Record State := { log : list call; clock : Z }.

Definition M (A : Type) : Type := State -> A * State.

Definition ret {A} (a : A) : M A := fun s => (a, s).

Definition bind {A B} (m : M A) (k : A -> M B) : M B :=
  fun s => let (a, s') := m s in k a s'.

Notation "'do' x <- m ; k" := (bind m (fun x => k))
  (at level 10, x name, m at level 100, k at level 200).

(** [time.Now()] *)
Definition timeNow : M Z := fun s => (clock s, s).

(** [t.After(u)] *)
Definition After (t u : Z) : bool := u <? t.

(** ** The ingress reconciler *)

Definition ingressFinalizer : string := "acm.tedens.dev/finalizer".

Definition certificateArnAnnotation : string :=
  "alb.ingress.kubernetes.io/certificate-arn".

(** The statuses both list calls ask for. *)
Definition listedStatuses : list acmtypes.CertificateStatus :=
  [acmtypes.CertificateStatusIssued; acmtypes.CertificateStatusPendingValidation].

Definition Timeout : Z := 10 * Minute.
Definition Interval : Z := 15 * Second.

(** The poll loop of ensureCertificate sleeps [Interval] in every round that
    does not return and gives up once the clock is past the deadline, which
    lies [Timeout] after its start: these many rounds always reach a return
    (lemma [pollCertificate_rounds_suffice]). *)
Definition pollRounds : nat := Z.to_nat (Timeout / Interval) + 2.

Section Controller.

Variable ParseDuration : string -> option Z.
Variable r : IngressReconciler.

(** Performs a call: the clients answer from the calls made so far, the call
    joins the log and the clock advances by the time the call took. *)
Definition perform {A} (c : call) (answer : list call -> A) : M A :=
  fun s =>
    (answer (log s),
     {| log := c :: log s; clock := clock s + Z.of_N (Elapsed r (log s) c) |}).

(** [time.Sleep(d)] pauses for at least [d]; a negative [d] returns at once. *)
Definition timeSleep (d : Z) : M unit :=
  fun s =>
    (tt,
     {| log := EvSleep d :: log s;
        clock := clock s + Z.max 0 d + Z.of_N (Elapsed r (log s) (EvSleep d)) |}).

(** [client.IgnoreNotFound] *)
Definition IgnoreNotFound (err : error) : option error :=
  if IsNotFound err then None else Some err.

(** [strings.EqualFold(aws.ToString(cert.DomainName), domain)] *)
Definition matchesDomain (domain : string) (cert : acmtypes.CertificateSummary) : bool :=
  strings.EqualFold (SimpleFoldReaches r)
    (aws.ToString (acmtypes.DomainName cert)) domain.

Definition deleteCertificateForDomain (domain : string) : M (option error) :=
  do out <- perform (EvListCertificates listedStatuses)
              (fun l => ListCertificates r l listedStatuses);
  match out with
  | Err err => ret (Some err)
  | Ok certs =>
      match List.find (matchesDomain domain) certs with
      | Some cert =>
          perform (EvDeleteCertificate (acmtypes.CertificateArn cert))
            (fun l => DeleteCertificate r l (acmtypes.CertificateArn cert))
      | None => ret None
      end
  end.

(** The loop of findMatchingHostedZone over the listed zones, from the
    current best [(matchedZoneID, longestMatchLen)]. *)
Definition betterZone (domain : string) (best : string * nat)
    (zone : route53types.HostedZone) : string * nat :=
  let zoneName := strings.TrimSuffix (aws.ToString (route53types.Name zone)) "." in
  if strings.HasSuffix domain zoneName
     && (snd best <? String.length zoneName)%nat
  then (aws.ToString (route53types.Id zone), String.length zoneName)
  else best.

Definition scanZones (domain : string) (zones : list route53types.HostedZone)
    (best : string * nat) : string * nat :=
  fold_left (betterZone domain) zones best.

Definition findMatchingHostedZone (domain : string) : M (string * option error) :=
  do list <- perform EvListHostedZones (fun l => ListHostedZones r l);
  match list with
  | Err err => ret (EmptyString, Some err)
  | Ok zones =>
      let matchedZoneID := fst (scanZones domain zones (EmptyString, 0%nat)) in
      if String.eqb matchedZoneID ""
      then ret (EmptyString,
                Some (errorString
                        ("no matching hosted zone found for domain: " +:+ domain)))
      else ret (strings.TrimPrefix matchedZoneID "/hostedzone/", None)
  end.

(** [fmt.Sprintf("%s|%s|%s", name, type, value)] *)
Definition recordKey (record : acmtypes.ResourceRecord) : string :=
  aws.ToString (acmtypes.Name record) +:+ "|" +:+ acmtypes.Type_ record +:+ "|"
  +:+ aws.ToString (acmtypes.Value record).

Definition upsertChange (hostedZoneID : string) (record : acmtypes.ResourceRecord)
    : route53types.ChangeResourceRecordSetsInput :=
  {| route53types.HostedZoneId := Some hostedZoneID;
     route53types.Changes :=
       [ {| route53types.Action := route53types.ChangeActionUpsert;
            route53types.ChangeRecordSet :=
              {| route53types.RRName := acmtypes.Name record;
                 route53types.RRType := acmtypes.Type_ record;
                 route53types.TTL := Some 300;
                 route53types.ResourceRecords := [acmtypes.Value record] |} |} ] |}.

(** The loop of createRoute53ValidationRecords over the validation options;
    [seen] is the map of the keys already processed. *)
Fixpoint validateOptions (zoneID : string) (seen : gmap string bool)
    (options : list acmtypes.DomainValidation) : M (option error) :=
  match options with
  | [] => ret None
  | option :: rest =>
      match acmtypes.ResourceRecord_ option with
      | None => validateOptions zoneID seen rest
      | Some record =>
          let key := recordKey record in
          if default false (seen !! key) then validateOptions zoneID seen rest
          else
            let seen := <[key := true]> seen in
            do zone <-
              (if String.eqb zoneID ""
               then findMatchingHostedZone
                      (aws.ToString (acmtypes.ValidationDomainName option))
               else ret (zoneID, None));
            match zone with
            | (_, Some err) => ret (Some (Errorf "failed to infer zone: " err))
            | (hostedZoneID, None) =>
                let change := upsertChange hostedZoneID record in
                do err <- perform (EvChangeResourceRecordSets change)
                            (fun l => ChangeResourceRecordSets r l change);
                match err with
                | Some err =>
                    ret (Some (Errorf "failed to create DNS validation record: " err))
                | None => validateOptions zoneID seen rest
                end
            end
      end
  end.

Definition createRoute53ValidationRecords (certArn zoneID : string) : M (option error) :=
  do describe <- perform (EvDescribeCertificate (Some certArn))
                   (fun l => DescribeCertificate r l (Some certArn));
  match describe with
  | Err err => ret (Some (Errorf "failed to describe certificate: " err))
  | Ok certificate =>
      validateOptions zoneID ∅ (acmtypes.DomainValidationOptions certificate)
  end.

Definition timeoutError (certArn : string) : error :=
  errorString ("certificate validation timed out: " +:+ certArn).

Definition failedError (reason : string) : error :=
  errorString ("certificate validation failed: " +:+ reason).

(** The [for] loop of ensureCertificate, by rounds; [None] when the rounds
    run out before the loop returns. (The attempt counter only feeds the
    logger.) *)
Fixpoint pollCertificate (rounds : nat) (deadline : Z) (certArn : string)
    : M (option (string * option error)) :=
  match rounds with
  | O => ret None
  | S rounds' =>
      do now <- timeNow;
      if After now deadline then ret (Some (certArn, Some (timeoutError certArn)))
      else
        do describe <- perform (EvDescribeCertificate (Some certArn))
                         (fun l => DescribeCertificate r l (Some certArn));
        match describe with
        | Err err => ret (Some (certArn, Some err))
        | Ok certificate =>
            let status := acmtypes.Status certificate in
            if String.eqb status acmtypes.CertificateStatusIssued
            then ret (Some (certArn, None))
            else if String.eqb status acmtypes.CertificateStatusFailed
            then ret (Some (certArn,
                            Some (failedError (acmtypes.FailureReason certificate))))
            else
              do _ <- timeSleep Interval;
              pollCertificate rounds' deadline certArn
        end
  end.

Definition requestInput (domain : string) (cfg : IngressConfig)
    : acmtypes.RequestCertificateInput :=
  {| acmtypes.RequestDomainName :=
       if Wildcard cfg then Some ("*." +:+ domain) else Some domain;
     acmtypes.ValidationMethod := acmtypes.ValidationMethodDns;
     acmtypes.SubjectAlternativeNames :=
       if (0 <? List.length (SANs cfg))%nat then SANs cfg else [];
     acmtypes.Tags :=
       [ {| acmtypes.Key := Some "ManagedBy";
            acmtypes.TagValue := Some "acm-manager" |} ] |}.

(** A call leaves the clock where it was or later; a round of the loop that
    goes on to the next one moves it by [Interval] at least. So the loop
    returns within [rounds + 1] rounds when [rounds] intervals from its
    start lie past the deadline. *)
Lemma pollCertificate_in_time (rounds : nat) (deadline : Z) (certArn : string) :
  forall s : State,
    deadline < clock s + Z.of_nat rounds * Interval ->
    fst (pollCertificate (S rounds) deadline certArn s) <> None.
Proof.
  induction rounds as [| rounds IH]; intros s Hd;
    cbn [pollCertificate]; unfold bind at 1, timeNow, After;
    (destruct (deadline <? clock s) eqn:Hpast; [cbn; discriminate |]).
  - apply Z.ltb_ge in Hpast. lia.
  - apply Z.ltb_ge in Hpast. unfold bind, perform.
    destruct (DescribeCertificate r (log s) (Some certArn)) as [certificate | err];
      [| cbn; discriminate].
    destruct (String.eqb _ acmtypes.CertificateStatusIssued); [cbn; discriminate |].
    destruct (String.eqb _ acmtypes.CertificateStatusFailed); [cbn; discriminate |].
    unfold timeSleep. apply IH. cbn [clock log].
    assert (0 < Interval) by reflexivity. lia.
Qed.

Lemma pollCertificate_rounds_suffice (certArn : string) (s : State) :
  fst (pollCertificate pollRounds (clock s + Timeout) certArn s) <> None.
Proof.
  change pollRounds with (S 41). apply pollCertificate_in_time.
  change (Z.of_nat 41 * Interval) with (Timeout + Interval).
  assert (0 < Interval) by reflexivity. lia.
Qed.

(** The end of ensureCertificate: [deadline := time.Now().Add(timeout)] and
    the [for] loop. The loop has no exit but its return statements, and
    [pollRounds] rounds reach one: the case of rounds running out does not
    arise and yields nothing. *)
Definition awaitCertificate (certArn : string) : M (string * option error) :=
  fun s =>
    match pollCertificate pollRounds (clock s + Timeout) certArn s as polled
          return fst polled <> None -> (string * option error) * State with
    | (Some outcome, s') => fun _ => (outcome, s')
    | (None, _) => fun arises => False_rect _ (arises eq_refl)
    end (pollCertificate_rounds_suffice certArn s).

(** ensureCertificate after the reuse check: request, validation records,
    poll. *)
Definition requestAndValidate (domain : string) (cfg : IngressConfig)
    : M (string * option error) :=
  let req := requestInput domain cfg in
  do resp <- perform (EvRequestCertificate req)
               (fun l => RequestCertificate r l req);
  match resp with
  | Err err => ret (EmptyString, Some err)
  | Ok arn =>
      let certArn := aws.ToString arn in
      do err <- createRoute53ValidationRecords certArn (ZoneID cfg);
      match err with
      | Some err => ret (certArn, Some err)
      | None => awaitCertificate certArn
      end
  end.

Definition ensureCertificate (domain : string) (cfg : IngressConfig)
    : M (string * option error) :=
  if ReuseExisting cfg then
    do out <- perform (EvListCertificates listedStatuses)
                (fun l => ListCertificates r l listedStatuses);
    match out with
    | Err err => ret (EmptyString, Some err)
    | Ok certs =>
        match List.find (matchesDomain domain) certs with
        | Some cert => ret (aws.ToString (acmtypes.CertificateArn cert), None)
        | None => requestAndValidate domain cfg
        end
    end
  else requestAndValidate domain cfg.

(** Reconcile once the finalizer is in place: ensure the certificate and
    patch its identifier onto the ingress. *)
Definition attachCertificate (ingress : Ingress) (domain : string)
    (cfg : IngressConfig) : M (Result * option error) :=
  do ensured <- ensureCertificate domain cfg;
  match ensured with
  | (_, Some err) => ret (noResult, Some err)
  | (certArn, None) =>
      let base := ingress in
      let ingress := SetAnnotation ingress certificateArnAnnotation certArn in
      do err <- perform (EvPatch ingress base) (fun l => Patch r l ingress base);
      match err with
      | Some err => ret (noResult, Some err)
      | None => ret ({| RequeueAfter := 12 * Hour |}, None)
      end
  end.

Definition resolveDomain (ingress : Ingress) (cfg : IngressConfig) : string :=
  if String.eqb (DomainOverride cfg) "" && (0 <? List.length (Rules ingress))%nat
  then match Rules ingress with
       | rule :: _ => Host rule
       | [] => DomainOverride cfg
       end
  else DomainOverride cfg.

Definition Reconcile (req : string) : M (Result * option error) :=
  do got <- perform (EvGet req) (fun l => Get r l req);
  match got with
  | Err err => ret (noResult, IgnoreNotFound err)
  | Ok ingress =>
      let cfg := ParseIngressAnnotations ParseDuration (GetAnnotations ingress) in
      if negb (Managed cfg) then ret (noResult, None)
      else
        let domain := resolveDomain ingress cfg in
        if IsZero (DeletionTimestamp ingress) then
          if negb (controllerutil.ContainsFinalizer ingress ingressFinalizer) then
            let ingress := controllerutil.AddFinalizer ingress ingressFinalizer in
            do updated <- perform (EvUpdate ingress) (fun l => Update r l ingress);
            match updated with
            | Err err => ret (noResult, Some err)
            | Ok ingress => attachCertificate ingress domain cfg
            end
          else attachCertificate ingress domain cfg
        else if controllerutil.ContainsFinalizer ingress ingressFinalizer then
          do err <-
            (if DeleteCertOnIngress cfg then deleteCertificateForDomain domain
             else ret None);
          match err with
          | Some err => ret (noResult, Some err)
          | None =>
              let ingress := controllerutil.RemoveFinalizer ingress ingressFinalizer in
              do updated <- perform (EvUpdate ingress) (fun l => Update r l ingress);
              match updated with
              | Err err => ret (noResult, Some err)
              | Ok _ => ret (noResult, None)
              end
          end
        else ret (noResult, None)
  end.

End Controller.

(** ** cmd/main.go: the server version gate *)

(** The check main makes on the API server's version before it starts the
    manager; on an error main logs it and exits with status 1. Go compares
    strings with [<] byte by byte, as [String.ltb] does. *)
Definition checkServerVersion (gitVersion : string) : option error :=
  let parsedVersion := strings.TrimPrefix gitVersion "v" in
  let majorMinor := strings.Split parsedVersion "." in
  if (List.length majorMinor <? 2)%nat
  then Some (errorString ("unexpected version format: " +:+ parsedVersion))
  else
    let major := nth 0 majorMinor EmptyString in
    let minor := nth 1 majorMinor EmptyString in
    if String.ltb major "1" || String.ltb minor "32"
    then Some (errorString ("unsupported Kubernetes version: " +:+ gitVersion))
    else None.

(** ** Vocabulary of the properties *)

(** [s'] is reached from [s] by performing exactly the calls [evs] (newest
    first). *)
Definition performed (s s' : State) (evs : list call) : Prop :=
  log s' = evs ++ log s.

(** The state right after call [c], performed in state [s]. *)
Definition after (r : IngressReconciler) (c : call) (s : State) : State :=
  snd (perform r c (fun _ => tt) s).

(** [P] holds of every call performed between [s] and the end of [m]. *)
Definition onlyCalls {A} (P : call -> bool) (m : M A) : Prop :=
  forall s, exists evs, performed s (snd (m s)) evs /\ Forall (fun c => P c = true) evs.

(** The calls that write to the watched resource. *)
Definition isWrite (c : call) : bool :=
  match c with
  | EvUpdate _ | EvPatch _ _ => true
  | _ => false
  end.

Definition isPatch (c : call) : bool :=
  match c with
  | EvPatch _ _ => true
  | _ => false
  end.

(** The calls of the certificate lifecycle manager: list, request and
    describe certificates, list zones, change record sets, sleep. It never
    reads or writes the watched resource and never deletes a certificate. *)
Definition isLifecycleCall (c : call) : bool :=
  match c with
  | EvListCertificates _ | EvRequestCertificate _ | EvDescribeCertificate _
  | EvListHostedZones | EvChangeResourceRecordSets _ | EvSleep _ => true
  | _ => false
  end.

(** The calls of the DNS validation orchestrator: describe the certificate,
    list zones, change record sets. *)
Definition isValidationCall (c : call) : bool :=
  match c with
  | EvDescribeCertificate _ | EvListHostedZones | EvChangeResourceRecordSets _ => true
  | _ => false
  end.

(** The calls of the certificate cleanup: list and delete certificates. *)
Definition isCleanupCall (c : call) : bool :=
  match c with
  | EvListCertificates _ | EvDeleteCertificate _ => true
  | _ => false
  end.

(** The calls that would undo a request or wait for it. *)
Definition isDeleteOrSleep (c : call) : bool :=
  match c with
  | EvDeleteCertificate _ | EvSleep _ => true
  | _ => false
  end.

(** The reconcile of [ingress], read in state [s], has the finalizer in place
    in state [sE], holding the object [ingress']: either the finalizer was
    there already, or it was added and the update went through. *)
Definition finalizerEnsured (r : IngressReconciler) (req : string) (s : State)
    (ingress ingress' : Ingress) (sE : State) : Prop :=
  let s0 := after r (EvGet req) s in
  let added := controllerutil.AddFinalizer ingress ingressFinalizer in
  (controllerutil.ContainsFinalizer ingress ingressFinalizer = true
   /\ ingress' = ingress /\ sE = s0)
  \/ (controllerutil.ContainsFinalizer ingress ingressFinalizer = false
      /\ Update r (log s0) added = Ok ingress'
      /\ sE = after r (EvUpdate added) s0).

(** The reuse check of ensureCertificate finds nothing in state [s] and
    leaves state [s1]: either reuse is off, or the list call answers with
    certificates none of which matches the domain. *)
Definition reuseMisses (r : IngressReconciler) (domain : string)
    (cfg : IngressConfig) (s s1 : State) : Prop :=
  (ReuseExisting cfg = false /\ s1 = s)
  \/ (ReuseExisting cfg = true
      /\ exists certs,
           ListCertificates r (log s) listedStatuses = Ok certs
           /\ Forall (fun cert => matchesDomain r domain cert = false) certs
           /\ s1 = after r (EvListCertificates listedStatuses) s).

(** The log at the describe call of round [n] of the poll loop entered with
    log [l], when no earlier round returned: each round adds its describe
    call and its sleep. *)
Definition pollLog (certArn : string) (n : nat) (l : list call) : list call :=
  Nat.iter n (fun l => EvSleep Interval :: EvDescribeCertificate (Some certArn) :: l) l.

(** [suffix] ends [s]. *)
Definition isSuffixOf (suffix s : string) : Prop := exists p, s = p +:+ suffix.

(** The zone's name without its trailing dot. *)
Definition zoneName (zone : route53types.HostedZone) : string :=
  strings.TrimSuffix (aws.ToString (route53types.Name zone)) ".".

(** A zone the resolver may pick: its stripped name is not empty and ends
    the domain. *)
Definition candidate (domain : string) (zone : route53types.HostedZone) : Prop :=
  zoneName zone <> "" /\ isSuffixOf (zoneName zone) domain.

(** [zone] is the first of the candidates with the longest name. *)
Definition selected (domain : string) (zones : list route53types.HostedZone)
    (zone : route53types.HostedZone) : Prop :=
  exists before later,
    zones = before ++ zone :: later
    /\ candidate domain zone
    /\ Forall (fun z => candidate domain z ->
                 (String.length (zoneName z) < String.length (zoneName zone))%nat) before
    /\ Forall (fun z => candidate domain z ->
                 (String.length (zoneName z) <= String.length (zoneName zone))%nat) later.

Definition notFoundError (domain : string) : error :=
  errorString ("no matching hosted zone found for domain: " +:+ domain).

#[local] Instance ResourceRecordSet_eq_dec : EqDecision route53types.ResourceRecordSet.
Proof. solve_decision. Defined.

#[local] Instance Change_eq_dec : EqDecision route53types.Change.
Proof. solve_decision. Defined.

(** [c] is an upsert of the record [record], into whatever zone. *)
Definition isUpsertOf (record : acmtypes.ResourceRecord) (c : call) : bool :=
  match c with
  | EvChangeResourceRecordSets input =>
      bool_decide (route53types.Changes input
                   = route53types.Changes (upsertChange "" record))
  | _ => false
  end.

Definition countUpserts (record : acmtypes.ResourceRecord) (evs : list call) : nat :=
  List.length (List.filter (isUpsertOf record) evs).

Definition hasRecord (option : acmtypes.DomainValidation) : bool :=
  match acmtypes.ResourceRecord_ option with
  | Some _ => true
  | None => false
  end.

(** The record descriptors of the requirements, in order. *)
Fixpoint descriptors (options : list acmtypes.DomainValidation)
    : list acmtypes.ResourceRecord :=
  match options with
  | [] => []
  | option :: rest =>
      match acmtypes.ResourceRecord_ option with
      | Some record => record :: descriptors rest
      | None => descriptors rest
      end
  end.

(** The first descriptor of the requirements with the deduplication key
    [key]. *)
Definition firstWithKey (options : list acmtypes.DomainValidation) (key : string)
    : option acmtypes.ResourceRecord :=
  List.find (fun record => String.eqb (recordKey record) key) (descriptors options).

(** No byte of [s] is the separator of the deduplication key. *)
Fixpoint noBar (s : string) : bool :=
  match s with
  | EmptyString => true
  | String c s' => negb (Ascii.eqb c "|") && noBar s'
  end.

(** A descriptor as the certificate authority issues them: a name and a
    value are given, and neither the name nor the type contains "|". *)
Definition plainRecord (record : acmtypes.ResourceRecord) : bool :=
  match acmtypes.Name record, acmtypes.Value record with
  | Some name, Some _ => noBar name && noBar (acmtypes.Type_ record)
  | _, _ => false
  end.

(** The number of calls among [evs] that satisfy [P]. *)
Definition countCalls (P : call -> bool) (evs : list call) : nat :=
  List.length (List.filter P evs).

Definition isRequest (c : call) : bool :=
  match c with
  | EvRequestCertificate _ => true
  | _ => false
  end.

Definition isDescribe (c : call) : bool :=
  match c with
  | EvDescribeCertificate _ => true
  | _ => false
  end.

Definition isDelete (c : call) : bool :=
  match c with
  | EvDeleteCertificate _ => true
  | _ => false
  end.

Definition isSleep (c : call) : bool :=
  match c with
  | EvSleep _ => true
  | _ => false
  end.

(** The calls of a pass over a resource that is being deleted: read and
    update the resource, list and delete certificates. *)
Definition isDeletionPassCall (c : call) : bool :=
  match c with
  | EvGet _ | EvUpdate _ | EvListCertificates _ | EvDeleteCertificate _ => true
  | _ => false
  end.

(** The calls to the DNS provider. *)
Definition isDnsCall (c : call) : bool :=
  match c with
  | EvListHostedZones | EvChangeResourceRecordSets _ => true
  | _ => false
  end.

(** The state at the start of round [n] of the poll loop entered in state
    [s], when no earlier round returned: each round describes the
    certificate and sleeps. *)
Definition pollState (r : IngressReconciler) (certArn : string) (n : nat) (s : State)
    : State :=
  Nat.iter n
    (fun s => snd (timeSleep r Interval
                     (after r (EvDescribeCertificate (Some certArn)) s))) s.

(** A status on which the poll loop keeps waiting: any but Issued and
    Failed. *)
Definition keepsWaiting (status : acmtypes.CertificateStatus) : bool :=
  negb (String.eqb status acmtypes.CertificateStatusIssued)
  && negb (String.eqb status acmtypes.CertificateStatusFailed).

(** A describe answer on which the poll loop returns. *)
Definition decides (described : result acmtypes.CertificateDetail) : bool :=
  match described with
  | Err _ => true
  | Ok certificate => negb (keepsWaiting (acmtypes.Status certificate))
  end.

(** The calls ensureCertificate makes after its request: describe, the DNS
    calls and sleep. *)
Definition isAfterRequestCall (c : call) : bool :=
  isDescribe c || isDnsCall c || isSleep c.

(** The record a change request upserts, when it carries one change of one
    value. *)
Definition recordOfChange (input : route53types.ChangeResourceRecordSetsInput)
    : option acmtypes.ResourceRecord :=
  match route53types.Changes input with
  | [change] =>
      let set := route53types.ChangeRecordSet change in
      match route53types.ResourceRecords set with
      | [value] =>
          Some {| acmtypes.Name := route53types.RRName set;
                  acmtypes.Type_ := route53types.RRType set;
                  acmtypes.Value := value |}
      | _ => None
      end
  | _ => None
  end.

(** The records upserted by the calls [evs], oldest first. *)
Fixpoint changedRecords (evs : list call) : list acmtypes.ResourceRecord :=
  match evs with
  | [] => []
  | EvChangeResourceRecordSets input :: rest =>
      match recordOfChange input with
      | Some record => changedRecords rest ++ [record]
      | None => changedRecords rest
      end
  | _ :: rest => changedRecords rest
  end.

(** The records whose deduplication key is neither in [seen] nor carried by
    an earlier record of the list. *)
Fixpoint distinctKeys (seen : list string) (records : list acmtypes.ResourceRecord)
    : list acmtypes.ResourceRecord :=
  match records with
  | [] => []
  | record :: rest =>
      if existsb (String.eqb (recordKey record)) seen then distinctKeys seen rest
      else record :: distinctKeys (recordKey record :: seen) rest
  end.

(** The annotation keys the resolver reads. *)
Definition controllerKeys : list string :=
  [ "acm.tedens.dev/managed"; "acm.tedens.dev/domain"; "acm.tedens.dev/zone-id";
    "acm.tedens.dev/wildcard"; "acm.tedens.dev/reuse-existing";
    "acm.tedens.dev/delete-cert-on-ingress-delete";
    "acm.tedens.dev/fallback-wildcard"; "acm.tedens.dev/san";
    "acm.tedens.dev/cert-ttl" ].

(** No byte of [s] is [d]. *)
Fixpoint noByte (d : ascii) (s : string) : bool :=
  match s with
  | EmptyString => true
  | String c s' => negb (Ascii.eqb c d) && noByte d s'
  end.

(** The number of bytes of [s] that are [d]. *)
Fixpoint countByte (d : ascii) (s : string) : nat :=
  match s with
  | EmptyString => 0
  | String c s' => (if Ascii.eqb c d then 1 else 0) + countByte d s'
  end.

Definition startsWithSpace (s : string) : bool :=
  match s with
  | EmptyString => false
  | String c _ => strings.isSpace c
  end.

Fixpoint endsWithSpace (s : string) : bool :=
  match s with
  | EmptyString => false
  | String c s' =>
      match s' with
      | EmptyString => strings.isSpace c
      | String _ _ => endsWithSpace s'
      end
  end.

(** ** Sample collaborators, for running the controller on concrete inputs *)

Definition noDuration : string -> option Z := fun _ => None.

Definition initial : State := {| log := []; clock := 0 |}.

Definition apiError (msg : string) : error := {| IsNotFound := false; Error := msg |}.

(** Two case orbits of Unicode that leave ASCII: K (75), k (107) and the
    Kelvin sign U+212A (8490); S (83), s (115) and the long s U+017F (383). *)
Definition sampleOrbits (sr tr : Z) : bool :=
  ((sr =? 75) || (sr =? 107)) && (tr =? 8490)
  || ((sr =? 83) || (sr =? 115)) && (tr =? 383).

(** The Kelvin sign in UTF-8: the bytes E2 84 AA. *)
Definition kelvinSign : string :=
  String (ascii_of_nat 226) (String (ascii_of_nat 132) (String (ascii_of_nat 170) "")).

(** Clients that answer every call the same way, whatever came before, and
    take no time. *)
Definition constantClients (ingress : result Ingress)
    (certs : result (list acmtypes.CertificateSummary))
    (deleted : option error) (requested : result (option string))
    (described : result acmtypes.CertificateDetail)
    (zones : result (list route53types.HostedZone))
    (changed : option error) : IngressReconciler :=
  {| Get := fun _ _ => ingress;
     Update := fun _ obj => Ok obj;
     Patch := fun _ _ _ => None;
     ListCertificates := fun _ _ => certs;
     DeleteCertificate := fun _ _ => deleted;
     RequestCertificate := fun _ _ => requested;
     DescribeCertificate := fun _ _ => described;
     ListHostedZones := fun _ => zones;
     ChangeResourceRecordSets := fun _ _ => changed;
     Elapsed := fun _ _ => 0%N;
     SimpleFoldReaches := sampleOrbits |}.

(** A managed ingress for the domain foo.example.com. *)
Definition managedIngress (finalizers : list string) (deletion : option Z)
    (extra : gmap string string) : Ingress :=
  {| Annotations :=
       Some (<["acm.tedens.dev/managed" := "true"]>
             (<["acm.tedens.dev/domain" := "foo.example.com"]> extra));
     Finalizers := finalizers;
     DeletionTimestamp := deletion;
     Rules := [] |}.

Definition deletingIngress : Ingress :=
  managedIngress [ingressFinalizer] (Some 1700000000)
    {[ "acm.tedens.dev/delete-cert-on-ingress-delete" := "True" ]}.

Definition unmanagedIngress : Ingress :=
  {| Annotations :=
       Some (<["acm.tedens.dev/managed" := "false"]>
             (<["acm.tedens.dev/delete-cert-on-ingress-delete" := "true"]> ∅));
     Finalizers := [ingressFinalizer];
     DeletionTimestamp := Some 1700000000;
     Rules := [ {| Host := "foo.example.com" |} ] |}.

Definition sampleConfig : IngressConfig :=
  ParseIngressAnnotations noDuration
    {[ "acm.tedens.dev/managed" := "true"; "acm.tedens.dev/wildcard" := "true" ]}.

Definition fooCertificate : acmtypes.CertificateSummary :=
  {| acmtypes.DomainName := Some "Foo.Example.COM";
     acmtypes.CertificateArn := Some "arn:foo" |}.

Definition barCertificate : acmtypes.CertificateSummary :=
  {| acmtypes.DomainName := Some "bar.example.com";
     acmtypes.CertificateArn := Some "arn:bar" |}.

Definition wildcardCertificate : acmtypes.CertificateSummary :=
  {| acmtypes.DomainName := Some "*.foo.example.com";
     acmtypes.CertificateArn := Some "arn:star" |}.

Definition sampleRecord : acmtypes.ResourceRecord :=
  {| acmtypes.Name := Some "_a1.foo.example.com.";
     acmtypes.Type_ := "CNAME";
     acmtypes.Value := Some "_b2.acm-validations.aws." |}.

Definition sampleValidation : acmtypes.DomainValidation :=
  {| acmtypes.ValidationDomainName := Some "foo.example.com";
     acmtypes.ResourceRecord_ := Some sampleRecord |}.

Definition pendingCertificate (options : list acmtypes.DomainValidation)
    : acmtypes.CertificateDetail :=
  {| acmtypes.Status := acmtypes.CertificateStatusPendingValidation;
     acmtypes.FailureReason := "";
     acmtypes.DomainValidationOptions := options |}.

Definition sampleZone : route53types.HostedZone :=
  {| route53types.Id := Some "/hostedzone/Z1"; route53types.Name := Some "example.com." |}.

Definition subZone : route53types.HostedZone :=
  {| route53types.Id := Some "/hostedzone/Z2";
     route53types.Name := Some "foo.example.com." |}.

Definition rootZone : route53types.HostedZone :=
  {| route53types.Id := Some "/hostedzone/Z0"; route53types.Name := Some "." |}.

(** Clients whose zone listing answers [zones]; the other calls fail. *)
Definition zoneClients (zones : list route53types.HostedZone) : IngressReconciler :=
  constantClients (Err (apiError "unused")) (Err (apiError "unused")) None
    (Err (apiError "unused")) (Err (apiError "unused")) (Ok zones) None.

(** Clients whose certificate carries the sample requirement twice. *)
Definition validationClients (zones : list route53types.HostedZone) : IngressReconciler :=
  constantClients (Err (apiError "unused")) (Ok []) None (Ok (Some "arn:1"))
    (Ok (pendingCertificate [sampleValidation; sampleValidation])) (Ok zones) None.

(** Clients of a pass over [ingress]: the listing answers [certs], deleting
    answers [deleted], a request yields "arn:1", whose description is pending
    with the sample requirement twice; [zones] are the hosted zones. *)
Definition passClients (ingress : Ingress) (certs : list acmtypes.CertificateSummary)
    (deleted : option error) (zones : list route53types.HostedZone)
    : IngressReconciler :=
  constantClients (Ok ingress) (Ok certs) deleted (Ok (Some "arn:1"))
    (Ok (pendingCertificate [sampleValidation; sampleValidation])) (Ok zones) None.

(** Variations of given clients: one kind of call answered differently. *)
Definition withGet (answer : list call -> string -> result Ingress)
    (r : IngressReconciler) : IngressReconciler :=
  {| Get := answer; Update := Update r; Patch := Patch r;
     ListCertificates := ListCertificates r; DeleteCertificate := DeleteCertificate r;
     RequestCertificate := RequestCertificate r;
     DescribeCertificate := DescribeCertificate r;
     ListHostedZones := ListHostedZones r;
     ChangeResourceRecordSets := ChangeResourceRecordSets r; Elapsed := Elapsed r;
     SimpleFoldReaches := SimpleFoldReaches r |}.

Definition withUpdate (answer : list call -> Ingress -> result Ingress)
    (r : IngressReconciler) : IngressReconciler :=
  {| Get := Get r; Update := answer; Patch := Patch r;
     ListCertificates := ListCertificates r; DeleteCertificate := DeleteCertificate r;
     RequestCertificate := RequestCertificate r;
     DescribeCertificate := DescribeCertificate r;
     ListHostedZones := ListHostedZones r;
     ChangeResourceRecordSets := ChangeResourceRecordSets r; Elapsed := Elapsed r;
     SimpleFoldReaches := SimpleFoldReaches r |}.

Definition withList
    (answer : list call -> list acmtypes.CertificateStatus ->
              result (list acmtypes.CertificateSummary))
    (r : IngressReconciler) : IngressReconciler :=
  {| Get := Get r; Update := Update r; Patch := Patch r;
     ListCertificates := answer; DeleteCertificate := DeleteCertificate r;
     RequestCertificate := RequestCertificate r;
     DescribeCertificate := DescribeCertificate r;
     ListHostedZones := ListHostedZones r;
     ChangeResourceRecordSets := ChangeResourceRecordSets r; Elapsed := Elapsed r;
     SimpleFoldReaches := SimpleFoldReaches r |}.

Definition withRequest
    (answer : list call -> acmtypes.RequestCertificateInput -> result (option string))
    (r : IngressReconciler) : IngressReconciler :=
  {| Get := Get r; Update := Update r; Patch := Patch r;
     ListCertificates := ListCertificates r; DeleteCertificate := DeleteCertificate r;
     RequestCertificate := answer;
     DescribeCertificate := DescribeCertificate r;
     ListHostedZones := ListHostedZones r;
     ChangeResourceRecordSets := ChangeResourceRecordSets r; Elapsed := Elapsed r;
     SimpleFoldReaches := SimpleFoldReaches r |}.

Definition withDescribe
    (answer : list call -> option string -> result acmtypes.CertificateDetail)
    (r : IngressReconciler) : IngressReconciler :=
  {| Get := Get r; Update := Update r; Patch := Patch r;
     ListCertificates := ListCertificates r; DeleteCertificate := DeleteCertificate r;
     RequestCertificate := RequestCertificate r;
     DescribeCertificate := answer;
     ListHostedZones := ListHostedZones r;
     ChangeResourceRecordSets := ChangeResourceRecordSets r; Elapsed := Elapsed r;
     SimpleFoldReaches := SimpleFoldReaches r |}.

Definition goneError : error := {| IsNotFound := true; Error := "ingress not found" |}.

(** A managed ingress that carries the finalizer and is not being deleted. *)
Definition settledIngress : Ingress := managedIngress [ingressFinalizer] None ∅.

(** A managed ingress being deleted that has lost the finalizer. *)
Definition finalizedIngress : Ingress :=
  managedIngress [] (Some 1700000000)
    {[ "acm.tedens.dev/delete-cert-on-ingress-delete" := "true" ]}.

Definition shoutedCertificate : acmtypes.CertificateSummary :=
  {| acmtypes.DomainName := Some "FOO.EXAMPLE.COM";
     acmtypes.CertificateArn := Some "arn:shout" |}.

(** A certificate whose name starts with the Kelvin sign, which folds to
    the letter k, and one with the plain name. *)
Definition kelvinCertificate : acmtypes.CertificateSummary :=
  {| acmtypes.DomainName := Some (kelvinSign +:+ "ube.example.com");
     acmtypes.CertificateArn := Some "arn:kelvin" |}.

Definition kubeCertificate : acmtypes.CertificateSummary :=
  {| acmtypes.DomainName := Some "kube.example.com";
     acmtypes.CertificateArn := Some "arn:kube" |}.

(** A settled managed ingress whose domain annotation starts with the Kelvin
    sign. *)
Definition kelvinIngress : Ingress :=
  {| Annotations :=
       Some {[ "acm.tedens.dev/managed" := "true";
               "acm.tedens.dev/domain" := kelvinSign +:+ "ube.example.com" ]};
     Finalizers := [ingressFinalizer];
     DeletionTimestamp := None;
     Rules := [] |}.

(** A certificate with the sample requirement in the given status. *)
Definition certificateIn (status : acmtypes.CertificateStatus)
    : acmtypes.CertificateDetail :=
  {| acmtypes.Status := status;
     acmtypes.FailureReason := "";
     acmtypes.DomainValidationOptions := [sampleValidation] |}.

(** Describes the certificate as pending until two sleeps are logged, then
    as issued. *)
Definition issuedAfterTwoSleeps (l : list call) (arn : option string)
    : result acmtypes.CertificateDetail :=
  if (2 <=? countCalls isSleep l)%nat
  then Ok (certificateIn acmtypes.CertificateStatusIssued)
  else Ok (certificateIn acmtypes.CertificateStatusPendingValidation).

(** Describes the certificate as pending until forty-one sleeps are logged,
    which take more than the ten minutes of the poll loop, and as issued from
    then on. *)
Definition issuedAfterTimeout (l : list call) (arn : option string)
    : result acmtypes.CertificateDetail :=
  if (41 <=? countCalls isSleep l)%nat
  then Ok (certificateIn acmtypes.CertificateStatusIssued)
  else Ok (certificateIn acmtypes.CertificateStatusPendingValidation).

(** The sample configuration with the fields ensureCertificate does not read
    changed. *)
Definition otherConfig : IngressConfig :=
  {| Managed := false; DomainOverride := "elsewhere.example.com";
     ZoneID := ZoneID sampleConfig; Wildcard := Wildcard sampleConfig;
     SANs := SANs sampleConfig; CertTTL := 1;
     ReuseExisting := ReuseExisting sampleConfig;
     DeleteCertOnIngress := true; FallbackWildcard := true |}.

(** A managed ingress without a domain annotation and without rules, reuse
    switched off. *)
Definition namelessIngress : Ingress :=
  {| Annotations :=
       Some {[ "acm.tedens.dev/managed" := "true";
               "acm.tedens.dev/reuse-existing" := "false" ]};
     Finalizers := [ingressFinalizer];
     DeletionTimestamp := None;
     Rules := [] |}.

(** ** Facts about the string functions *)

Section StringFacts.

Local Open Scope nat_scope.

Lemma length_append (p s : string) :
  String.length (p +:+ s) = String.length p + String.length s.
Proof. induction p as [|c p IH]; simpl; [reflexivity | now rewrite IH]. Qed.

Lemma substring_whole (s : string) : String.substring 0 (String.length s) s = s.
Proof. induction s as [|c s IH]; simpl; [reflexivity | now rewrite IH]. Qed.

Lemma substring_past_prefix (p s : string) (n : nat) :
  String.substring (String.length p) n (p +:+ s) = String.substring 0 n s.
Proof. induction p as [|c p IH]; simpl; [reflexivity | exact IH]. Qed.

Lemma substring_prefix_of_append (p s : string) :
  String.substring 0 (String.length p) (p +:+ s) = p.
Proof. induction p as [|c p IH]; simpl; [now destruct s | now rewrite IH]. Qed.

Lemma substring_cut (s : string) (n : nat) :
  n <= String.length s ->
  s = String.substring 0 n s +:+ String.substring n (String.length s - n) s.
Proof.
  revert n; induction s as [|c s IH]; intros [|n] Hn; cbn in *.
  - reflexivity.
  - lia.
  - now rewrite substring_whole.
  - change (String c s = String c (String.substring 0 n s
                                    +:+ String.substring n (String.length s - n) s)).
    f_equal. apply IH. lia.
Qed.

Lemma HasSuffix_spec (s suffix : string) :
  strings.HasSuffix s suffix = true <-> isSuffixOf suffix s.
Proof.
  unfold strings.HasSuffix, isSuffixOf. rewrite andb_true_iff, Nat.leb_le, String.eqb_eq.
  split.
  - intros [Hlen Hsub].
    exists (String.substring 0 (String.length s - String.length suffix) s).
    rewrite (substring_cut s (String.length s - String.length suffix)) at 1 by lia.
    f_equal.
    replace (String.length s - (String.length s - String.length suffix))
      with (String.length suffix) by lia.
    exact Hsub.
  - intros [p ->]. rewrite length_append. split; [lia |].
    replace (String.length p + String.length suffix - String.length suffix)
      with (String.length p) by lia.
    now rewrite substring_past_prefix, substring_whole.
Qed.

Lemma TrimSuffix_append (p suffix : string) :
  strings.TrimSuffix (p +:+ suffix) suffix = p.
Proof.
  unfold strings.TrimSuffix.
  assert (H : strings.HasSuffix (p +:+ suffix) suffix = true)
    by (apply HasSuffix_spec; now exists p).
  rewrite H, length_append.
  replace (String.length p + String.length suffix - String.length suffix)
    with (String.length p) by lia.
  apply substring_prefix_of_append.
Qed.

Lemma TrimPrefix_append (prefix s : string) :
  strings.TrimPrefix (prefix +:+ s) prefix = s.
Proof.
  unfold strings.TrimPrefix, strings.HasPrefix.
  rewrite length_append, substring_prefix_of_append, String.eqb_refl.
  replace (String.length prefix <=? String.length prefix + String.length s) with true
    by (symmetry; apply Nat.leb_le; lia).
  simpl.
  replace (String.length prefix + String.length s - String.length prefix)
    with (String.length s) by lia.
  now rewrite substring_past_prefix, substring_whole.
Qed.

(** A byte below [RuneSelf] is a rune of its own. *)
Lemma runes_ascii (c : ascii) (s : string) :
(strings.byte c < strings.RuneSelf)%Z ->
  strings.runes (String c s) = strings.byte c :: strings.runes s.
Proof.
  intros H. cbn [strings.runes]. cbv zeta.
  now replace (strings.byte c <? strings.RuneSelf)%Z with true
    by (symmetry; now apply Z.ltb_lt).
Qed.

Lemma foldsRunes_length (reaches : Z -> Z -> bool) (s t : list Z) :
  strings.foldsRunes reaches s t = true -> List.length s = List.length t.
Proof.
  revert t; induction s as [| sr s IH]; intros [| tr t]; cbn; try discriminate.
  - reflexivity.
  - rewrite andb_true_iff. intros [_ H]. f_equal. now apply IH.
Qed.

(** Strings that fold to each other have the same number of runes (not, in
    general, of bytes). *)
Lemma EqualFold_runes (reaches : Z -> Z -> bool) (s t : string) :
  strings.EqualFold reaches s t = true ->
  List.length (strings.runes s) = List.length (strings.runes t).
Proof.
  revert t; induction s as [| a s IH]; intros [| b t];
    cbn [strings.EqualFold]; try discriminate.
  - reflexivity.
  - destruct (strings.RuneSelf <=? strings.byte a)%Z eqn:Ha.
    { cbn [orb]. apply foldsRunes_length. }
    destruct (strings.RuneSelf <=? strings.byte b)%Z eqn:Hb.
    { cbn [orb]. apply foldsRunes_length. }
    cbn [orb]. apply Z.leb_gt in Ha, Hb.
    destruct (_ || _); [| discriminate].
    intros H. rewrite !runes_ascii by assumption. cbn [List.length].
    f_equal. now apply IH.
Qed.

(** A name with the wildcard prefix never folds to the bare name. *)
Lemma EqualFold_wildcard (reaches : Z -> Z -> bool) (domain : string) :
  strings.EqualFold reaches ("*." +:+ domain) domain = false.
Proof.
  destruct (strings.EqualFold reaches ("*." +:+ domain) domain) eqn:E; [| reflexivity].
  apply EqualFold_runes in E.
  change ("*." +:+ domain) with (String "*" (String "." domain)) in E.
  rewrite !runes_ascii in E by reflexivity. cbn [List.length] in E. lia.
Qed.

(** Neither do both fold to the same third name. *)
Lemma EqualFold_not_both (reaches : Z -> Z -> bool) (name domain : string) :
  strings.EqualFold reaches name ("*." +:+ domain) = true ->
  strings.EqualFold reaches name domain = false.
Proof.
  intros Hw. destruct (strings.EqualFold reaches name domain) eqn:E; [| reflexivity].
  apply EqualFold_runes in Hw, E.
  change ("*." +:+ domain) with (String "*" (String "." domain)) in Hw.
  rewrite !runes_ascii in Hw by reflexivity. cbn [List.length] in Hw. lia.
Qed.

(** A byte-string split at its first "|" in only one way. *)
Lemma append_bar_inj (a a' b b' : string) :
  noBar a = true -> noBar a' = true ->
  a +:+ String "|" b = a' +:+ String "|" b' -> a = a' /\ b = b'.
Proof.
  revert a'; induction a as [|c a IH]; intros [|c' a'] Ha Ha' H.
  - now injection H.
  - injection H as <- _. discriminate.
  - injection H as -> _. discriminate.
  - cbn [noBar] in Ha, Ha'. apply andb_true_iff in Ha, Ha'.
    injection H as -> H. destruct (IH a' (proj2 Ha) (proj2 Ha') H) as [-> ->].
    now split.
Qed.

End StringFacts.

(** ** Facts about searching a list *)

Lemma find_none_of_Forall {A} (f : A -> bool) (l : list A) :
  Forall (fun x => f x = false) l -> List.find f l = None.
Proof.
  induction 1 as [|x l Hx _ IH]; simpl; [reflexivity | now rewrite Hx].
Qed.

Lemma find_first {A} (f : A -> bool) (before later : list A) (x : A) :
  Forall (fun y => f y = false) before -> f x = true ->
  List.find f (before ++ x :: later) = Some x.
Proof.
  induction 1 as [|y l Hy _ IH]; simpl; intros Hx.
  - now rewrite Hx.
  - rewrite Hy. now apply IH.
Qed.

(** ** Which calls each function performs *)

Section Calls.

Variable r : IngressReconciler.

Lemma performed_refl (s : State) : performed s s [].
Proof. reflexivity. Qed.

Lemma performed_trans (s1 s2 s3 : State) (evs1 evs2 : list call) :
  performed s1 s2 evs1 -> performed s2 s3 evs2 -> performed s1 s3 (evs2 ++ evs1).
Proof. unfold performed. intros H1 H2. now rewrite H2, H1, app_assoc. Qed.

Lemma performed_after (c : call) (s : State) : performed s (after r c s) [c].
Proof. reflexivity. Qed.

Lemma perform_state {A} (c : call) (answer : list call -> A) (s : State) :
  perform r c answer s = (answer (log s), after r c s).
Proof. reflexivity. Qed.

Lemma onlyCalls_ret {A} (P : call -> bool) (a : A) : onlyCalls P (ret a).
Proof. intros s. exists []. split; [reflexivity | constructor]. Qed.

Lemma onlyCalls_perform {A} (P : call -> bool) (c : call) (answer : list call -> A) :
  P c = true -> onlyCalls P (perform r c answer).
Proof. intros Hc s. exists [c]. split; [reflexivity | now repeat constructor]. Qed.

Lemma onlyCalls_bind {A B} (P : call -> bool) (m : M A) (k : A -> M B) :
  onlyCalls P m -> (forall a, onlyCalls P (k a)) -> onlyCalls P (bind m k).
Proof.
  intros Hm Hk s. unfold bind. destruct (Hm s) as (evs1 & H1 & F1).
  destruct (m s) as [a s1]. destruct (Hk a s1) as (evs2 & H2 & F2).
  exists (evs2 ++ evs1). split.
  - exact (performed_trans _ _ _ _ _ H1 H2).
  - apply Forall_app. now split.
Qed.

Lemma onlyCalls_weaken {A} (P Q : call -> bool) (m : M A) :
  (forall c, P c = true -> Q c = true) -> onlyCalls P m -> onlyCalls Q m.
Proof.
  intros HPQ Hm s. destruct (Hm s) as (evs & H & F). exists evs. split; [exact H |].
  eapply Forall_impl; [exact F | exact HPQ].
Qed.

Lemma deleteCertificateForDomain_calls (domain : string) :
  onlyCalls isCleanupCall (deleteCertificateForDomain r domain).
Proof.
  unfold deleteCertificateForDomain. apply onlyCalls_bind.
  - now apply onlyCalls_perform.
  - intros [certs | err]; [| apply onlyCalls_ret].
    destruct (find _ certs); [now apply onlyCalls_perform | apply onlyCalls_ret].
Qed.

Lemma findMatchingHostedZone_calls (domain : string) :
  onlyCalls isValidationCall (findMatchingHostedZone r domain).
Proof.
  unfold findMatchingHostedZone. apply onlyCalls_bind.
  - now apply onlyCalls_perform.
  - intros [zones | err]; [| apply onlyCalls_ret].
    destruct (String.eqb _ _); apply onlyCalls_ret.
Qed.

Lemma validateOptions_calls (zoneID : string) (options : list acmtypes.DomainValidation) :
  forall seen, onlyCalls isValidationCall (validateOptions r zoneID seen options).
Proof.
  induction options as [|option rest IH]; intros seen; simpl.
  - apply onlyCalls_ret.
  - destruct (acmtypes.ResourceRecord_ option) as [record |]; [| apply IH].
    destruct (default false _); [apply IH |].
    apply onlyCalls_bind.
    + destruct (String.eqb zoneID ""); [apply findMatchingHostedZone_calls | apply onlyCalls_ret].
    + intros [hostedZoneID [err |]]; [apply onlyCalls_ret |].
      apply onlyCalls_bind; [now apply onlyCalls_perform |].
      intros [err |]; [apply onlyCalls_ret | apply IH].
Qed.

Lemma createRoute53ValidationRecords_calls (certArn zoneID : string) :
  onlyCalls isValidationCall (createRoute53ValidationRecords r certArn zoneID).
Proof.
  unfold createRoute53ValidationRecords. apply onlyCalls_bind.
  - now apply onlyCalls_perform.
  - intros [certificate | err]; [apply validateOptions_calls | apply onlyCalls_ret].
Qed.

Lemma timeSleep_calls (d : Z) : onlyCalls isLifecycleCall (timeSleep r d).
Proof. intros s. exists [EvSleep d]. split; [reflexivity | now repeat constructor]. Qed.

Lemma pollCertificate_calls (rounds : nat) (deadline : Z) (certArn : string) :
  onlyCalls isLifecycleCall (pollCertificate r rounds deadline certArn).
Proof.
  induction rounds as [|rounds IH]; simpl; [apply onlyCalls_ret |].
  apply onlyCalls_bind; [intros s; exists []; split; [reflexivity | constructor] |].
  intros now. destruct (After now deadline); [apply onlyCalls_ret |].
  apply onlyCalls_bind; [now apply onlyCalls_perform |].
  intros [certificate | err]; [| apply onlyCalls_ret].
  destruct (String.eqb _ _); [apply onlyCalls_ret |].
  destruct (String.eqb _ _); [apply onlyCalls_ret |].
  apply onlyCalls_bind; [apply timeSleep_calls | intros _; exact IH].
Qed.

(** awaitCertificate is the loop, run from the current time with its
    deadline [Timeout] later, and yields what the loop returns. *)
Lemma awaitCertificate_poll (certArn : string) (s : State)
    (outcome : string * option error) (s' : State) :
  pollCertificate r pollRounds (clock s + Timeout) certArn s = (Some outcome, s') ->
  awaitCertificate r certArn s = (outcome, s').
Proof.
  intros H. unfold awaitCertificate.
  generalize (pollCertificate_rounds_suffice r certArn s). rewrite H. reflexivity.
Qed.

Lemma awaitCertificate_returned (certArn : string) (s : State) :
  pollCertificate r pollRounds (clock s + Timeout) certArn s
  = (Some (fst (awaitCertificate r certArn s)), snd (awaitCertificate r certArn s)).
Proof.
  destruct (pollCertificate r pollRounds (clock s + Timeout) certArn s)
    as [[outcome |] s'] eqn:E.
  - now rewrite (awaitCertificate_poll _ _ _ _ E).
  - exfalso. apply (pollCertificate_rounds_suffice r certArn s). now rewrite E.
Qed.

Lemma awaitCertificate_calls (certArn : string) :
  onlyCalls isLifecycleCall (awaitCertificate r certArn).
Proof.
  intros s.
  destruct (pollCertificate_calls pollRounds (clock s + Timeout) certArn s)
    as (evs & Hp & F).
  rewrite awaitCertificate_returned in Hp. now exists evs.
Qed.

Lemma isValidationCall_lifecycle (c : call) :
  isValidationCall c = true -> isLifecycleCall c = true.
Proof. now destruct c. Qed.

Lemma bind_perform_first {A B} (P : call -> bool) (c : call)
    (answer : list call -> A) (k : A -> M B) :
  (forall a, onlyCalls P (k a)) ->
  forall s, exists evs,
    performed s (snd (bind (perform r c answer) k s)) (evs ++ [c])
    /\ Forall (fun c => P c = true) evs.
Proof.
  intros Hk s. unfold bind. rewrite perform_state.
  destruct (Hk (answer (log s)) (after r c s)) as (evs & Hp & F).
  exists evs. split; [| exact F].
  exact (performed_trans _ _ _ _ _ (performed_after c s) Hp).
Qed.

(** The first call of requestAndValidate is the certificate request. *)
Lemma requestAndValidate_request_first (domain : string) (cfg : IngressConfig) :
  forall s, exists evs,
    performed s (snd (requestAndValidate r domain cfg s))
      (evs ++ [EvRequestCertificate (requestInput domain cfg)])
    /\ Forall (fun c => isLifecycleCall c = true) evs.
Proof.
  unfold requestAndValidate. apply bind_perform_first.
  intros [arn | err]; [| apply onlyCalls_ret].
  apply onlyCalls_bind.
  - eapply onlyCalls_weaken; [exact isValidationCall_lifecycle |].
    apply createRoute53ValidationRecords_calls.
  - intros [err |]; [apply onlyCalls_ret | apply awaitCertificate_calls].
Qed.

Lemma requestAndValidate_calls (domain : string) (cfg : IngressConfig) :
  onlyCalls isLifecycleCall (requestAndValidate r domain cfg).
Proof.
  intros s. destruct (requestAndValidate_request_first domain cfg s) as (evs & Hp & F).
  eexists. split; [exact Hp |]. apply Forall_app. split; [exact F | now repeat constructor].
Qed.

Lemma ensureCertificate_calls (domain : string) (cfg : IngressConfig) :
  onlyCalls isLifecycleCall (ensureCertificate r domain cfg).
Proof.
  unfold ensureCertificate. destruct (ReuseExisting cfg); [| apply requestAndValidate_calls].
  apply onlyCalls_bind; [now apply onlyCalls_perform |].
  intros [certs | err]; [| apply onlyCalls_ret].
  destruct (find _ certs); [apply onlyCalls_ret | apply requestAndValidate_calls].
Qed.

End Calls.

(** ** The annotation resolver *)

Lemma Managed_true_iff (pd : string -> option Z) (annotations : gmap string string) :
  Managed (ParseIngressAnnotations pd annotations) = true
  <-> annotations !! "acm.tedens.dev/managed" = Some "true".
Proof.
  simpl. rewrite String.eqb_eq, lookup_total_alt.
  destruct (annotations !! "acm.tedens.dev/managed") as [v |]; simpl.
  - split; congruence.
  - split; discriminate.
Qed.

(** The two flags that are lower-cased before the comparison. *)
Lemma Wildcard_true_iff (pd : string -> option Z) (annotations : gmap string string) :
  Wildcard (ParseIngressAnnotations pd annotations) = true
  <-> strings.ToLower (annotations !!! "acm.tedens.dev/wildcard") = "true".
Proof. simpl. apply String.eqb_eq. Qed.

Lemma DeleteCertOnIngress_true_iff (pd : string -> option Z)
    (annotations : gmap string string) :
  DeleteCertOnIngress (ParseIngressAnnotations pd annotations) = true
  <-> strings.ToLower (annotations !!! "acm.tedens.dev/delete-cert-on-ingress-delete")
      = "true".
Proof. simpl. apply String.eqb_eq. Qed.

(** The subject-alternative names: the trimmed pieces between the commas when
    the annotation is present, none when it is absent. *)
Lemma SANs_present (pd : string -> option Z) (annotations : gmap string string)
    (sanStr : string) :
  annotations !! "acm.tedens.dev/san" = Some sanStr ->
  SANs (ParseIngressAnnotations pd annotations)
  = map strings.TrimSpace (strings.Split sanStr ",").
Proof. intros H. simpl. now rewrite H. Qed.

Lemma SANs_absent (pd : string -> option Z) (annotations : gmap string string) :
  annotations !! "acm.tedens.dev/san" = None ->
  SANs (ParseIngressAnnotations pd annotations) = [].
Proof. intros H. simpl. now rewrite H. Qed.

(** C2, on the code: only [wildcard] and [delete-cert-on-ingress-delete] are
    compared case-insensitively. The value "True" enables those two, but it
    does not enable [managed] or [fallback-wildcard], and "FALSE" does not
    disable [reuse-existing]: these three are compared byte for byte. *)
Theorem C2_flags_compared_byte_for_byte (pd : string -> option Z) :
  Wildcard (ParseIngressAnnotations pd {[ "acm.tedens.dev/wildcard" := "True" ]}) = true
  /\ DeleteCertOnIngress
       (ParseIngressAnnotations pd
          {[ "acm.tedens.dev/delete-cert-on-ingress-delete" := "TRUE" ]}) = true
  /\ Managed (ParseIngressAnnotations pd {[ "acm.tedens.dev/managed" := "True" ]}) = false
  /\ FallbackWildcard
       (ParseIngressAnnotations pd {[ "acm.tedens.dev/fallback-wildcard" := "TRUE" ]})
     = false
  /\ ReuseExisting
       (ParseIngressAnnotations pd {[ "acm.tedens.dev/reuse-existing" := "FALSE" ]})
     = true
  /\ ReuseExisting (ParseIngressAnnotations pd ∅) = true
  /\ ReuseExisting
       (ParseIngressAnnotations pd {[ "acm.tedens.dev/reuse-existing" := "false" ]})
     = false.
Proof. repeat split; vm_compute; reflexivity. Qed.

(** C8, on the code: an annotation that is present and empty yields one
    subject-alternative name, the empty string, and the certificate request
    carries it; only an absent annotation yields the empty list. A trailing
    comma adds an empty name in the same way. *)
Theorem C8_empty_san_annotation_yields_one_empty_name (pd : string -> option Z) :
  let cfg := ParseIngressAnnotations pd {[ "acm.tedens.dev/san" := "" ]} in
  SANs cfg = [""]
  /\ acmtypes.SubjectAlternativeNames (requestInput "foo.example.com" cfg) = [""]
  /\ SANs (ParseIngressAnnotations pd ∅) = []
  /\ SANs (ParseIngressAnnotations pd
             {[ "acm.tedens.dev/san" := " a.example.com , b.example.com," ]})
     = ["a.example.com"; "b.example.com"; ""].
Proof. repeat split; vm_compute; reflexivity. Qed.

(** ** The reconciliation state machine *)

Lemma RemoveFinalizer_removes (o : Ingress) (finalizer : string) :
  controllerutil.ContainsFinalizer (controllerutil.RemoveFinalizer o finalizer) finalizer
  = false.
Proof.
  unfold controllerutil.ContainsFinalizer, controllerutil.RemoveFinalizer.
  cbn [Finalizers controllerutil.SetFinalizers].
  apply not_true_is_false. intros H.
  apply existsb_exists in H. destruct H as (f & Hin & Heq).
  apply filter_In in Hin. destruct Hin as [_ Hne].
  apply String.eqb_eq in Heq. subst f. now rewrite String.eqb_refl in Hne.
Qed.

Section Reconciliation.

Variable ParseDuration : string -> option Z.
Variable r : IngressReconciler.

(** C7. A resource whose annotations lack the managed key, or give it a value
    other than "true", resolves to Managed = false, and its reconcile pass
    performs the read of the resource and nothing else: no update, no patch,
    no certificate or DNS call, no error and no requeue, whatever the other
    annotations, the deletion timestamp and the finalizers are. *)
Theorem C7_unmanaged_reconcile_is_noop (req : string) (s : State) (ingress : Ingress) :
  Get r (log s) req = Ok ingress ->
  GetAnnotations ingress !! "acm.tedens.dev/managed" <> Some "true" ->
  Managed (ParseIngressAnnotations ParseDuration (GetAnnotations ingress)) = false
  /\ exists s',
       Reconcile ParseDuration r req s = (({| RequeueAfter := 0 |}, None), s')
       /\ log s' = EvGet req :: log s.
Proof.
  intros Hget Hann.
  assert (Hm : Managed (ParseIngressAnnotations ParseDuration (GetAnnotations ingress))
               = false).
  { destruct (Managed _) eqn:E; [| reflexivity].
    apply Managed_true_iff in E. contradiction. }
  split; [exact Hm |].
  exists (after r (EvGet req) s). split; [| reflexivity].
  unfold Reconcile, bind. rewrite perform_state, Hget, Hm. reflexivity.
Qed.

(** The cleanup fails when its listing fails or when deleting the first
    matching certificate fails; without a match it succeeds and deletes
    nothing. *)
Lemma deleteCertificateForDomain_list_fails (domain : string) (s : State) (err : error) :
  ListCertificates r (log s) listedStatuses = Err err ->
  deleteCertificateForDomain r domain s
  = (Some err, after r (EvListCertificates listedStatuses) s).
Proof.
  intros H. unfold deleteCertificateForDomain, bind. now rewrite perform_state, H.
Qed.

(** Of the listed certificates that match the domain, the cleanup deletes
    the first one only, and returns what that delete call returned. A
    certificate matches when strings.EqualFold equates its name with the
    domain, through whatever case orbits the platform has: ASCII letters fold
    byte by byte, other characters rune by rune. *)
Lemma deleteCertificateForDomain_first_match (domain : string) (s : State)
    (before later : list acmtypes.CertificateSummary)
    (cert : acmtypes.CertificateSummary) :
  let s1 := after r (EvListCertificates listedStatuses) s in
  ListCertificates r (log s) listedStatuses = Ok (before ++ cert :: later) ->
  Forall (fun c => matchesDomain r domain c = false) before ->
  matchesDomain r domain cert = true ->
  deleteCertificateForDomain r domain s
  = (DeleteCertificate r (log s1) (acmtypes.CertificateArn cert),
     after r (EvDeleteCertificate (acmtypes.CertificateArn cert)) s1).
Proof.
  intros s1 H Hbefore Hcert. unfold deleteCertificateForDomain, bind.
  rewrite perform_state, H, (find_first _ _ _ _ Hbefore Hcert). reflexivity.
Qed.

Lemma deleteCertificateForDomain_no_match (domain : string) (s : State)
    (certs : list acmtypes.CertificateSummary) :
  ListCertificates r (log s) listedStatuses = Ok certs ->
  Forall (fun c => matchesDomain r domain c = false) certs ->
  deleteCertificateForDomain r domain s
  = (None, after r (EvListCertificates listedStatuses) s).
Proof.
  intros H Hnone. unfold deleteCertificateForDomain, bind.
  rewrite perform_state, H, (find_none_of_Forall _ _ Hnone). reflexivity.
Qed.

(** C1. On a reconcile of a managed resource that is being deleted and still
    carries the finalizer: when DeleteCertOnIngress is set and the cleanup
    fails, the reconcile returns that error, and between its start and its
    end no update and no patch is sent, so the finalizer stays; when the
    cleanup succeeds, or DeleteCertOnIngress is not set, the last call of the
    pass is the update that persists the resource without the finalizer. *)
Theorem C1_finalizer_removed_only_after_cleanup
    (req : string) (s : State) (ingress : Ingress) :
  let cfg := ParseIngressAnnotations ParseDuration (GetAnnotations ingress) in
  let domain := resolveDomain ingress cfg in
  let s1 := after r (EvGet req) s in
  let removed := controllerutil.RemoveFinalizer ingress ingressFinalizer in
  Get r (log s) req = Ok ingress ->
  Managed cfg = true ->
  IsZero (DeletionTimestamp ingress) = false ->
  controllerutil.ContainsFinalizer ingress ingressFinalizer = true ->
  (forall err s2,
      DeleteCertOnIngress cfg = true ->
      deleteCertificateForDomain r domain s1 = (Some err, s2) ->
      Reconcile ParseDuration r req s = ((noResult, Some err), s2)
      /\ exists evs, performed s s2 evs /\ Forall (fun c => isWrite c = false) evs)
  /\ (forall s2,
        (DeleteCertOnIngress cfg = true
         /\ deleteCertificateForDomain r domain s1 = (None, s2))
        \/ (DeleteCertOnIngress cfg = false /\ s2 = s1) ->
        controllerutil.ContainsFinalizer removed ingressFinalizer = false
        /\ Reconcile ParseDuration r req s
           = ((noResult,
               match Update r (log s2) removed with
               | Err err => Some err
               | Ok _ => None
               end),
              after r (EvUpdate removed) s2)).
Proof.
  intros cfg domain s1 removed Hget Hm Hdel Hfin. split.
  - intros err s2 Hflag Hclean. split.
    + unfold Reconcile, bind. rewrite perform_state, Hget.
      fold cfg. rewrite Hm, Hdel, Hfin, Hflag. cbn [negb]. cbv beta iota.
      fold domain s1. rewrite Hclean. reflexivity.
    + destruct (deleteCertificateForDomain_calls r domain s1) as (evs & Hp & F).
      rewrite Hclean in Hp. simpl in Hp.
      exists (evs ++ [EvGet req]). split.
      * exact (performed_trans _ _ _ _ _ (performed_after r (EvGet req) s) Hp).
      * apply Forall_app. split; [| now repeat constructor].
        eapply Forall_impl; [exact F |]. intros c Hc. now destruct c.
  - intros s2 Hcase. split.
    + apply RemoveFinalizer_removes.
    + unfold Reconcile, bind. rewrite perform_state, Hget.
      fold cfg. rewrite Hm, Hdel, Hfin. cbn [negb]. cbv beta iota.
      fold domain s1 removed.
      destruct Hcase as [[Hflag Hclean] | [Hflag ->]]; rewrite Hflag.
      * rewrite Hclean, perform_state.
        now destruct (Update r (log s2) removed).
      * unfold ret at 1. rewrite perform_state.
        now destruct (Update r (log s1) removed).
Qed.

End Reconciliation.

(** ** The certificate lifecycle manager *)

Section Lifecycle.

Variable r : IngressReconciler.

Lemma ensureCertificate_miss (domain : string) (cfg : IngressConfig) (s s1 : State) :
  reuseMisses r domain cfg s s1 ->
  ensureCertificate r domain cfg s = requestAndValidate r domain cfg s1.
Proof.
  unfold ensureCertificate.
  intros [[-> ->] | (-> & certs & Hlist & Hnone & ->)]; [reflexivity |].
  unfold bind. rewrite perform_state, Hlist.
  now rewrite (find_none_of_Forall _ _ Hnone).
Qed.

(** C5. With ReuseExisting set, when the listing of the certificates in
    status Issued or PendingValidation contains a certificate whose domain
    name equals the input domain up to case, ensureCertificate returns the
    identifier of the first such certificate without error, and the listing
    is the only call it makes: no request, no DNS change, no describe, no
    sleep. Equality up to case is that of strings.EqualFold, whatever the
    case orbits of the platform are: ASCII letters fold byte by byte, other
    characters rune by rune through the orbits. *)
Theorem C5_reuse_returns_first_match (domain : string) (cfg : IngressConfig)
    (s : State) (before later : list acmtypes.CertificateSummary)
    (cert : acmtypes.CertificateSummary) :
  ReuseExisting cfg = true ->
  ListCertificates r (log s) listedStatuses = Ok (before ++ cert :: later) ->
  Forall (fun c => strings.EqualFold (SimpleFoldReaches r)
                     (aws.ToString (acmtypes.DomainName c)) domain = false) before ->
  strings.EqualFold (SimpleFoldReaches r)
    (aws.ToString (acmtypes.DomainName cert)) domain = true ->
  exists s',
    ensureCertificate r domain cfg s
    = ((aws.ToString (acmtypes.CertificateArn cert), None), s')
    /\ log s' = EvListCertificates listedStatuses :: log s.
Proof.
  intros Hreuse Hlist Hbefore Hcert.
  exists (after r (EvListCertificates listedStatuses) s). split; [| reflexivity].
  unfold ensureCertificate, bind. rewrite Hreuse, perform_state, Hlist.
  now rewrite (find_first (matchesDomain r domain) before later cert Hbefore Hcert).
Qed.

(** C9. When the reuse check finds nothing, the certificate request succeeds
    and creating the DNS validation records then fails, ensureCertificate
    returns the identifier of the certificate just requested together with
    that error, in the very state in which the record creation returned: it
    never sleeps or polls, and it deletes no certificate. *)
Theorem C9_record_failure_returns_identifier_and_error
    (domain : string) (cfg : IngressConfig) (s s1 s3 : State)
    (arn : option string) (err : error) :
  let req := requestInput domain cfg in
  reuseMisses r domain cfg s s1 ->
  RequestCertificate r (log s1) req = Ok arn ->
  createRoute53ValidationRecords r (aws.ToString arn) (ZoneID cfg)
    (after r (EvRequestCertificate req) s1) = (Some err, s3) ->
  ensureCertificate r domain cfg s = ((aws.ToString arn, Some err), s3)
  /\ exists evs,
       performed s s3 evs /\ Forall (fun c => isDeleteOrSleep c = false) evs.
Proof.
  intros req Hmiss Hreq Hrec. split.
  - rewrite (ensureCertificate_miss _ _ _ _ Hmiss).
    unfold requestAndValidate, bind. fold req. rewrite perform_state, Hreq, Hrec.
    reflexivity.
  - destruct (createRoute53ValidationRecords_calls r (aws.ToString arn) (ZoneID cfg)
                (after r (EvRequestCertificate req) s1)) as (evs & Hp & F).
    rewrite Hrec in Hp. cbn [snd] in Hp.
    assert (F' : Forall (fun c => isDeleteOrSleep c = false) evs).
    { eapply Forall_impl; [exact F |]. intros c Hc. now destruct c. }
    destruct Hmiss as [[_ ->] | (_ & certs & _ & _ & ->)].
    + exists (evs ++ [EvRequestCertificate req]). split.
      * exact (performed_trans _ _ _ _ _ (performed_after r _ s) Hp).
      * apply Forall_app. split; [exact F' | now repeat constructor].
    + exists (evs ++ [EvRequestCertificate req; EvListCertificates listedStatuses]).
      split.
      * unfold performed in *. rewrite Hp, <- !app_assoc. reflexivity.
      * apply Forall_app. split; [exact F' | now repeat constructor].
Qed.

(** C10. With Wildcard and ReuseExisting set, a listing in which every
    certificate either carries the wildcard name "*.<domain>" (up to case) or
    does not match the bare domain contains no match for the reuse check,
    which compares against the bare domain: ensureCertificate goes on to
    request a certificate, and the request names "*.<domain>". In particular
    a certificate named "*.<domain>" never matches the input <domain>: names
    that strings.EqualFold equates have the same number of characters,
    whatever the case orbits of the platform are. *)
Theorem C10_wildcard_certificate_is_never_reused (domain : string)
    (cfg : IngressConfig) (s : State) (certs : list acmtypes.CertificateSummary) :
  let req := requestInput domain cfg in
  Wildcard cfg = true ->
  ReuseExisting cfg = true ->
  ListCertificates r (log s) listedStatuses = Ok certs ->
  Forall (fun cert => matchesDomain r ("*." +:+ domain) cert = true
                      \/ matchesDomain r domain cert = false) certs ->
  (forall cert, acmtypes.DomainName cert = Some ("*." +:+ domain) ->
                matchesDomain r domain cert = false)
  /\ List.find (matchesDomain r domain) certs = None
  /\ acmtypes.RequestDomainName req = Some ("*." +:+ domain)
  /\ exists evs,
       performed s (snd (ensureCertificate r domain cfg s))
         (evs ++ [EvRequestCertificate req; EvListCertificates listedStatuses]).
Proof.
  intros req Hwild Hreuse Hlist Hcerts.
  assert (Hnone : Forall (fun cert => matchesDomain r domain cert = false) certs).
  { eapply Forall_impl; [exact Hcerts |]. intros cert [Hw | Hb]; [| exact Hb].
    now apply EqualFold_not_both. }
  split; [| split; [| split]].
  - intros cert Hname. unfold matchesDomain. rewrite Hname. apply EqualFold_wildcard.
  - now apply find_none_of_Forall.
  - unfold req, requestInput. cbn [acmtypes.RequestDomainName]. now rewrite Hwild.
  - rewrite (ensureCertificate_miss domain cfg s
               (after r (EvListCertificates listedStatuses) s)).
    + destruct (requestAndValidate_request_first r domain cfg
                  (after r (EvListCertificates listedStatuses) s)) as (evs & Hp & _).
      exists evs. unfold performed in *. rewrite Hp, <- !app_assoc. reflexivity.
    + right. split; [exact Hreuse |]. now exists certs.
Qed.

End Lifecycle.

(** ** The poll loop *)

Section Polling.

Variable ParseDuration : string -> option Z.
Variable r : IngressReconciler.

Lemma clock_after (c : call) (s : State) :
  clock (after r c s) = clock s + Z.of_N (Elapsed r (log s) c).
Proof. reflexivity. Qed.

Lemma Interval_pos : 0 < Interval.
Proof. reflexivity. Qed.

(** A round that does not return moves the clock on by [Interval] at least. *)
Lemma clock_after_round (certArn : string) (s : State) :
  clock s + Interval
  <= clock (snd (timeSleep r Interval (after r (EvDescribeCertificate (Some certArn)) s))).
Proof.
  cbn [timeSleep snd clock]. rewrite clock_after.
  pose proof Interval_pos. lia.
Qed.

(** The loop always returns within the rounds it is given: [rounds] sleeps
    take the clock past any deadline less than [rounds] intervals away. *)
Lemma pollCertificate_returns (rounds : nat) (deadline : Z) (certArn : string) :
  forall s,
    deadline < clock s + Z.of_nat rounds * Interval ->
    exists res s', pollCertificate r (S rounds) deadline certArn s = (Some res, s').
Proof.
  induction rounds as [|rounds IH]; intros s Hd;
    cbn [pollCertificate]; unfold bind, timeNow;
    destruct (After (clock s) deadline) eqn:E; try (eexists _, _; reflexivity).
  - unfold After in E. apply Z.ltb_ge in E. lia.
  - rewrite perform_state.
    destruct (DescribeCertificate r (log s) (Some certArn)) as [certificate | err];
      [| eexists _, _; reflexivity].
    destruct (String.eqb _ _); [eexists _, _; reflexivity |].
    destruct (String.eqb _ _); [eexists _, _; reflexivity |].
    apply IH. pose proof (clock_after_round certArn s). cbn [timeSleep snd] in *. lia.
Qed.

(** The rounds ensureCertificate grants are enough: its loop never runs out
    of them. *)
Lemma pollCertificate_pollRounds (certArn : string) (s : State) :
  exists res s',
    pollCertificate r pollRounds (clock s + Timeout) certArn s = (Some res, s').
Proof.
  change pollRounds with (S 41). apply pollCertificate_returns.
  unfold Timeout, Interval, Minute, Second, Nanosecond. lia.
Qed.

Lemma pollState_log (certArn : string) (n : nat) (s : State) :
  log (pollState r certArn n s) = pollLog certArn n (log s).
Proof.
  unfold pollState, pollLog. induction n as [|n IH]; [reflexivity |].
  rewrite !Nat.iter_succ. now rewrite <- IH.
Qed.

Lemma pollState_succ (certArn : string) (n : nat) (s : State) :
  pollState r certArn (S n) s = pollState r certArn n (pollState r certArn 1 s).
Proof. unfold pollState. now rewrite Nat.iter_succ_r. Qed.

Lemma pollState_clock (certArn : string) (n : nat) (s : State) :
  clock s + Z.of_nat n * Interval <= clock (pollState r certArn n s).
Proof.
  revert s; induction n as [|n IH]; intros s; [cbn; lia |].
  rewrite pollState_succ. specialize (IH (pollState r certArn 1 s)).
  pose proof (clock_after_round certArn s) as H.
  change (snd (timeSleep r Interval (after r (EvDescribeCertificate (Some certArn)) s)))
    with (pollState r certArn 1 s) in H.
  lia.
Qed.

(** Every round of the loop that does not return logs one sleep. *)
Lemma pollLog_sleeps (certArn : string) (n : nat) (l : list call) :
  countCalls isSleep (pollLog certArn n l) = (n + countCalls isSleep l)%nat.
Proof.
  unfold pollLog. induction n as [|n IH]; [reflexivity |].
  rewrite Nat.iter_succ. unfold countCalls in *. cbn. now rewrite IH.
Qed.

(** The loop asks for the certificate only in rounds that start within the
    deadline. While each of these describe calls answers a status that is
    neither Issued nor Failed, the loop sleeps on, and it returns the timeout
    error in the first round that starts past the deadline, without another
    describe call: what the authority would answer from then on plays no
    part. *)
Lemma pollCertificate_until_deadline (rounds : nat) (deadline : Z) (certArn : string) :
  forall s,
    (forall n,
        clock (pollState r certArn n s) <= deadline ->
        exists certificate,
          DescribeCertificate r (pollLog certArn n (log s)) (Some certArn)
          = Ok certificate
          /\ keepsWaiting (acmtypes.Status certificate) = true) ->
    deadline < clock s + Z.of_nat rounds * Interval ->
    exists n,
      pollCertificate r (S rounds) deadline certArn s
      = (Some (certArn, Some (timeoutError certArn)), pollState r certArn n s)
      /\ deadline < clock (pollState r certArn n s)
      /\ forall k, (k < n)%nat -> clock (pollState r certArn k s) <= deadline.
Proof.
  induction rounds as [|rounds IH]; intros s Hwait Hd;
    cbn [pollCertificate]; unfold bind, timeNow;
    destruct (After (clock s) deadline) eqn:E; unfold After in E.
  - exists 0%nat. apply Z.ltb_lt in E.
    split; [reflexivity |]. split; [exact E | intros k Hk; lia].
  - apply Z.ltb_ge in E. lia.
  - exists 0%nat. apply Z.ltb_lt in E.
    split; [reflexivity |]. split; [exact E | intros k Hk; lia].
  - apply Z.ltb_ge in E. rewrite perform_state.
    destruct (Hwait 0%nat E) as (certificate & Hdesc & Hw).
    cbn [pollLog Nat.iter nat_rect] in Hdesc. rewrite Hdesc.
    unfold keepsWaiting in Hw. apply andb_true_iff in Hw.
    destruct Hw as [Hissued Hfailed]. apply negb_true_iff in Hissued, Hfailed.
    rewrite Hissued, Hfailed.
    change (snd (timeSleep r Interval (after r (EvDescribeCertificate (Some certArn)) s)))
      with (pollState r certArn 1 s).
    destruct (IH (pollState r certArn 1 s)) as (n & Hpoll & Hpast & Hbefore).
    + intros n Hn. rewrite <- pollState_succ in Hn.
      destruct (Hwait (S n) Hn) as (c' & Hc' & Hw'). exists c'. split; [| exact Hw'].
      rewrite <- pollState_log in Hc' |- *. now rewrite <- pollState_succ.
    + pose proof (pollState_clock certArn 1 s). lia.
    + exists (S n). rewrite pollState_succ.
      split; [exact Hpoll |]. split; [exact Hpast |].
      intros [|k] Hk; [exact E |]. rewrite pollState_succ. apply Hbefore. lia.
Qed.

Lemma AddFinalizer_annotations (o : Ingress) (finalizer : string) :
  Annotations (controllerutil.AddFinalizer o finalizer) = Annotations o.
Proof.
  unfold controllerutil.AddFinalizer.
  now destruct (controllerutil.ContainsFinalizer o finalizer).
Qed.

(** C3. A managed resource that is not being deleted reaches
    ensureCertificate with its finalizer in place; the reuse check finds
    nothing, the request succeeds and the validation records are created.
    If the describe call of every round of the poll loop that starts within
    ten minutes of the start of the loop answers PendingValidation (whatever
    the authority would answer later), then the loop runs until a round
    starts more than ten minutes after the start of the loop, every earlier
    round having started within them; in that round
    ensureCertificate returns the timeout error (with the identifier of the
    requested certificate), the reconcile returns that error, and the pass
    sends no patch: the only update it may have sent is the one adding the
    finalizer, which carries the annotations as they were read. *)
Theorem C3_pending_until_deadline_times_out
    (req : string) (s sE s1 s3 : State) (ingress ingress' : Ingress)
    (arn : option string) :
  let cfg := ParseIngressAnnotations ParseDuration (GetAnnotations ingress) in
  let domain := resolveDomain ingress cfg in
  let request := requestInput domain cfg in
  let certArn := aws.ToString arn in
  Get r (log s) req = Ok ingress ->
  Managed cfg = true ->
  IsZero (DeletionTimestamp ingress) = true ->
  finalizerEnsured r req s ingress ingress' sE ->
  reuseMisses r domain cfg sE s1 ->
  RequestCertificate r (log s1) request = Ok arn ->
  createRoute53ValidationRecords r certArn (ZoneID cfg)
    (after r (EvRequestCertificate request) s1) = (None, s3) ->
  (forall n,
      clock (pollState r certArn n s3) <= clock s3 + Timeout ->
      exists certificate,
        DescribeCertificate r (pollLog certArn n (log s3)) (Some certArn)
        = Ok certificate
        /\ acmtypes.Status certificate = acmtypes.CertificateStatusPendingValidation) ->
  exists n,
    let s' := pollState r certArn n s3 in
    ensureCertificate r domain cfg sE = ((certArn, Some (timeoutError certArn)), s')
    /\ clock s3 + Timeout < clock s'
    /\ (forall k, (k < n)%nat -> clock (pollState r certArn k s3) <= clock s3 + Timeout)
    /\ Reconcile ParseDuration r req s = ((noResult, Some (timeoutError certArn)), s')
    /\ exists evs,
         performed s s' evs
         /\ Forall (fun c => isPatch c = false) evs
         /\ forall obj, In (EvUpdate obj) evs -> Annotations obj = Annotations ingress.
Proof.
  intros cfg domain request certArn Hget Hm Hzero Hfin Hmiss Hreq Hrec Hpending.
  destruct (pollCertificate_until_deadline 41 (clock s3 + Timeout) certArn s3)
    as (n & Hpoll & Hclock & Hbefore).
  { intros k Hk. destruct (Hpending k Hk) as (certificate & Hdesc & Hstatus).
    exists certificate. split; [exact Hdesc |]. now rewrite Hstatus. }
  { change (Z.of_nat 41 * Interval) with (Timeout + Interval).
    pose proof Interval_pos. lia. }
  exists n. cbv zeta. set (s' := pollState r certArn n s3) in *.
  assert (Hensure : ensureCertificate r domain cfg sE
                    = ((certArn, Some (timeoutError certArn)), s')).
  { rewrite (ensureCertificate_miss _ _ _ _ _ Hmiss).
    unfold requestAndValidate, bind. fold request. rewrite perform_state, Hreq.
    fold certArn. rewrite Hrec.
    exact (awaitCertificate_poll r certArn s3 _ _ Hpoll). }
  split; [exact Hensure |]. split; [exact Hclock |]. split; [exact Hbefore |]. split.
  - unfold Reconcile, bind. rewrite perform_state, Hget. fold cfg.
    rewrite Hm, Hzero. cbn [negb]. cbv beta iota. fold domain.
    destruct Hfin as [(Hc & -> & ->) | (Hc & Hupd & ->)]; rewrite Hc; cbn [negb];
      cbv beta iota.
    + unfold attachCertificate, bind. now rewrite Hensure.
    + rewrite perform_state, Hupd. unfold attachCertificate, bind. now rewrite Hensure.
  - destruct (ensureCertificate_calls r domain cfg sE) as (evs & Hp & F).
    rewrite Hensure in Hp. cbn [snd] in Hp.
    assert (F' : Forall (fun c => isPatch c = false) evs).
    { eapply Forall_impl; [exact F |]. intros c Hc. now destruct c. }
    assert (Hno : forall obj, ~ In (EvUpdate obj) evs).
    { intros obj Hin. rewrite Forall_forall in F. apply list_elem_of_In in Hin.
      specialize (F _ Hin). discriminate. }
    destruct Hfin as [(_ & _ & ->) | (_ & _ & ->)].
    + exists (evs ++ [EvGet req]). split; [| split].
      * exact (performed_trans _ _ _ _ _ (performed_after r _ s) Hp).
      * apply Forall_app. split; [exact F' | now repeat constructor].
      * intros obj Hin. apply in_app_or in Hin. destruct Hin as [Hin | [Hin | []]].
        -- now apply Hno in Hin.
        -- discriminate.
    + exists (evs ++ [EvUpdate (controllerutil.AddFinalizer ingress ingressFinalizer);
                      EvGet req]).
      split; [| split].
      * unfold performed in *. rewrite Hp, <- !app_assoc. reflexivity.
      * apply Forall_app. split; [exact F' | now repeat constructor].
      * intros obj Hin. apply in_app_or in Hin.
        destruct Hin as [Hin | [Hin | [Hin | []]]].
        -- now apply Hno in Hin.
        -- injection Hin as <-. apply AddFinalizer_annotations.
        -- discriminate.
Qed.

End Polling.

(** ** The hosted-zone resolver *)

Section ZoneResolver.

Local Open Scope nat_scope.

Variable r : IngressReconciler.
Variable domain : string.

Lemma length_zero_iff (s : string) : String.length s = 0 <-> s = "".
Proof. destruct s; simpl; split; (reflexivity || discriminate). Qed.

(** The loop takes a zone exactly when it is a candidate longer than the
    current best. *)
Lemma betterZone_taken (best : string * nat) (zone : route53types.HostedZone) :
  candidate domain zone -> snd best < String.length (zoneName zone) ->
  betterZone domain best zone
  = (aws.ToString (route53types.Id zone), String.length (zoneName zone)).
Proof.
  intros [_ Hsuf] Hlen. unfold betterZone. fold (zoneName zone).
  apply HasSuffix_spec in Hsuf. rewrite Hsuf.
  apply Nat.ltb_lt in Hlen. now rewrite Hlen.
Qed.

Lemma betterZone_kept (best : string * nat) (zone : route53types.HostedZone) :
  (candidate domain zone -> String.length (zoneName zone) <= snd best) ->
  betterZone domain best zone = best.
Proof.
  intros H. unfold betterZone. fold (zoneName zone).
  destruct (strings.HasSuffix domain (zoneName zone)) eqn:Hsuf; [| reflexivity].
  destruct (snd best <? String.length (zoneName zone)) eqn:Hlen; [| reflexivity].
  apply Nat.ltb_lt in Hlen. apply HasSuffix_spec in Hsuf.
  assert (candidate domain zone).
  { split; [| exact Hsuf]. intros E. rewrite E in Hlen. simpl in Hlen. lia. }
  specialize (H H0). lia.
Qed.

Lemma candidate_dec (best : nat) (zone : route53types.HostedZone) :
  (candidate domain zone /\ best < String.length (zoneName zone))
  \/ (candidate domain zone -> String.length (zoneName zone) <= best).
Proof.
  destruct (strings.HasSuffix domain (zoneName zone)) eqn:Hsuf.
  - destruct (Nat.lt_ge_cases best (String.length (zoneName zone))) as [Hlt | Hge].
    + left. split; [| exact Hlt]. split; [| now apply HasSuffix_spec].
      intros E. rewrite E in Hlt. simpl in Hlt. lia.
    + right. intros _. exact Hge.
  - right. intros [_ H]. apply HasSuffix_spec in H. congruence.
Qed.

(** What the loop computes, from any current best. *)
Lemma scanZones_spec (zones : list route53types.HostedZone) :
  forall best : string * nat,
    (Forall (fun z => candidate domain z -> String.length (zoneName z) <= snd best) zones
     /\ scanZones domain zones best = best)
    \/ (exists before zone later,
          zones = before ++ zone :: later
          /\ candidate domain zone
          /\ snd best < String.length (zoneName zone)
          /\ Forall (fun z => candidate domain z ->
                       String.length (zoneName z) < String.length (zoneName zone)) before
          /\ Forall (fun z => candidate domain z ->
                       String.length (zoneName z) <= String.length (zoneName zone)) later
          /\ scanZones domain zones best
             = (aws.ToString (route53types.Id zone), String.length (zoneName zone))).
Proof.
  induction zones as [|z zones IH]; intros best.
  - left. split; [constructor | reflexivity].
  - unfold scanZones. cbn [fold_left]. fold (scanZones domain zones (betterZone domain best z)).
    destruct (candidate_dec (snd best) z) as [[Hc Hlt] | Hle].
    + rewrite (betterZone_taken best z Hc Hlt).
      destruct (IH (aws.ToString (route53types.Id z), String.length (zoneName z)))
        as [[Hall Heq] | (before & zone & later & -> & Hcz & Hlen & Hb & Hl & Heq)].
      * right. exists [], z, zones. cbn [snd] in Hall.
        refine (conj eq_refl (conj Hc (conj Hlt (conj _ (conj Hall Heq))))).
        constructor.
      * right. exists (z :: before), zone, later. cbn [snd] in Hlen.
        refine (conj eq_refl (conj Hcz (conj _ (conj _ (conj Hl Heq))))); [lia |].
        constructor; [intros _; exact Hlen | exact Hb].
    + rewrite (betterZone_kept best z Hle).
      destruct (IH best)
        as [[Hall Heq] | (before & zone & later & -> & Hcz & Hlen & Hb & Hl & Heq)].
      * left. split; [constructor; assumption | exact Heq].
      * right. exists (z :: before), zone, later.
        refine (conj eq_refl (conj Hcz (conj Hlen (conj _ (conj Hl Heq))))).
        constructor; [intros Hc; specialize (Hle Hc); lia | exact Hb].
Qed.

Lemma selected_unique (zones : list route53types.HostedZone)
    (z1 z2 : route53types.HostedZone) :
  selected domain zones z1 -> selected domain zones z2 -> z1 = z2.
Proof.
  intros (b1 & l1 & E1 & C1 & B1 & L1) (b2 & l2 & E2 & C2 & B2 & L2).
  rewrite E1 in E2. apply app_eq_app in E2.
  destruct E2 as [k [[Hb Hl] | [Hb Hl]]].
  - destruct k as [|x k]; cbn in Hl.
    + now injection Hl.
    + injection Hl as -> ->. subst b1.
      apply Forall_app in B1. destruct B1 as [_ B1].
      apply Forall_cons in B1. destruct B1 as [B1 _].
      apply Forall_app in L2. destruct L2 as [_ L2].
      apply Forall_cons in L2. destruct L2 as [L2 _].
      specialize (B1 C2). specialize (L2 C1). lia.
  - destruct k as [|x k]; cbn in Hl.
    + now injection Hl.
    + injection Hl as -> ->. subst b2.
      apply Forall_app in B2. destruct B2 as [_ B2].
      apply Forall_cons in B2. destruct B2 as [B2 _].
      apply Forall_app in L1. destruct L1 as [_ L1].
      apply Forall_cons in L1. destruct L1 as [L1 _].
      specialize (B2 C1). specialize (L1 C2). lia.
Qed.

End ZoneResolver.

(** C4, as stated, fails on the code: a zone whose stripped name is empty
    (the root zone ".") ends every domain, yet the resolver does not select
    it and fails. *)
Lemma C4_counterexample_root_zone :
  (exists zone, In zone [rootZone] /\ isSuffixOf (zoneName zone) "example.com")
  /\ fst (findMatchingHostedZone (zoneClients [rootZone]) "example.com" initial)
     = ("", Some (notFoundError "example.com")).
Proof.
  split; [| vm_compute; reflexivity].
  exists rootZone. split; [now left |]. exists "example.com". reflexivity.
Qed.

(** C4, amended. The resolver strips the trailing dot of each zone name and
    considers the zones whose stripped name is not empty and ends the domain.
    It fails when there is none. Otherwise it selects the first of those with
    the longest name, and returns the identifier of the selected zone without
    its "/hostedzone/" prefix, unless that identifier is empty, in which case
    it fails too. *)
Theorem C4_longest_nonempty_suffix_zone (r : IngressReconciler) (domain : string)
    (s : State) (zones : list route53types.HostedZone) :
  ListHostedZones r (log s) = Ok zones ->
  let outcome := fst (findMatchingHostedZone r domain s) in
  (forall zone p, route53types.Name zone = Some (p +:+ ".") -> zoneName zone = p)
  /\ ((forall zone, In zone zones -> ~ candidate domain zone) ->
      outcome = ("", Some (notFoundError domain)))
  /\ ((exists zone, In zone zones /\ candidate domain zone) ->
      exists zone, selected domain zones zone)
  /\ (forall zone, selected domain zones zone ->
      outcome
      = if String.eqb (aws.ToString (route53types.Id zone)) ""
        then ("", Some (notFoundError domain))
        else (strings.TrimPrefix (aws.ToString (route53types.Id zone)) "/hostedzone/",
              None))
  /\ (forall id, strings.TrimPrefix ("/hostedzone/" +:+ id) "/hostedzone/" = id).
Proof.
  intros Hlist outcome.
  assert (Hout : outcome
                 = let matched := fst (scanZones domain zones ("", 0%nat)) in
                   if String.eqb matched ""
                   then ("", Some (notFoundError domain))
                   else (strings.TrimPrefix matched "/hostedzone/", None)).
  { unfold outcome, findMatchingHostedZone, bind. rewrite perform_state, Hlist.
    cbv zeta. now destruct (String.eqb _ ""). }
  cbv zeta in Hout.
  assert (Hnone : forall z : route53types.HostedZone,
             candidate domain z -> (String.length (zoneName z) <= 0)%nat -> False).
  { intros z [Hne _] Hlen. apply Hne. apply length_zero_iff. lia. }
  split; [| split; [| split; [| split]]].
  - intros zone p Hname. unfold zoneName. rewrite Hname. apply TrimSuffix_append.
  - intros Hno. rewrite Hout.
    destruct (scanZones_spec domain zones ("", 0%nat))
      as [[_ ->] | (before & zone & later & -> & Hc & _)]; [reflexivity |].
    exfalso. apply (Hno zone); [| exact Hc]. apply in_or_app. right. now left.
  - intros (z & Hin & Hc).
    destruct (scanZones_spec domain zones ("", 0%nat))
      as [[Hall _] | (before & zone & later & E & Hcz & _ & Hb & Hl & _)].
    + exfalso. rewrite Forall_forall in Hall. apply list_elem_of_In in Hin.
      exact (Hnone z Hc (Hall z Hin Hc)).
    + exists zone, before, later. exact (conj E (conj Hcz (conj Hb Hl))).
  - intros zone Hsel. rewrite Hout.
    destruct (scanZones_spec domain zones ("", 0%nat))
      as [[Hall _] | (before & zone' & later & E & Hcz & _ & Hb & Hl & ->)].
    + exfalso. destruct Hsel as (b & l & -> & Hc & _).
      apply Forall_app in Hall. destruct Hall as [_ Hall].
      apply Forall_cons in Hall. destruct Hall as [Hall _].
      exact (Hnone zone Hc (Hall Hc)).
    + assert (Hsel' : selected domain zones zone')
        by (exists before, later; exact (conj E (conj Hcz (conj Hb Hl)))).
      rewrite (selected_unique domain zones zone zone' Hsel Hsel'). reflexivity.
  - intros id. apply TrimPrefix_append.
Qed.

(** C4 on two nested zones: the longer name wins. *)
Lemma C4_witness_nested_zones :
  fst (findMatchingHostedZone (zoneClients [sampleZone; subZone]) "foo.example.com"
         initial)
  = ("Z2", None).
Proof.
  destruct (C4_longest_nonempty_suffix_zone (zoneClients [sampleZone; subZone])
              "foo.example.com" initial [sampleZone; subZone] eq_refl)
    as (_ & _ & _ & H & _).
  apply (H subZone).
  exists [sampleZone], []. split; [reflexivity |]. split; [| split].
  - split; [discriminate | exists ""; reflexivity].
  - constructor; [| constructor]. intros _. vm_compute. lia.
  - constructor.
Defined.

(** ** The DNS validation orchestrator *)

Section Orchestrator.

Local Open Scope nat_scope.

Variable r : IngressReconciler.
Variable zoneID : string.

Lemma countUpserts_app (record : acmtypes.ResourceRecord) (evs1 evs2 : list call) :
  countUpserts record (evs1 ++ evs2)
  = countUpserts record evs1 + countUpserts record evs2.
Proof. unfold countUpserts. now rewrite List.filter_app, List.length_app. Qed.

Lemma isUpsertOf_upsert (record rec : acmtypes.ResourceRecord) (zone : string) :
  isUpsertOf record (EvChangeResourceRecordSets (upsertChange zone rec)) = true
  <-> rec = record.
Proof.
  unfold isUpsertOf. rewrite bool_decide_eq_true. cbn [upsertChange route53types.Changes].
  split.
  - intros H. destruct rec, record. cbn in H. now injection H as -> -> ->.
  - now intros ->.
Qed.

Lemma countUpserts_same (record : acmtypes.ResourceRecord) (zone : string) :
  countUpserts record [EvChangeResourceRecordSets (upsertChange zone record)] = 1.
Proof.
  unfold countUpserts. cbn [List.filter].
  now rewrite (proj2 (isUpsertOf_upsert record record zone) eq_refl).
Qed.

Lemma countUpserts_other (record rec : acmtypes.ResourceRecord) (zone : string) :
  rec <> record ->
  countUpserts record [EvChangeResourceRecordSets (upsertChange zone rec)] = 0.
Proof.
  intros Hne. unfold countUpserts. cbn [List.filter].
  destruct (isUpsertOf record _) eqn:E; [| reflexivity].
  apply isUpsertOf_upsert in E. contradiction.
Qed.

Lemma countUpserts_le_one (record rec : acmtypes.ResourceRecord) (zone : string) :
  countUpserts record [EvChangeResourceRecordSets (upsertChange zone rec)] <= 1.
Proof.
  unfold countUpserts. cbn [List.filter]. destruct (isUpsertOf record _); simpl; lia.
Qed.

(** Resolving the zone of a requirement upserts nothing. *)
Lemma resolveZone_upserts (name : string) (s : State) :
  exists evs,
    performed s
      (snd ((if String.eqb zoneID "" then findMatchingHostedZone r name
             else ret (zoneID, None)) s)) evs
    /\ forall record, countUpserts record evs = 0.
Proof.
  destruct (String.eqb zoneID "").
  - exists [EvListHostedZones]. split; [| reflexivity].
    unfold findMatchingHostedZone, bind. rewrite perform_state.
    destruct (ListHostedZones r (log s)) as [zones | err]; [| reflexivity].
    now destruct (String.eqb _ _).
  - exists []. split; reflexivity.
Qed.

Lemma firstWithKey_skip (option : acmtypes.DomainValidation)
    (rest : list acmtypes.DomainValidation) (key : string) :
  acmtypes.ResourceRecord_ option = None ->
  firstWithKey (option :: rest) key = firstWithKey rest key.
Proof. intros H. unfold firstWithKey. cbn [descriptors]. now rewrite H. Qed.

Lemma firstWithKey_cons (option : acmtypes.DomainValidation)
    (rest : list acmtypes.DomainValidation) (rec : acmtypes.ResourceRecord)
    (key : string) :
  acmtypes.ResourceRecord_ option = Some rec ->
  firstWithKey (option :: rest) key
  = if String.eqb (recordKey rec) key then Some rec else firstWithKey rest key.
Proof. intros H. unfold firstWithKey. cbn [descriptors]. now rewrite H. Qed.

(** Plain descriptors with the same deduplication key are the same. *)
Lemma recordKey_inj (rec rec' : acmtypes.ResourceRecord) :
  plainRecord rec = true -> plainRecord rec' = true ->
  recordKey rec = recordKey rec' -> rec = rec'.
Proof.
  destruct rec as [[name |] type [value |]], rec' as [[name' |] type' [value' |]];
    unfold plainRecord, recordKey; cbn [acmtypes.Name acmtypes.Type_ acmtypes.Value
                                         aws.ToString default];
    try discriminate.
  unfold id. intros Hp Hp' Hk. apply andb_true_iff in Hp, Hp'.
  destruct Hp as [Hn Ht], Hp' as [Hn' Ht'].
  apply (append_bar_inj name name' _ _ Hn Hn') in Hk. destruct Hk as [-> Hk].
  apply (append_bar_inj type type' _ _ Ht Ht') in Hk. destruct Hk as [-> ->].
  reflexivity.
Qed.

(** Among plain descriptors, each one is the first with its key. *)
Lemma firstWithKey_plain (options : list acmtypes.DomainValidation)
    (record : acmtypes.ResourceRecord) :
  Forall (fun rec => plainRecord rec = true) (descriptors options) ->
  In record (descriptors options) ->
  firstWithKey options (recordKey record) = Some record.
Proof.
  unfold firstWithKey. induction (descriptors options) as [|rec recs IH];
    intros Hall Hin; [contradiction |].
  apply Forall_cons in Hall. destruct Hall as [Hrec Hall]. cbn [List.find].
  assert (Hplain : plainRecord record = true).
  { destruct Hin as [<- | Hin]; [exact Hrec |].
    rewrite Forall_forall in Hall. apply Hall. now apply list_elem_of_In. }
  destruct (String.eqb (recordKey rec) (recordKey record)) eqn:Hk.
  - apply String.eqb_eq in Hk. now rewrite (recordKey_inj rec record Hrec Hplain Hk).
  - destruct Hin as [-> | Hin]; [now rewrite String.eqb_refl in Hk | now apply IH].
Qed.

(** The upserts of the loop, from any map of keys already seen: none for a
    key seen before, at most one for any record, and, when the loop ends
    without error, exactly one for the first record of each key not seen
    before. *)
Lemma validateOptions_upserts (options : list acmtypes.DomainValidation) :
  forall (seen : gmap string bool) (s : State),
    exists evs,
      performed s (snd (validateOptions r zoneID seen options s)) evs
      /\ (forall record,
             default false (seen !! recordKey record) = true ->
             countUpserts record evs = 0)
      /\ (forall record, countUpserts record evs <= 1)
      /\ (fst (validateOptions r zoneID seen options s) = None ->
          forall record,
            default false (seen !! recordKey record) = false ->
            firstWithKey options (recordKey record) = Some record ->
            countUpserts record evs = 1).
Proof.
  induction options as [|option rest IH]; intros seen s; cbn [validateOptions].
  - exists []. split; [reflexivity |]. split; [reflexivity |].
    split; [intros; cbn; lia |]. intros _ record _ H. discriminate.
  - destruct (acmtypes.ResourceRecord_ option) as [rec |] eqn:Hrec.
    2:{ destruct (IH seen s) as (evs & Hp & Ha & Hb & Hc).
        exists evs. split; [exact Hp |]. split; [exact Ha |]. split; [exact Hb |].
        intros Hnone record Hun Hfirst. rewrite firstWithKey_skip in Hfirst by exact Hrec.
        now apply Hc. }
    destruct (default false (seen !! recordKey rec)) eqn:Hseen.
    { destruct (IH seen s) as (evs & Hp & Ha & Hb & Hc).
      exists evs. split; [exact Hp |]. split; [exact Ha |]. split; [exact Hb |].
      intros Hnone record Hun Hfirst.
      rewrite (firstWithKey_cons _ _ _ _ Hrec) in Hfirst.
      destruct (String.eqb (recordKey rec) (recordKey record)) eqn:Hk.
      - apply String.eqb_eq in Hk. rewrite Hk in Hseen. congruence.
      - now apply Hc. }
    unfold bind.
    destruct (resolveZone_upserts
                (aws.ToString (acmtypes.ValidationDomainName option)) s)
      as (evz & Hpz & Hz).
    destruct ((if String.eqb zoneID ""
               then findMatchingHostedZone r
                      (aws.ToString (acmtypes.ValidationDomainName option))
               else ret (zoneID, None)) s) as [[hostedZoneID zerr] s1].
    cbn [snd] in Hpz.
    destruct zerr as [zerr |].
    { exists evz. split; [exact Hpz |]. split; [intros; apply Hz |].
      split; [intros record; rewrite Hz; lia | discriminate]. }
    rewrite perform_state.
    set (change := upsertChange hostedZoneID rec).
    assert (Hp1 : performed s (after r (EvChangeResourceRecordSets change) s1)
                    ([EvChangeResourceRecordSets change] ++ evz))
      by exact (performed_trans _ _ _ _ _ Hpz (performed_after r _ s1)).
    assert (Hseen_ne : forall record,
               default false (seen !! recordKey record) = true -> rec <> record).
    { intros record Hs ->. congruence. }
    destruct (ChangeResourceRecordSets r (log s1) change) as [cerr |].
    { exists ([EvChangeResourceRecordSets change] ++ evz).
      split; [exact Hp1 |]. split; [| split; [| discriminate]].
      - intros record Hs. rewrite countUpserts_app, Hz.
        unfold change. rewrite countUpserts_other; [reflexivity | now apply Hseen_ne].
      - intros record. rewrite countUpserts_app, Hz.
        pose proof (countUpserts_le_one record rec hostedZoneID). unfold change. lia. }
    destruct (IH (<[recordKey rec := true]> seen)
                (after r (EvChangeResourceRecordSets change) s1))
      as (evs & Hp & Ha & Hb & Hc).
    exists (evs ++ [EvChangeResourceRecordSets change] ++ evz).
    split; [exact (performed_trans _ _ _ _ _ Hp1 Hp) |].
    assert (Hrec_done : countUpserts rec evs = 0).
    { apply Ha. now rewrite lookup_insert_eq. }
    split; [| split].
    + intros record Hs. rewrite !countUpserts_app, Hz.
      unfold change. rewrite countUpserts_other by now apply Hseen_ne.
      rewrite Ha; [reflexivity |].
      destruct (String.eqb (recordKey rec) (recordKey record)) eqn:Hk.
      * apply String.eqb_eq in Hk. rewrite <- Hk. now rewrite lookup_insert_eq.
      * apply String.eqb_neq in Hk. now rewrite lookup_insert_ne.
    + intros record. rewrite !countUpserts_app, Hz. unfold change.
      destruct (isUpsertOf record
                  (EvChangeResourceRecordSets (upsertChange hostedZoneID rec))) eqn:E.
      * apply isUpsertOf_upsert in E. subst record.
        rewrite Hrec_done, countUpserts_same. lia.
      * specialize (Hb record).
        assert (countUpserts record
                  [EvChangeResourceRecordSets (upsertChange hostedZoneID rec)] = 0)
          by (unfold countUpserts; cbn [List.filter]; now rewrite E).
        lia.
    + intros Hnone record Hun Hfirst. rewrite !countUpserts_app, Hz. unfold change.
      rewrite (firstWithKey_cons _ _ _ _ Hrec) in Hfirst.
      destruct (String.eqb (recordKey rec) (recordKey record)) eqn:Hk.
      * injection Hfirst as <-. rewrite Hrec_done, countUpserts_same. lia.
      * apply String.eqb_neq in Hk.
        rewrite countUpserts_other by (intros ->; now apply Hk).
        rewrite (Hc Hnone record); [lia | | exact Hfirst].
        now rewrite lookup_insert_ne.
Qed.

(** Requirements without a record descriptor leave no trace. *)
Lemma validateOptions_skips (options : list acmtypes.DomainValidation) :
  forall (seen : gmap string bool) (s : State),
    validateOptions r zoneID seen options s
    = validateOptions r zoneID seen (List.filter hasRecord options) s.
Proof.
  induction options as [|option rest IH]; intros seen s; [reflexivity |].
  cbn [List.filter validateOptions]. unfold hasRecord at 1.
  destruct (acmtypes.ResourceRecord_ option) as [rec |] eqn:Hrec; [| apply IH].
  cbn [validateOptions]. rewrite Hrec.
  destruct (default false (seen !! recordKey rec)); [apply IH |].
  unfold bind.
  destruct ((if String.eqb zoneID ""
             then findMatchingHostedZone r
                    (aws.ToString (acmtypes.ValidationDomainName option))
             else ret (zoneID, None)) s) as [[hostedZoneID [zerr |]] s1];
    [reflexivity |].
  rewrite !perform_state.
  destruct (ChangeResourceRecordSets r (log s1) _); [reflexivity | apply IH].
Qed.

End Orchestrator.

(** C6, as stated, fails on the code: the certificate has two requirements
    with the same record descriptor, no zone override is given and no hosted
    zone matches, so the pass stops with an error before any upsert: the
    record gets no upsert call, not one. *)
Lemma C6_counterexample_zone_lookup_fails :
  descriptors [sampleValidation; sampleValidation] = [sampleRecord; sampleRecord]
  /\ fst (createRoute53ValidationRecords (validationClients []) "arn:1" "" initial)
     = Some (Errorf "failed to infer zone: " (notFoundError "foo.example.com"))
  /\ countUpserts sampleRecord
       (log (snd (createRoute53ValidationRecords (validationClients []) "arn:1" ""
                    initial)))
     = 0%nat.
Proof. repeat split; vm_compute; reflexivity. Qed.

(** C6, amended. Whatever requirements the certificate has, a pass issues at
    most one upsert call for any record; when the pass completes without
    error it issues exactly one for every record that is the first of the
    requirements' descriptors with its deduplication key, however often that
    descriptor is repeated, which is every descriptor when all of them are
    plain (a name and a value, no "|" in the name or the type); and the
    requirements without a descriptor are skipped: the pass is the same as
    on the list without them. *)
Theorem C6_at_most_one_upsert_per_record (r : IngressReconciler)
    (certArn zoneID : string) (s : State) (certificate : acmtypes.CertificateDetail) :
  DescribeCertificate r (log s) (Some certArn) = Ok certificate ->
  let options := acmtypes.DomainValidationOptions certificate in
  let run := createRoute53ValidationRecords r certArn zoneID s in
  (exists evs,
      performed s (snd run) evs
      /\ (forall record, (countUpserts record evs <= 1)%nat)
      /\ (fst run = None ->
          forall record,
            firstWithKey options (recordKey record) = Some record ->
            countUpserts record evs = 1%nat)
      /\ (fst run = None ->
          Forall (fun record => plainRecord record = true) (descriptors options) ->
          forall record,
            In record (descriptors options) -> countUpserts record evs = 1%nat))
  /\ run = validateOptions r zoneID ∅ (List.filter hasRecord options)
             (after r (EvDescribeCertificate (Some certArn)) s).
Proof.
  intros Hdesc options run.
  assert (Hrun : run = validateOptions r zoneID ∅ options
                         (after r (EvDescribeCertificate (Some certArn)) s)).
  { unfold run, createRoute53ValidationRecords, bind.
    now rewrite perform_state, Hdesc. }
  split; [| now rewrite Hrun, validateOptions_skips].
  destruct (validateOptions_upserts r zoneID options ∅
              (after r (EvDescribeCertificate (Some certArn)) s))
    as (evs & Hp & _ & Hb & Hc).
  rewrite <- Hrun in Hp, Hc.
  assert (Hone : fst run = None ->
                 forall record,
                   firstWithKey options (recordKey record) = Some record ->
                   countUpserts record (evs ++ [EvDescribeCertificate (Some certArn)])
                   = 1%nat).
  { intros Hnone record Hfirst. rewrite countUpserts_app.
    rewrite (Hc Hnone record); [reflexivity | | exact Hfirst].
    now rewrite lookup_empty. }
  exists (evs ++ [EvDescribeCertificate (Some certArn)]).
  split; [| split; [| split; [exact Hone |]]].
  - exact (performed_trans _ _ _ _ _ (performed_after r _ s) Hp).
  - intros record. rewrite countUpserts_app. specialize (Hb record).
    change (countUpserts record [EvDescribeCertificate (Some certArn)]) with 0%nat. lia.
  - intros Hnone Hplain record Hin. apply (Hone Hnone).
    now apply firstWithKey_plain.
Qed.

(** C6 on the sample certificate, whose two requirements carry the same
    record, with a matching zone: one upsert. *)
Lemma C6_witness_duplicate_requirement :
  countUpserts sampleRecord
    (log (snd (createRoute53ValidationRecords (validationClients [sampleZone]) "arn:1" ""
                 initial)))
  = 1%nat.
Proof.
  destruct (C6_at_most_one_upsert_per_record (validationClients [sampleZone]) "arn:1" ""
              initial (pendingCertificate [sampleValidation; sampleValidation]) eq_refl)
    as [(evs & Hp & _ & _ & Hc) _].
  unfold performed in Hp. cbn [log initial] in Hp. rewrite app_nil_r in Hp.
  rewrite Hp. apply Hc.
  - vm_compute. reflexivity.
  - repeat constructor.
  - now left.
Defined.

(** ** The properties on concrete passes *)

(** C7 on a resource marked managed = "false" that is being deleted and
    carries the finalizer. *)
Lemma C7_witness_unmanaged :
  exists s',
    Reconcile noDuration (passClients unmanagedIngress [fooCertificate] None [])
      "default/web" initial
    = (({| RequeueAfter := 0 |}, None), s')
    /\ log s' = [EvGet "default/web"].
Proof.
  apply (C7_unmanaged_reconcile_is_noop noDuration
           (passClients unmanagedIngress [fooCertificate] None [])
           "default/web" initial unmanagedIngress eq_refl).
  vm_compute. discriminate.
Defined.

(** C1 on a resource being deleted whose certificate cannot be deleted. *)
Lemma C1_witness_delete_fails :
  fst (Reconcile noDuration
         (passClients deletingIngress [barCertificate; fooCertificate]
            (Some (apiError "AccessDenied")) [])
         "default/web" initial)
  = (noResult, Some (apiError "AccessDenied")).
Proof.
  pose (r := passClients deletingIngress [barCertificate; fooCertificate]
               (Some (apiError "AccessDenied")) []).
  destruct (C1_finalizer_removed_only_after_cleanup noDuration r "default/web" initial
              deletingIngress eq_refl eq_refl eq_refl eq_refl) as [H _].
  destruct (H (apiError "AccessDenied")
              (snd (deleteCertificateForDomain r "foo.example.com"
                      (after r (EvGet "default/web") initial)))
              eq_refl eq_refl) as [Heq _].
  fold r. rewrite Heq. reflexivity.
Defined.

(** C5: of the listed certificates the second, whose name starts with the
    Kelvin sign, is the first to match kube.example.com up to case. *)
Lemma C5_witness_reuse :
  exists s',
    ensureCertificate
      (passClients deletingIngress [barCertificate; kelvinCertificate; kubeCertificate]
         None [])
      "kube.example.com" sampleConfig initial
    = (("arn:kelvin", None), s')
    /\ log s' = [EvListCertificates listedStatuses].
Proof.
  apply (C5_reuse_returns_first_match
           (passClients deletingIngress
              [barCertificate; kelvinCertificate; kubeCertificate] None [])
           "kube.example.com" sampleConfig initial [barCertificate] [kubeCertificate]
           kelvinCertificate eq_refl eq_refl).
  - constructor; [reflexivity | constructor].
  - reflexivity.
Defined.

(** C9: no hosted zone matches, so the records cannot be created. *)
Lemma C9_witness_zone_not_found :
  fst (ensureCertificate (passClients deletingIngress [] None []) "foo.example.com"
         sampleConfig initial)
  = ("arn:1", Some (Errorf "failed to infer zone: " (notFoundError "foo.example.com"))).
Proof.
  pose (r := passClients deletingIngress [] None []).
  pose (s1 := after r (EvListCertificates listedStatuses) initial).
  destruct (C9_record_failure_returns_identifier_and_error r "foo.example.com"
              sampleConfig initial s1
              (snd (createRoute53ValidationRecords r "arn:1" ""
                      (after r (EvRequestCertificate
                                  (requestInput "foo.example.com" sampleConfig)) s1)))
              (Some "arn:1")
              (Errorf "failed to infer zone: " (notFoundError "foo.example.com")))
    as [Heq _].
  - right. split; [reflexivity |]. exists []. repeat split. constructor.
  - reflexivity.
  - vm_compute. reflexivity.
  - fold r. rewrite Heq. reflexivity.
Defined.

(** C10: the only listed certificate is the wildcard one of an earlier
    pass. *)
Lemma C10_witness_wildcard_listed :
  exists evs,
    performed initial
      (snd (ensureCertificate
              (passClients deletingIngress [wildcardCertificate] None [sampleZone])
              "foo.example.com" sampleConfig initial))
      (evs ++ [EvRequestCertificate (requestInput "foo.example.com" sampleConfig);
               EvListCertificates listedStatuses]).
Proof.
  apply (C10_wildcard_certificate_is_never_reused
           (passClients deletingIngress [wildcardCertificate] None [sampleZone])
           "foo.example.com" sampleConfig initial [wildcardCertificate]
           eq_refl eq_refl eq_refl).
  constructor; [left; reflexivity | constructor].
Defined.

(** C3: a new resource whose certificate is pending during the ten minutes
    of the loop and issued right after them. *)
Lemma C3_witness_issued_after_deadline :
  fst (Reconcile noDuration
         (withDescribe issuedAfterTimeout
            (passClients (managedIngress [] None ∅) [] None [sampleZone]))
         "default/web" initial)
  = (noResult, Some (timeoutError "arn:1")).
Proof.
  pose (ingress := managedIngress [] None ∅).
  set (r := withDescribe issuedAfterTimeout (passClients ingress [] None [sampleZone])).
  pose (cfg := ParseIngressAnnotations noDuration (GetAnnotations ingress)).
  pose (sE := after r (EvUpdate (controllerutil.AddFinalizer ingress ingressFinalizer))
                (after r (EvGet "default/web") initial)).
  pose (s1 := after r (EvListCertificates listedStatuses) sE).
  pose (s3 := snd (createRoute53ValidationRecords r "arn:1" (ZoneID cfg)
                     (after r (EvRequestCertificate (requestInput "foo.example.com" cfg))
                        s1))).
  destruct (C3_pending_until_deadline_times_out noDuration r "default/web" initial sE s1
              s3 ingress (controllerutil.AddFinalizer ingress ingressFinalizer)
              (Some "arn:1"))
    as (n & _ & _ & _ & Heq & _).
  - reflexivity.
  - reflexivity.
  - reflexivity.
  - right. repeat split.
  - right. split; [reflexivity |]. exists []. repeat split. constructor.
  - reflexivity.
  - vm_compute. reflexivity.
  - intros n Hn. change (aws.ToString (Some "arn:1")) with "arn:1" in *.
    pose proof (pollState_clock r "arn:1" n s3) as Hmono.
    assert (Hearly : (n <= 40)%nat).
    { change Timeout with (40 * Interval) in Hn. pose proof Interval_pos. nia. }
    exists (certificateIn acmtypes.CertificateStatusPendingValidation).
    split; [| reflexivity].
    change (DescribeCertificate r) with issuedAfterTimeout.
    unfold issuedAfterTimeout. rewrite pollLog_sleeps.
    change (countCalls isSleep (log s3)) with 0%nat.
    now replace (41 <=? n + 0)%nat with false by (symmetry; apply Nat.leb_gt; lia).
  - change (fst (Reconcile noDuration r "default/web" initial)
            = (noResult, Some (timeoutError "arn:1"))).
    rewrite Heq. reflexivity.
Defined.

(** * Further properties of the controller *)

(** ** The other paths of Reconcile *)

Section ReconcilePaths.

Variable ParseDuration : string -> option Z.
Variable r : IngressReconciler.

(** When the resource cannot be read, the pass ends at once: a not-found
    error is swallowed (the resource is gone, nothing to do), any other
    error is returned; either way nothing is requeued and the read is the
    only call. *)
Theorem Reconcile_read_failure (req : string) (s : State) (err : error) :
  Get r (log s) req = Err err ->
  Reconcile ParseDuration r req s
  = ((noResult, if IsNotFound err then None else Some err), after r (EvGet req) s).
Proof.
  intros H. unfold Reconcile, bind. rewrite perform_state, H. reflexivity.
Qed.

(** A managed resource that is being deleted and no longer carries the
    finalizer is left alone: no call after the read, no error, no requeue,
    even with delete-cert-on-ingress-delete set. *)
Theorem Reconcile_already_finalized (req : string) (s : State) (ingress : Ingress) :
  Get r (log s) req = Ok ingress ->
  IsZero (DeletionTimestamp ingress) = false ->
  controllerutil.ContainsFinalizer ingress ingressFinalizer = false ->
  Reconcile ParseDuration r req s = ((noResult, None), after r (EvGet req) s).
Proof.
  intros Hget Hdel Hfin. unfold Reconcile, bind. rewrite perform_state, Hget, Hdel, Hfin.
  now destruct (Managed _).
Qed.

Lemma AddFinalizer_contains (o : Ingress) (finalizer : string) :
  controllerutil.ContainsFinalizer (controllerutil.AddFinalizer o finalizer) finalizer
  = true.
Proof.
  unfold controllerutil.AddFinalizer.
  destruct (controllerutil.ContainsFinalizer o finalizer) eqn:E; [exact E |].
  unfold controllerutil.ContainsFinalizer, controllerutil.SetFinalizers.
  cbn [Finalizers]. rewrite existsb_app. cbn [existsb].
  now rewrite String.eqb_refl, orb_true_r.
Qed.

Lemma AddFinalizer_keeps (o : Ingress) (finalizer f : string) :
  In f (Finalizers o) -> In f (Finalizers (controllerutil.AddFinalizer o finalizer)).
Proof.
  intros Hin. unfold controllerutil.AddFinalizer.
  destruct (controllerutil.ContainsFinalizer o finalizer); [exact Hin |].
  cbn [controllerutil.SetFinalizers Finalizers]. apply in_or_app. now left.
Qed.

(** When persisting the added finalizer fails, the pass returns that error
    after two calls, the read and the update: no certificate is listed or
    requested before the finalizer is stored. The object sent carries the
    finalizer and every finalizer the resource had. *)
Theorem Reconcile_finalizer_update_fails (req : string) (s : State)
    (ingress : Ingress) (err : error) :
  let cfg := ParseIngressAnnotations ParseDuration (GetAnnotations ingress) in
  let s0 := after r (EvGet req) s in
  let added := controllerutil.AddFinalizer ingress ingressFinalizer in
  Get r (log s) req = Ok ingress ->
  Managed cfg = true ->
  IsZero (DeletionTimestamp ingress) = true ->
  controllerutil.ContainsFinalizer ingress ingressFinalizer = false ->
  Update r (log s0) added = Err err ->
  Reconcile ParseDuration r req s = ((noResult, Some err), after r (EvUpdate added) s0)
  /\ controllerutil.ContainsFinalizer added ingressFinalizer = true
  /\ (forall f, In f (Finalizers ingress) -> In f (Finalizers added))
  /\ Annotations added = Annotations ingress.
Proof.
  intros cfg s0 added Hget Hm Hzero Hfin Hupd.
  split; [| split; [apply AddFinalizer_contains | split]].
  - unfold Reconcile, bind. rewrite perform_state, Hget. fold cfg.
    rewrite Hm, Hzero, Hfin. cbn [negb]. cbv beta iota. fold added s0.
    now rewrite perform_state, Hupd.
  - intros f. apply AddFinalizer_keeps.
  - apply AddFinalizer_annotations.
Qed.

(** Once the finalizer is in place and ensureCertificate has returned an
    identifier without error, the last call of the pass is the patch of the
    object whose certificate-arn annotation is that identifier, every other
    annotation and the finalizers being as before. When the patch succeeds
    the pass asks to be run again in twelve hours; when it fails the pass
    returns its error and asks for nothing. *)
Theorem Reconcile_attaches_certificate (req : string) (s sE s2 : State)
    (ingress ingress' : Ingress) (certArn : string) :
  let cfg := ParseIngressAnnotations ParseDuration (GetAnnotations ingress) in
  let domain := resolveDomain ingress cfg in
  let patched := SetAnnotation ingress' certificateArnAnnotation certArn in
  Get r (log s) req = Ok ingress ->
  Managed cfg = true ->
  IsZero (DeletionTimestamp ingress) = true ->
  finalizerEnsured r req s ingress ingress' sE ->
  ensureCertificate r domain cfg sE = ((certArn, None), s2) ->
  Reconcile ParseDuration r req s
  = (match Patch r (log s2) patched ingress' with
     | None => ({| RequeueAfter := 12 * Hour |}, None)
     | Some err => (noResult, Some err)
     end,
     after r (EvPatch patched ingress') s2)
  /\ GetAnnotations patched !! certificateArnAnnotation = Some certArn
  /\ (forall key, key <> certificateArnAnnotation ->
        GetAnnotations patched !! key = GetAnnotations ingress' !! key)
  /\ Finalizers patched = Finalizers ingress'.
Proof.
  intros cfg domain patched Hget Hm Hzero Hfin Hensure.
  split; [| split; [| split]].
  - unfold Reconcile, bind. rewrite perform_state, Hget. fold cfg.
    rewrite Hm, Hzero. cbn [negb]. cbv beta iota. fold domain.
    destruct Hfin as [(Hc & -> & ->) | (Hc & Hupd & ->)]; rewrite Hc; cbn [negb];
      cbv beta iota.
    + unfold attachCertificate, bind. rewrite Hensure. fold patched.
      rewrite perform_state. now destruct (Patch r (log s2) patched ingress).
    + rewrite perform_state, Hupd. unfold attachCertificate, bind.
      rewrite Hensure. fold patched.
      rewrite perform_state. now destruct (Patch r (log s2) patched ingress').
  - unfold patched, SetAnnotation, GetAnnotations. cbn [Annotations default].
    apply lookup_insert_eq.
  - intros key Hkey. unfold patched, SetAnnotation, GetAnnotations at 1.
    cbn [Annotations default]. now apply lookup_insert_ne.
  - reflexivity.
Qed.

(** The steady state: a managed resource with its finalizer, reuse on, and a
    listed certificate matching its domain (strings.EqualFold equates the
    two names, through whatever case orbits the platform has). The pass makes
    exactly three calls, the read, the listing and the patch that attaches
    the first matching certificate's identifier; it requests nothing. *)
Theorem Reconcile_reuses_listed_certificate (req : string) (s : State)
    (ingress : Ingress) (before later : list acmtypes.CertificateSummary)
    (cert : acmtypes.CertificateSummary) :
  let cfg := ParseIngressAnnotations ParseDuration (GetAnnotations ingress) in
  let domain := resolveDomain ingress cfg in
  let s0 := after r (EvGet req) s in
  let patched :=
    SetAnnotation ingress certificateArnAnnotation
      (aws.ToString (acmtypes.CertificateArn cert)) in
  Get r (log s) req = Ok ingress ->
  Managed cfg = true ->
  IsZero (DeletionTimestamp ingress) = true ->
  controllerutil.ContainsFinalizer ingress ingressFinalizer = true ->
  ReuseExisting cfg = true ->
  ListCertificates r (log s0) listedStatuses = Ok (before ++ cert :: later) ->
  Forall (fun c => matchesDomain r domain c = false) before ->
  matchesDomain r domain cert = true ->
  exists s',
    Reconcile ParseDuration r req s
    = (match Patch r (EvListCertificates listedStatuses :: EvGet req :: log s)
               patched ingress with
       | None => ({| RequeueAfter := 12 * Hour |}, None)
       | Some err => (noResult, Some err)
       end, s')
    /\ log s'
       = [EvPatch patched ingress; EvListCertificates listedStatuses; EvGet req] ++ log s.
Proof.
  intros cfg domain s0 patched Hget Hm Hzero Hfin Hreuse Hlist Hbefore Hcert.
  exists (after r (EvPatch patched ingress)
            (after r (EvListCertificates listedStatuses) s0)).
  split; [| reflexivity].
  unfold Reconcile, bind. rewrite perform_state, Hget. fold cfg.
  rewrite Hm, Hzero, Hfin. cbn [negb]. cbv beta iota. fold domain s0.
  unfold attachCertificate, ensureCertificate, bind. rewrite Hreuse.
  rewrite perform_state, Hlist, (find_first _ _ _ _ Hbefore Hcert).
  unfold ret at 1. fold patched. rewrite perform_state.
  change (log (after r (EvListCertificates listedStatuses) s0))
    with (EvListCertificates listedStatuses :: EvGet req :: log s).
  now destruct (Patch r _ patched ingress).
Qed.

End ReconcilePaths.

(** ** What a pass never does *)

Section PassInvariants.

Variable ParseDuration : string -> option Z.
Variable r : IngressReconciler.

Lemma cleanup_call_shape (domain : string) (s : State) :
  let s' := snd (deleteCertificateForDomain r domain s) in
  performed s s' [EvListCertificates listedStatuses]
  \/ exists arn,
       performed s s' [EvDeleteCertificate arn; EvListCertificates listedStatuses].
Proof.
  unfold deleteCertificateForDomain, bind. rewrite perform_state.
  destruct (ListCertificates r (log s) listedStatuses) as [certs | err];
    [| left; reflexivity].
  destruct (find (matchesDomain r domain) certs) as [cert |]; [| left; reflexivity].
  right. exists (acmtypes.CertificateArn cert). reflexivity.
Qed.

(** The cleanup lists the certificates once and then deletes at most one of
    them: its calls are the listing alone, or the listing followed by one
    delete, and never more than two. *)
Theorem cleanup_deletes_at_most_one (domain : string) (s : State) :
  exists evs,
    performed s (snd (deleteCertificateForDomain r domain s)) evs
    /\ (evs = [EvListCertificates listedStatuses]
        \/ exists arn,
             evs = [EvDeleteCertificate arn; EvListCertificates listedStatuses])
    /\ (countCalls isDelete evs <= 1)%nat.
Proof.
  destruct (cleanup_call_shape domain s) as [H | [arn H]]; eexists;
    (split; [exact H |]); (split; [| cbn; lia]).
  - now left.
  - right. now exists arn.
Qed.

Lemma cleanup_calls (domain : string) (s : State) :
  exists evs,
    performed s (snd (deleteCertificateForDomain r domain s)) evs
    /\ Forall (fun c => isDeletionPassCall c = true) evs
    /\ (countCalls isDelete evs <= 1)%nat.
Proof.
  destruct (cleanup_call_shape domain s) as [H | [arn H]]; eexists;
    (split; [exact H |]); split; try (repeat constructor); cbn; lia.
Qed.

(** A pass over a resource that is being deleted only reads and updates the
    resource and lists and deletes certificates: it never requests or
    describes a certificate, never touches DNS, never patches and never
    sleeps; and it deletes at most one certificate. *)
Theorem Reconcile_deleting_never_requests (req : string) (s : State)
    (ingress : Ingress) :
  Get r (log s) req = Ok ingress ->
  IsZero (DeletionTimestamp ingress) = false ->
  exists evs,
    performed s (snd (Reconcile ParseDuration r req s)) evs
    /\ Forall (fun c => isDeletionPassCall c = true) evs
    /\ (countCalls isDelete evs <= 1)%nat.
Proof.
  intros Hget Hdel. unfold Reconcile, bind. rewrite perform_state, Hget, Hdel.
  set (cfg := ParseIngressAnnotations ParseDuration (GetAnnotations ingress)).
  assert (Hread : exists evs,
             performed s (after r (EvGet req) s) evs
             /\ Forall (fun c => isDeletionPassCall c = true) evs
             /\ (countCalls isDelete evs <= 1)%nat).
  { exists [EvGet req]. split; [reflexivity |]. split; [now repeat constructor |].
    cbn. lia. }
  destruct (Managed cfg); cbn [negb]; [| exact Hread].
  destruct (controllerutil.ContainsFinalizer ingress ingressFinalizer); [| exact Hread].
  set (domain := resolveDomain ingress cfg).
  set (removed := controllerutil.RemoveFinalizer ingress ingressFinalizer).
  destruct (DeleteCertOnIngress cfg).
  - destruct (cleanup_calls domain (after r (EvGet req) s)) as (evs & Hp & F & Hn).
    destruct (deleteCertificateForDomain r domain (after r (EvGet req) s))
      as [[err |] s2]; cbn [snd] in Hp.
    + exists (evs ++ [EvGet req]). split; [| split].
      * exact (performed_trans _ _ _ _ _ (performed_after r _ s) Hp).
      * apply Forall_app. split; [exact F | now repeat constructor].
      * unfold countCalls in *. rewrite List.filter_app, List.length_app. cbn. lia.
    + rewrite perform_state. exists ([EvUpdate removed] ++ evs ++ [EvGet req]).
      split; [| split].
      * destruct (Update r (log s2) removed); cbn [snd ret];
          unfold performed in *; cbn [log after perform snd]; rewrite Hp;
          now rewrite <- !app_assoc.
      * apply Forall_app. split; [now repeat constructor |].
        apply Forall_app. split; [exact F | now repeat constructor].
      * unfold countCalls in *. rewrite !List.filter_app, !List.length_app. cbn. lia.
  - unfold ret at 1. rewrite perform_state. exists [EvUpdate removed; EvGet req].
    split; [| split].
    + now destruct (Update r _ removed).
    + now repeat constructor.
    + cbn. lia.
Qed.

(** A pass asks to be run again, in twelve hours, only when it returns no
    error and its last call was the patch; in every other case it asks for
    nothing. *)
Theorem Reconcile_requeues_only_after_patch (req : string) (s : State) :
  let out := Reconcile ParseDuration r req s in
  RequeueAfter (fst (fst out)) = 0
  \/ (RequeueAfter (fst (fst out)) = 12 * Hour
      /\ snd (fst out) = None
      /\ exists obj base l, log (snd out) = EvPatch obj base :: l).
Proof.
  assert (Hattach : forall ingress domain cfg s1,
             let out := attachCertificate r ingress domain cfg s1 in
             RequeueAfter (fst (fst out)) = 0
             \/ (RequeueAfter (fst (fst out)) = 12 * Hour
                 /\ snd (fst out) = None
                 /\ exists obj base l, log (snd out) = EvPatch obj base :: l)).
  { intros ingress domain cfg s1. unfold attachCertificate, bind.
    destruct (ensureCertificate r domain cfg s1) as [[certArn [err |]] s2];
      [left; reflexivity |].
    rewrite perform_state. destruct (Patch r (log s2) _ ingress); [left; reflexivity |].
    right. split; [reflexivity |]. split; [reflexivity |]. eexists _, _, _. reflexivity. }
  unfold Reconcile, bind. rewrite perform_state.
  destruct (Get r (log s) req) as [ingress | err]; [| left; reflexivity].
  destruct (Managed _); cbn [negb]; [| left; reflexivity].
  destruct (IsZero (DeletionTimestamp ingress)).
  - destruct (controllerutil.ContainsFinalizer ingress ingressFinalizer); cbn [negb];
      [apply Hattach |].
    rewrite perform_state. destruct (Update r _ _); [apply Hattach | left; reflexivity].
  - destruct (controllerutil.ContainsFinalizer ingress ingressFinalizer);
      [| left; reflexivity].
    destruct (DeleteCertOnIngress _).
    + destruct (deleteCertificateForDomain r _ (after r (EvGet req) s))
        as [[err |] s2]; [left; reflexivity |].
      rewrite perform_state. destruct (Update r _ _); left; reflexivity.
    + unfold ret at 1. rewrite perform_state. destruct (Update r _ _); left; reflexivity.
Qed.

End PassInvariants.

(** ** The other paths of ensureCertificate *)

Section LifecyclePaths.

Local Open Scope Z_scope.

Variable r : IngressReconciler.

(** When the listing of the reuse check fails, ensureCertificate returns
    that error with an empty identifier, and the listing is its only call:
    nothing is requested. *)
Theorem ensureCertificate_list_fails (domain : string) (cfg : IngressConfig)
    (s : State) (err : error) :
  ReuseExisting cfg = true ->
  ListCertificates r (log s) listedStatuses = Err err ->
  ensureCertificate r domain cfg s
  = (("", Some err), after r (EvListCertificates listedStatuses) s).
Proof.
  intros Hreuse Hlist. unfold ensureCertificate, bind.
  now rewrite Hreuse, perform_state, Hlist.
Qed.

(** When the certificate request fails, ensureCertificate returns that error
    with an empty identifier right after the request: it describes nothing
    and creates no DNS record. *)
Theorem ensureCertificate_request_fails (domain : string) (cfg : IngressConfig)
    (s s1 : State) (err : error) :
  reuseMisses r domain cfg s s1 ->
  RequestCertificate r (log s1) (requestInput domain cfg) = Err err ->
  ensureCertificate r domain cfg s
  = (("", Some err), after r (EvRequestCertificate (requestInput domain cfg)) s1).
Proof.
  intros Hmiss Hreq. rewrite (ensureCertificate_miss _ _ _ _ _ Hmiss).
  unfold requestAndValidate, bind. now rewrite perform_state, Hreq.
Qed.

(** ensureCertificate reads four fields of the configuration only: reuse,
    wildcard, the alternative names and the zone override. The managed flag,
    the domain override, the certificate TTL, delete-on-delete and the
    wildcard fallback change nothing of what it does or returns. *)
Theorem ensureCertificate_reads_four_fields (domain : string)
    (cfg cfg' : IngressConfig) (s : State) :
  ReuseExisting cfg = ReuseExisting cfg' ->
  Wildcard cfg = Wildcard cfg' ->
  SANs cfg = SANs cfg' ->
  ZoneID cfg = ZoneID cfg' ->
  ensureCertificate r domain cfg s = ensureCertificate r domain cfg' s.
Proof.
  intros Hr Hw Hs Hz.
  assert (Hreq : requestInput domain cfg = requestInput domain cfg')
    by (unfold requestInput; now rewrite Hw, Hs).
  assert (Hrv : forall s1, requestAndValidate r domain cfg s1
                           = requestAndValidate r domain cfg' s1)
    by (intros s1; unfold requestAndValidate; now rewrite Hreq, Hz).
  unfold ensureCertificate. rewrite Hr. destruct (ReuseExisting cfg'); [| apply Hrv].
  unfold bind. rewrite perform_state.
  destruct (ListCertificates r (log s) listedStatuses) as [certs | err]; [| reflexivity].
  destruct (find (matchesDomain r domain) certs); [reflexivity | apply Hrv].
Qed.

(** The loop returns in the first round whose describe answer decides. *)
Lemma pollCertificate_decided (deadline : Z) (certArn : string)
    (described : result acmtypes.CertificateDetail) (n : nat) :
  forall (rounds : nat) (s : State),
    (n < rounds)%nat ->
    (forall k, (k < n)%nat -> exists certificate,
        DescribeCertificate r (pollLog certArn k (log s)) (Some certArn) = Ok certificate
        /\ keepsWaiting (acmtypes.Status certificate) = true) ->
    clock (pollState r certArn n s) <= deadline ->
    DescribeCertificate r (pollLog certArn n (log s)) (Some certArn) = described ->
    decides described = true ->
    pollCertificate r rounds deadline certArn s
    = (Some (certArn,
             match described with
             | Err err => Some err
             | Ok certificate =>
                 if String.eqb (acmtypes.Status certificate)
                      acmtypes.CertificateStatusIssued
                 then None
                 else Some (failedError (acmtypes.FailureReason certificate))
             end),
       after r (EvDescribeCertificate (Some certArn)) (pollState r certArn n s)).
Proof.
  induction n as [|n IH]; intros [|rounds] s Hn Hwait Hclock Hdesc Hdec; try lia.
  - cbn [pollState Nat.iter nat_rect pollLog] in *.
    cbn [pollCertificate]. unfold bind, timeNow.
    replace (After (clock s) deadline) with false
      by (symmetry; apply Z.ltb_ge; exact Hclock).
    rewrite perform_state, Hdesc. destruct described as [certificate | err];
      [| reflexivity].
    cbn [decides] in Hdec. unfold keepsWaiting in Hdec.
    destruct (String.eqb (acmtypes.Status certificate) acmtypes.CertificateStatusIssued);
      [reflexivity |].
    destruct (String.eqb (acmtypes.Status certificate) acmtypes.CertificateStatusFailed);
      [reflexivity | discriminate].
  - pose proof (pollState_clock r certArn (S n) s) as Hmono.
    cbn [pollCertificate]. unfold bind, timeNow.
    replace (After (clock s) deadline) with false
      by (symmetry; apply Z.ltb_ge; pose proof Interval_pos; lia).
    rewrite perform_state.
    destruct (Hwait 0%nat ltac:(lia)) as (certificate & Hd0 & Hw0).
    cbn [pollLog Nat.iter nat_rect] in Hd0. rewrite Hd0.
    unfold keepsWaiting in Hw0. apply andb_true_iff in Hw0.
    destruct Hw0 as [Hi Hf]. apply negb_true_iff in Hi, Hf. rewrite Hi, Hf.
    cbv iota.
    change (snd (timeSleep r Interval (after r (EvDescribeCertificate (Some certArn)) s)))
      with (pollState r certArn 1 s).
    rewrite pollState_succ in Hclock |- *.
    apply IH; [lia | | exact Hclock | |exact Hdec].
    + intros k Hk. destruct (Hwait (S k) ltac:(lia)) as (c' & Hc' & Hw').
      exists c'. split; [| exact Hw'].
      unfold pollLog in *. rewrite Nat.iter_succ_r in Hc'. exact Hc'.
    + unfold pollLog in *. rewrite Nat.iter_succ_r in Hdesc. exact Hdesc.
Qed.

(** After a request whose validation records were created, the outcome of
    ensureCertificate is that of the first round, within the ten minutes,
    whose describe answer is not a waiting one: no error when the status is
    Issued, the failure reason when it is Failed, and the describe call's
    own error when it fails; in all three with the identifier of the
    requested certificate, right after that describe call. *)
Theorem ensureCertificate_first_deciding_round (domain : string)
    (cfg : IngressConfig) (s s1 s3 : State) (arn : option string)
    (described : result acmtypes.CertificateDetail) (n : nat) :
  let request := requestInput domain cfg in
  let certArn := aws.ToString arn in
  reuseMisses r domain cfg s s1 ->
  RequestCertificate r (log s1) request = Ok arn ->
  createRoute53ValidationRecords r certArn (ZoneID cfg)
    (after r (EvRequestCertificate request) s1) = (None, s3) ->
  (forall k, (k < n)%nat -> exists certificate,
      DescribeCertificate r (pollLog certArn k (log s3)) (Some certArn) = Ok certificate
      /\ keepsWaiting (acmtypes.Status certificate) = true) ->
  clock (pollState r certArn n s3) <= clock s3 + Timeout ->
  DescribeCertificate r (pollLog certArn n (log s3)) (Some certArn) = described ->
  decides described = true ->
  ensureCertificate r domain cfg s
  = ((certArn,
      match described with
      | Err err => Some err
      | Ok certificate =>
          if String.eqb (acmtypes.Status certificate) acmtypes.CertificateStatusIssued
          then None
          else Some (failedError (acmtypes.FailureReason certificate))
      end),
     after r (EvDescribeCertificate (Some certArn)) (pollState r certArn n s3)).
Proof.
  intros request certArn Hmiss Hreq Hrec Hwait Hclock Hdesc Hdec.
  rewrite (ensureCertificate_miss _ _ _ _ _ Hmiss).
  unfold requestAndValidate, bind. fold request. rewrite perform_state, Hreq.
  fold certArn. rewrite Hrec.
  assert (Hn : (n < pollRounds)%nat).
  { pose proof (pollState_clock r certArn n s3) as Hmono.
    change pollRounds with 42%nat.
    unfold Timeout, Interval, Minute, Second, Nanosecond in *. lia. }
  apply awaitCertificate_poll.
  exact (pollCertificate_decided (clock s3 + Timeout) certArn described n
           pollRounds s3 Hn Hwait Hclock Hdesc Hdec).
Qed.

(** Only Issued and Failed end the wait. A certificate that the authority
    reports in any other status (PendingValidation, but also Expired,
    Revoked, Inactive or ValidationTimedOut) on the describe call of every
    round that starts within the ten minutes is polled until a round starts
    after them, and ensureCertificate then returns the timeout error: after
    the validation records it has made nothing but describe calls and
    sleeps, in turn, at least one and at most forty-one of each. *)
Theorem ensureCertificate_waits_on_every_other_status (domain : string)
    (cfg : IngressConfig) (s s1 s3 : State) (arn : option string) :
  let request := requestInput domain cfg in
  let certArn := aws.ToString arn in
  reuseMisses r domain cfg s s1 ->
  RequestCertificate r (log s1) request = Ok arn ->
  createRoute53ValidationRecords r certArn (ZoneID cfg)
    (after r (EvRequestCertificate request) s1) = (None, s3) ->
  (forall n,
      clock (pollState r certArn n s3) <= clock s3 + Timeout ->
      exists certificate,
        DescribeCertificate r (pollLog certArn n (log s3)) (Some certArn)
        = Ok certificate
        /\ keepsWaiting (acmtypes.Status certificate) = true) ->
  exists (n : nat) (s' : State),
    ensureCertificate r domain cfg s = ((certArn, Some (timeoutError certArn)), s')
    /\ clock s3 + Timeout < clock s'
    /\ log s' = pollLog certArn n (log s3)
    /\ (1 <= n <= 41)%nat
    /\ forall k, (k < n)%nat -> clock (pollState r certArn k s3) <= clock s3 + Timeout.
Proof.
  intros request certArn Hmiss Hreq Hrec Hwait.
  destruct (pollCertificate_until_deadline r 41 (clock s3 + Timeout) certArn s3 Hwait)
    as (n & Hpoll & Hclock & Hbefore).
  { change (Z.of_nat 41 * Interval) with (Timeout + Interval).
    pose proof Interval_pos. lia. }
  exists n, (pollState r certArn n s3).
  split; [| split; [exact Hclock | split; [apply pollState_log | split;
                                                               [| exact Hbefore]]]].
  - rewrite (ensureCertificate_miss _ _ _ _ _ Hmiss).
    unfold requestAndValidate, bind. fold request. rewrite perform_state, Hreq.
    fold certArn. rewrite Hrec. exact (awaitCertificate_poll r certArn s3 _ _ Hpoll).
  - split.
    + destruct n as [|n]; [| lia].
      change (pollState r certArn 0 s3) with s3 in Hclock.
      assert (0 < Timeout) by reflexivity. lia.
    + destruct n as [|n]; [lia |].
      specialize (Hbefore n (Nat.lt_succ_diag_r n)).
      pose proof (pollState_clock r certArn n s3) as Hmono.
      change Timeout with (40 * Interval) in Hbefore. pose proof Interval_pos. nia.
Qed.

End LifecyclePaths.

(** ** Termination and bounds of the poll loop *)

Section PollBounds.

Variable r : IngressReconciler.

Lemma countCalls_app (P : call -> bool) (evs1 evs2 : list call) :
  countCalls P (evs1 ++ evs2) = (countCalls P evs1 + countCalls P evs2)%nat.
Proof. unfold countCalls. now rewrite List.filter_app, List.length_app. Qed.

Lemma countCalls_none (P Q : call -> bool) (evs : list call) :
  (forall c, P c = true -> Q c = false) ->
  Forall (fun c => P c = true) evs -> countCalls Q evs = 0%nat.
Proof.
  intros HPQ. induction 1 as [|c evs Hc _ IH]; [reflexivity |].
  unfold countCalls in *. cbn [List.filter]. now rewrite (HPQ c Hc).
Qed.

(** Rounds beyond those that take the clock past the deadline are never
    used. *)
Lemma pollCertificate_more_rounds (extra : nat) (deadline : Z) (certArn : string)
    (rounds : nat) :
  forall s,
    deadline < clock s + Z.of_nat rounds * Interval ->
    pollCertificate r (S rounds + extra) deadline certArn s
    = pollCertificate r (S rounds) deadline certArn s.
Proof.
  induction rounds as [|rounds IH]; intros s Hd;
    cbn [pollCertificate Nat.add]; unfold bind, timeNow;
    destruct (After (clock s) deadline) eqn:E; try reflexivity.
  - unfold After in E. apply Z.ltb_ge in E. lia.
  - rewrite perform_state.
    destruct (DescribeCertificate r (log s) (Some certArn)) as [certificate | err];
      [| reflexivity].
    destruct (String.eqb _ _); [reflexivity |].
    destruct (String.eqb _ _); [reflexivity |].
    apply (IH (snd (timeSleep r Interval
                      (after r (EvDescribeCertificate (Some certArn)) s)))).
    pose proof (clock_after_round r certArn s). lia.
Qed.

(** The poll loop of ensureCertificate terminates, whatever the clients
    answer: entered with its deadline ten minutes away it returns within 42
    rounds, and granting it more rounds changes nothing. *)
Theorem pollCertificate_terminates (extra : nat) (certArn : string) (s : State) :
  let deadline := clock s + Timeout in
  pollCertificate r (pollRounds + extra) deadline certArn s
  = pollCertificate r pollRounds deadline certArn s
  /\ exists res s', pollCertificate r pollRounds deadline certArn s = (Some res, s').
Proof.
  assert (H : clock s + Timeout < clock s + Z.of_nat 41 * Interval)
    by (unfold Timeout, Interval, Minute, Second, Nanosecond; lia).
  split.
  - change pollRounds with (S 41). now apply pollCertificate_more_rounds.
  - apply pollCertificate_pollRounds.
Qed.

(** The loop describes and sleeps at most once per interval that fits
    before the deadline, and requests nothing. *)
Lemma pollCertificate_counts (deadline : Z) (certArn : string) (rounds : nat) :
  forall (k : nat) (s : State),
    deadline < clock s + Z.of_nat k * Interval ->
    exists evs,
      performed s (snd (pollCertificate r rounds deadline certArn s)) evs
      /\ Forall (fun c => isAfterRequestCall c = true) evs
      /\ (countCalls isDescribe evs <= k)%nat
      /\ (countCalls isSleep evs <= k)%nat.
Proof.
  induction rounds as [|rounds IH]; intros k s Hd.
  - exists []. cbn. repeat split; try constructor; lia.
  - cbn [pollCertificate]. unfold bind, timeNow.
    destruct (After (clock s) deadline) eqn:E.
    { exists []. cbn. repeat split; try constructor; lia. }
    unfold After in E. apply Z.ltb_ge in E.
    destruct k as [|k]; [lia |].
    rewrite perform_state.
    assert (Hone : exists evs,
               performed s (after r (EvDescribeCertificate (Some certArn)) s) evs
               /\ Forall (fun c => isAfterRequestCall c = true) evs
               /\ (countCalls isDescribe evs <= S k)%nat
               /\ (countCalls isSleep evs <= S k)%nat).
    { exists [EvDescribeCertificate (Some certArn)].
      split; [reflexivity |]. split; [now repeat constructor |]. cbn. lia. }
    destruct (DescribeCertificate r (log s) (Some certArn)) as [certificate | err];
      [| exact Hone].
    destruct (String.eqb _ _); [exact Hone |].
    destruct (String.eqb _ _); [exact Hone |].
    destruct (IH k (snd (timeSleep r Interval
                           (after r (EvDescribeCertificate (Some certArn)) s))))
      as (evs & Hp & F & Hdn & Hsn).
    { pose proof (clock_after_round r certArn s). lia. }
    exists (evs ++ [EvSleep Interval; EvDescribeCertificate (Some certArn)]).
    split; [| split; [| split]].
    + unfold performed, timeSleep in *. cbv beta iota in *. cbn [snd] in Hp.
      rewrite Hp. now rewrite <- app_assoc.
    + apply Forall_app. split; [exact F | now repeat constructor].
    + rewrite countCalls_app. cbn. lia.
    + rewrite countCalls_app. cbn. lia.
Qed.

Lemma findMatchingHostedZone_dns_calls (domain : string) :
  onlyCalls isDnsCall (findMatchingHostedZone r domain).
Proof.
  unfold findMatchingHostedZone. apply onlyCalls_bind.
  - now apply onlyCalls_perform.
  - intros [zones | err]; [| apply onlyCalls_ret].
    destruct (String.eqb _ _); apply onlyCalls_ret.
Qed.

Lemma validateOptions_dns_calls (zoneID : string)
    (options : list acmtypes.DomainValidation) :
  forall seen, onlyCalls isDnsCall (validateOptions r zoneID seen options).
Proof.
  induction options as [|option rest IH]; intros seen; simpl.
  - apply onlyCalls_ret.
  - destruct (acmtypes.ResourceRecord_ option) as [record |]; [| apply IH].
    destruct (default false _); [apply IH |].
    apply onlyCalls_bind.
    + destruct (String.eqb zoneID "");
        [apply findMatchingHostedZone_dns_calls | apply onlyCalls_ret].
    + intros [hostedZoneID [err |]]; [apply onlyCalls_ret |].
      apply onlyCalls_bind; [now apply onlyCalls_perform |].
      intros [err |]; [apply onlyCalls_ret | apply IH].
Qed.

(** Creating the validation records describes the certificate once, first,
    and otherwise only calls the DNS provider. *)
Lemma createRoute53ValidationRecords_shape (certArn zoneID : string) (s : State) :
  exists evs,
    performed s (snd (createRoute53ValidationRecords r certArn zoneID s))
      (evs ++ [EvDescribeCertificate (Some certArn)])
    /\ Forall (fun c => isDnsCall c = true) evs.
Proof.
  unfold createRoute53ValidationRecords. apply bind_perform_first.
  intros [certificate | err]; [apply validateOptions_dns_calls | apply onlyCalls_ret].
Qed.

(** One call of ensureCertificate requests at most one certificate, with
    the input built from the domain and the configuration, describes at
    most 42 times (once for the validation records, at most 41 times in the
    loop) and sleeps at most 41 times, whatever the clients answer. *)
Theorem ensureCertificate_call_bounds (domain : string) (cfg : IngressConfig)
    (s : State) :
  exists evs,
    performed s (snd (ensureCertificate r domain cfg s)) evs
    /\ (countCalls isRequest evs <= 1)%nat
    /\ (countCalls isDescribe evs <= 42)%nat
    /\ (countCalls isSleep evs <= 41)%nat
    /\ forall input,
         In (EvRequestCertificate input) evs -> input = requestInput domain cfg.
Proof.
  set (req := requestInput domain cfg).
  assert (Htail : forall evs : list call,
             Forall (fun c => isAfterRequestCall c = true) evs ->
             forall input, ~ In (EvRequestCertificate input) evs).
  { intros evs F input Hin. rewrite Forall_forall in F.
    apply list_elem_of_In in Hin. specialize (F _ Hin). discriminate. }
  assert (Hrv : forall s1, exists evs,
             performed s1 (snd (requestAndValidate r domain cfg s1))
               (evs ++ [EvRequestCertificate req])
             /\ Forall (fun c => isAfterRequestCall c = true) evs
             /\ (countCalls isDescribe evs <= 42)%nat
             /\ (countCalls isSleep evs <= 41)%nat).
  { intros s1. unfold requestAndValidate, bind. fold req. rewrite perform_state.
    destruct (RequestCertificate r (log s1) req) as [arn | err].
    2:{ exists []. split; [reflexivity |]. split; [constructor |]. cbn. lia. }
    set (s2 := after r (EvRequestCertificate req) s1).
    destruct (createRoute53ValidationRecords_shape (aws.ToString arn) (ZoneID cfg) s2)
      as (ev1 & Hp1 & F1).
    assert (F1' : Forall (fun c => isAfterRequestCall c = true) ev1).
    { eapply Forall_impl; [exact F1 |]. intros c Hc. now destruct c. }
    assert (Hd1 : countCalls isDescribe ev1 = 0%nat)
      by (apply (countCalls_none isDnsCall); [now intros [] | exact F1]).
    assert (Hs1 : countCalls isSleep ev1 = 0%nat)
      by (apply (countCalls_none isDnsCall); [now intros [] | exact F1]).
    destruct (createRoute53ValidationRecords r (aws.ToString arn) (ZoneID cfg) s2)
      as [[err |] s3]; cbn [snd] in Hp1.
    { exists (ev1 ++ [EvDescribeCertificate (Some (aws.ToString arn))]).
      split; [| split; [| split]].
      - unfold performed in *. cbn [ret snd]. rewrite Hp1. now rewrite <- !app_assoc.
      - apply Forall_app. split; [exact F1' | now repeat constructor].
      - rewrite countCalls_app, Hd1. cbn. lia.
      - rewrite countCalls_app, Hs1. cbn. lia. }
    destruct (pollCertificate_counts (clock s3 + Timeout) (aws.ToString arn) pollRounds
                41%nat s3) as (ev2 & Hp2 & F2 & Hd2 & Hs2).
    { unfold Timeout, Interval, Minute, Second, Nanosecond. lia. }
    rewrite awaitCertificate_returned in Hp2. cbn [snd] in Hp2.
    exists (ev2 ++ ev1 ++ [EvDescribeCertificate (Some (aws.ToString arn))]).
    split; [| split; [| split]].
    - unfold performed in *. cbn [ret snd]. rewrite Hp2, Hp1. now rewrite <- !app_assoc.
    - apply Forall_app. split; [exact F2 |].
      apply Forall_app. split; [exact F1' | now repeat constructor].
    - rewrite !countCalls_app, Hd1. cbn. lia.
    - rewrite !countCalls_app, Hs1. cbn. lia. }
  assert (Hcount : forall evs : list call,
             Forall (fun c => isAfterRequestCall c = true) evs ->
             countCalls isRequest evs = 0%nat)
    by (intros evs F; apply (countCalls_none isAfterRequestCall);
        [now intros [] | exact F]).
  unfold ensureCertificate. destruct (ReuseExisting cfg).
  - unfold bind. rewrite perform_state.
    set (s0 := after r (EvListCertificates listedStatuses) s).
    assert (Hstop : forall s', s' = s0 -> exists evs,
               performed s s' evs
               /\ (countCalls isRequest evs <= 1)%nat
               /\ (countCalls isDescribe evs <= 42)%nat
               /\ (countCalls isSleep evs <= 41)%nat
               /\ forall input, In (EvRequestCertificate input) evs -> input = req).
    { intros s' ->. exists [EvListCertificates listedStatuses].
      split; [reflexivity |]. cbn. repeat split; try lia.
      intros input [H | []]. discriminate. }
    destruct (ListCertificates r (log s) listedStatuses) as [certs | err];
      [| now apply Hstop].
    destruct (find (matchesDomain r domain) certs); [now apply Hstop |].
    destruct (Hrv s0) as (evs & Hp & F & Hd & Hs).
    exists (evs ++ [EvRequestCertificate req; EvListCertificates listedStatuses]).
    split; [| split; [| split; [| split]]].
    + unfold performed in *. rewrite Hp. now rewrite <- !app_assoc.
    + rewrite countCalls_app, (Hcount evs F). cbn. lia.
    + rewrite countCalls_app. cbn. lia.
    + rewrite countCalls_app. cbn. lia.
    + intros input Hin. apply in_app_or in Hin. destruct Hin as [Hin | [Hin | [Hin | []]]].
      * now apply Htail in Hin.
      * now injection Hin.
      * discriminate.
  - destruct (Hrv s) as (evs & Hp & F & Hd & Hs).
    exists (evs ++ [EvRequestCertificate req]).
    split; [exact Hp |]. split; [| split; [| split]].
    + rewrite countCalls_app, (Hcount evs F). cbn. lia.
    + rewrite countCalls_app. cbn. lia.
    + rewrite countCalls_app. cbn. lia.
    + intros input Hin. apply in_app_or in Hin. destruct Hin as [Hin | [Hin | []]].
      * now apply Htail in Hin.
      * now injection Hin.
Qed.

End PollBounds.

(** ** More on the DNS validation orchestrator *)

Section OrchestratorOrder.

Variable r : IngressReconciler.
Variable zoneID : string.

Lemma changedRecords_app (evs1 evs2 : list call) :
  changedRecords (evs1 ++ evs2) = changedRecords evs2 ++ changedRecords evs1.
Proof.
  induction evs1 as [|c evs1 IH]; [now rewrite app_nil_r |].
  destruct c; cbn [app changedRecords]; try exact IH.
  destruct (recordOfChange input); [| exact IH]. now rewrite IH, app_assoc.
Qed.

Lemma recordOfChange_upsert (zone : string) (record : acmtypes.ResourceRecord) :
  recordOfChange (upsertChange zone record) = Some record.
Proof. now destruct record. Qed.

(** Resolving the zone of a requirement lists the zones, or calls nothing
    when a zone override is given. *)
Lemma resolveZone_calls (name : string) (s : State) :
  let s' := snd ((if String.eqb zoneID "" then findMatchingHostedZone r name
                  else ret (zoneID, None)) s) in
  (String.eqb zoneID "" = true /\ performed s s' [EvListHostedZones])
  \/ (String.eqb zoneID "" = false /\ s' = s).
Proof.
  destruct (String.eqb zoneID ""); [left | right]; (split; [reflexivity |]).
  - unfold findMatchingHostedZone, bind. rewrite perform_state.
    destruct (ListHostedZones r (log s)) as [zones | err]; [| reflexivity].
    now destruct (String.eqb _ _).
  - reflexivity.
Qed.

(** The loop upserts the records with a key not seen before, each once, in
    the order of the requirements; it stops at the first failure. *)
Lemma validateOptions_order (options : list acmtypes.DomainValidation) :
  forall (seen : gmap string bool) (seenKeys : list string) (s : State),
    (forall key, default false (seen !! key) = existsb (String.eqb key) seenKeys) ->
    exists evs rest,
      performed s (snd (validateOptions r zoneID seen options s)) evs
      /\ distinctKeys seenKeys (descriptors options) = changedRecords evs ++ rest
      /\ (fst (validateOptions r zoneID seen options s) = None -> rest = []).
Proof.
  induction options as [|option rest IH]; intros seen seenKeys s Hseen;
    cbn [validateOptions descriptors].
  - exists [], []. repeat split.
  - destruct (acmtypes.ResourceRecord_ option) as [rec |] eqn:Hrec;
      [| now apply IH].
    cbn [distinctKeys]. rewrite <- Hseen.
    destruct (default false (seen !! recordKey rec)) eqn:Hk; [now apply IH |].
    unfold bind.
    pose proof (resolveZone_calls (aws.ToString (acmtypes.ValidationDomainName option)) s)
      as Hz. cbv zeta in Hz.
    destruct ((if String.eqb zoneID ""
               then findMatchingHostedZone r
                      (aws.ToString (acmtypes.ValidationDomainName option))
               else ret (zoneID, None)) s) as [[hostedZoneID zerr] s1].
    cbn [snd] in Hz.
    assert (Hpz : exists evz, performed s s1 evz /\ changedRecords evz = []).
    { destruct Hz as [[_ Hz] | [_ ->]].
      - exists [EvListHostedZones]. split; [exact Hz | reflexivity].
      - exists []. split; reflexivity. }
    clear Hz. destruct Hpz as (evz & Hpz & Hcz).
    destruct zerr as [zerr |].
    { exists evz, (rec :: distinctKeys (recordKey rec :: seenKeys) (descriptors rest)).
      split; [exact Hpz |]. rewrite Hcz. split; [reflexivity | discriminate]. }
    rewrite perform_state.
    set (change := upsertChange hostedZoneID rec).
    assert (Hp1 : performed s (after r (EvChangeResourceRecordSets change) s1)
                    ([EvChangeResourceRecordSets change] ++ evz))
      by exact (performed_trans _ _ _ _ _ Hpz (performed_after r _ s1)).
    assert (Hc1 : changedRecords ([EvChangeResourceRecordSets change] ++ evz) = [rec]).
    { rewrite changedRecords_app, Hcz. cbn [changedRecords app].
      unfold change. now rewrite recordOfChange_upsert. }
    destruct (ChangeResourceRecordSets r (log s1) change) as [cerr |].
    { exists ([EvChangeResourceRecordSets change] ++ evz),
        (distinctKeys (recordKey rec :: seenKeys) (descriptors rest)).
      split; [exact Hp1 |]. rewrite Hc1. split; [reflexivity | discriminate]. }
    destruct (IH (<[recordKey rec := true]> seen) (recordKey rec :: seenKeys)
                (after r (EvChangeResourceRecordSets change) s1))
      as (evs & rest' & Hp & Hd & Hnone).
    { intros key. cbn [existsb].
      destruct (String.eqb key (recordKey rec)) eqn:E.
      - apply String.eqb_eq in E. subst key. now rewrite lookup_insert_eq.
      - apply String.eqb_neq in E. rewrite lookup_insert_ne by congruence.
        apply Hseen. }
    exists (evs ++ [EvChangeResourceRecordSets change] ++ evz), rest'.
    split; [exact (performed_trans _ _ _ _ _ Hp1 Hp) |].
    split; [| exact Hnone].
    rewrite changedRecords_app, Hc1, Hd. now rewrite <- app_assoc.
Qed.

(** In a pass that completes without error the upserted records are, in
    call order, exactly the certificate's record descriptors with the later
    repetitions of a deduplication key left out; in a pass that fails they
    are a prefix of that list. *)
Theorem records_upserted_in_order (certArn : string) (s : State)
    (certificate : acmtypes.CertificateDetail) :
  DescribeCertificate r (log s) (Some certArn) = Ok certificate ->
  let run := createRoute53ValidationRecords r certArn zoneID s in
  let wanted :=
    distinctKeys [] (descriptors (acmtypes.DomainValidationOptions certificate)) in
  exists evs rest,
    performed s (snd run) evs
    /\ wanted = changedRecords evs ++ rest
    /\ (fst run = None -> rest = []).
Proof.
  intros Hdesc run wanted.
  assert (Hrun : run = validateOptions r zoneID ∅
                         (acmtypes.DomainValidationOptions certificate)
                         (after r (EvDescribeCertificate (Some certArn)) s)).
  { unfold run, createRoute53ValidationRecords, bind.
    now rewrite perform_state, Hdesc. }
  destruct (validateOptions_order (acmtypes.DomainValidationOptions certificate) ∅ []
              (after r (EvDescribeCertificate (Some certArn)) s))
    as (evs & rest & Hp & Hd & Hnone).
  { intros key. now rewrite lookup_empty. }
  rewrite <- Hrun in Hp, Hnone.
  exists (evs ++ [EvDescribeCertificate (Some certArn)]), rest.
  split; [exact (performed_trans _ _ _ _ _ (performed_after r _ s) Hp) |].
  split; [| exact Hnone].
  rewrite changedRecords_app. exact Hd.
Qed.

Lemma validateOptions_override (options : list acmtypes.DomainValidation) :
  String.eqb zoneID "" = false ->
  forall (seen : gmap string bool) (s : State),
    exists evs,
      performed s (snd (validateOptions r zoneID seen options s)) evs
      /\ Forall (fun c => exists record,
                   c = EvChangeResourceRecordSets (upsertChange zoneID record)) evs.
Proof.
  intros Hz. induction options as [|option rest IH]; intros seen s;
    cbn [validateOptions].
  - exists []. split; [reflexivity | constructor].
  - destruct (acmtypes.ResourceRecord_ option) as [rec |]; [| apply IH].
    destruct (default false _); [apply IH |].
    unfold bind. rewrite Hz. unfold ret at 1. rewrite perform_state.
    destruct (ChangeResourceRecordSets r (log s) (upsertChange zoneID rec)).
    + exists [EvChangeResourceRecordSets (upsertChange zoneID rec)].
      split; [reflexivity |]. constructor; [now exists rec | constructor].
    + destruct (IH (<[recordKey rec := true]> seen)
                  (after r (EvChangeResourceRecordSets (upsertChange zoneID rec)) s))
        as (evs & Hp & F).
      exists (evs ++ [EvChangeResourceRecordSets (upsertChange zoneID rec)]).
      split; [exact (performed_trans _ _ _ _ _ (performed_after r _ s) Hp) |].
      apply Forall_app. split; [exact F |]. constructor; [now exists rec | constructor].
Qed.

(** With a zone override the pass never lists the hosted zones: after the
    describe call every call is an upsert (one record, one value, TTL 300)
    into the override zone. *)
Theorem records_use_zone_override (certArn : string) (s : State) :
  zoneID <> "" ->
  exists evs,
    performed s (snd (createRoute53ValidationRecords r certArn zoneID s))
      (evs ++ [EvDescribeCertificate (Some certArn)])
    /\ Forall (fun c => exists record,
                 c = EvChangeResourceRecordSets (upsertChange zoneID record)
                 /\ route53types.HostedZoneId (upsertChange zoneID record) = Some zoneID
                 /\ recordOfChange (upsertChange zoneID record) = Some record) evs.
Proof.
  intros Hne. apply String.eqb_neq in Hne.
  unfold createRoute53ValidationRecords, bind. rewrite perform_state.
  destruct (DescribeCertificate r (log s) (Some certArn)) as [certificate | err].
  - destruct (validateOptions_override (acmtypes.DomainValidationOptions certificate)
                Hne ∅ (after r (EvDescribeCertificate (Some certArn)) s))
      as (evs & Hp & F).
    exists evs. split.
    + exact (performed_trans _ _ _ _ _ (performed_after r _ s) Hp).
    + eapply Forall_impl; [exact F |]. intros c [record ->]. exists record.
      split; [reflexivity |]. split; [reflexivity | apply recordOfChange_upsert].
  - exists []. split; [reflexivity | constructor].
Qed.

End OrchestratorOrder.

(** ** More on the hosted-zone resolver *)

Section ZonePaths.

Variable r : IngressReconciler.

(** The resolver makes exactly one call, the listing of the zones, whatever
    the outcome; when the listing fails its error is returned as it is, with
    an empty identifier. *)
Theorem findMatchingHostedZone_lists_once (domain : string) (s : State) :
  snd (findMatchingHostedZone r domain s) = after r EvListHostedZones s
  /\ forall err,
       ListHostedZones r (log s) = Err err ->
       fst (findMatchingHostedZone r domain s) = ("", Some err).
Proof.
  unfold findMatchingHostedZone, bind. rewrite perform_state.
  destruct (ListHostedZones r (log s)) as [zones | err].
  - split; [now destruct (String.eqb _ _) | discriminate].
  - split; [reflexivity |]. now intros err' [= <-].
Qed.

(** The match is a plain byte suffix, not one of DNS labels: a zone is
    found for every domain that ends with its name, whatever precedes it.
    (The zone "example.com" is found for "notexample.com".) *)
Theorem zone_found_for_any_domain_ending_with_its_name (s : State)
    (zone : route53types.HostedZone) (front : string) :
  ListHostedZones r (log s) = Ok [zone] ->
  zoneName zone <> "" ->
  aws.ToString (route53types.Id zone) <> "" ->
  fst (findMatchingHostedZone r (front +:+ zoneName zone) s)
  = (strings.TrimPrefix (aws.ToString (route53types.Id zone)) "/hostedzone/", None).
Proof.
  intros Hlist Hname Hid. unfold findMatchingHostedZone, bind.
  rewrite perform_state, Hlist. unfold scanZones. cbn [fold_left].
  rewrite betterZone_taken.
  - cbn [fst]. apply String.eqb_neq in Hid. now rewrite Hid.
  - split; [exact Hname | now exists front].
  - cbn [snd]. destruct (zoneName zone); [contradiction | cbn; lia].
Qed.

End ZonePaths.

(** ** More on the annotation resolver *)

Section Splitting.

Local Open Scope nat_scope.

Variable d : ascii.

Lemma append_empty_r (s : string) : s +:+ "" = s.
Proof.
  induction s as [|c s IH]; [reflexivity |].
  change (String c (s +:+ "") = String c s). now rewrite IH.
Qed.

Lemma append_assoc (a b c : string) : (a +:+ b) +:+ c = a +:+ (b +:+ c).
Proof.
  induction a as [|x a IH]; [reflexivity |].
  change (String x ((a +:+ b) +:+ c) = String x (a +:+ (b +:+ c))). now rewrite IH.
Qed.

Lemma noByte_append (a b : string) : noByte d (a +:+ b) = noByte d a && noByte d b.
Proof.
  induction a as [|x a IH]; [reflexivity |].
  change (negb (Ascii.eqb x d) && noByte d (a +:+ b)
          = negb (Ascii.eqb x d) && noByte d a && noByte d b).
  now rewrite IH, andb_assoc.
Qed.

Lemma HasPrefix_byte (c : ascii) (s : string) :
  strings.HasPrefix (String c s) (String d "") = Ascii.eqb c d.
Proof.
  unfold strings.HasPrefix. destruct s; cbn; now destruct (Ascii.eqb c d).
Qed.

(** Up to the first occurrence of the separator. *)
Lemma splitFrom_piece (m : string) :
  forall cur rest,
    noByte d m = true ->
    strings.splitFrom (String d "") 0 cur (m +:+ String d rest)
    = (cur +:+ m) :: strings.splitFrom (String d "") 0 "" rest.
Proof.
  induction m as [|c m IH]; intros cur rest Hm.
  - change ("" +:+ String d rest) with (String d rest).
    cbn [strings.splitFrom]. rewrite HasPrefix_byte, Ascii.eqb_refl.
    now rewrite append_empty_r.
  - cbn [noByte] in Hm. apply andb_true_iff in Hm. destruct Hm as [Hc Hm].
    apply negb_true_iff in Hc.
    change (String c m +:+ String d rest) with (String c (m +:+ String d rest)).
    cbn [strings.splitFrom]. rewrite HasPrefix_byte, Hc, (IH _ _ Hm).
    now rewrite append_assoc.
Qed.

(** The first piece starts with what was read so far. *)
Lemma splitFrom_head (s : string) :
  forall cur, exists x l, strings.splitFrom (String d "") 0 cur s = (cur +:+ x) :: l.
Proof.
  induction s as [|c s IH]; intros cur.
  - exists "", []. cbn. now rewrite append_empty_r.
  - cbn [strings.splitFrom]. rewrite HasPrefix_byte. destruct (Ascii.eqb c d).
    + exists "". eexists. now rewrite append_empty_r.
    + destruct (IH (cur +:+ String c "")) as (x & l & ->).
      exists (String c x), l. now rewrite append_assoc.
Qed.

Lemma splitFrom_length (s : string) :
  forall cur,
    List.length (strings.splitFrom (String d "") 0 cur s) = S (countByte d s).
Proof.
  induction s as [|c s IH]; intros cur; [reflexivity |].
  cbn [strings.splitFrom countByte]. rewrite HasPrefix_byte.
  destruct (Ascii.eqb c d); cbn [List.length]; now rewrite IH.
Qed.

Lemma splitFrom_noByte (s : string) :
  forall cur,
    noByte d cur = true ->
    Forall (fun piece => noByte d piece = true)
      (strings.splitFrom (String d "") 0 cur s).
Proof.
  induction s as [|c s IH]; intros cur Hcur.
  - now repeat constructor.
  - cbn [strings.splitFrom]. rewrite HasPrefix_byte. destruct (Ascii.eqb c d) eqn:E.
    + constructor; [exact Hcur | now apply IH].
    + apply IH. rewrite noByte_append, Hcur. cbn. now rewrite E.
Qed.

Lemma TrimLeft_noByte (s : string) :
  noByte d s = true -> noByte d (strings.TrimLeft s) = true.
Proof.
  induction s as [|c s IH]; [reflexivity |]. intros H. cbn [strings.TrimLeft].
  destruct (strings.isSpace c); [| exact H].
  cbn [noByte] in H. apply andb_true_iff in H. now apply IH.
Qed.

Lemma TrimRight_noByte (s : string) :
  noByte d s = true -> noByte d (strings.TrimRight s) = true.
Proof.
  induction s as [|c s IH]; [reflexivity |]. intros H.
  cbn [noByte] in H. apply andb_true_iff in H. destruct H as [Hc Hs].
  specialize (IH Hs). cbn [strings.TrimRight].
  destruct (strings.TrimRight s) as [|c' t].
  - destruct (strings.isSpace c); [reflexivity |]. cbn. now rewrite Hc.
  - cbn [noByte] in *. now rewrite Hc, IH.
Qed.

End Splitting.

Lemma TrimLeft_start (s : string) : startsWithSpace (strings.TrimLeft s) = false.
Proof.
  induction s as [|c s IH]; [reflexivity |]. cbn [strings.TrimLeft].
  destruct (strings.isSpace c) eqn:E; [exact IH | exact E].
Qed.

Lemma TrimRight_start (s : string) :
  startsWithSpace s = false -> startsWithSpace (strings.TrimRight s) = false.
Proof.
  destruct s as [|c s]; [reflexivity |]. cbn [startsWithSpace strings.TrimRight].
  intros Hc. destruct (strings.TrimRight s); [now rewrite Hc | exact Hc].
Qed.

Lemma TrimRight_end (s : string) : endsWithSpace (strings.TrimRight s) = false.
Proof.
  induction s as [|c s IH]; [reflexivity |]. cbn [strings.TrimRight].
  destruct (strings.TrimRight s) as [|c' t].
  - destruct (strings.isSpace c) eqn:E; [reflexivity | exact E].
  - exact IH.
Qed.

(** A subject-alternative-names annotation that is present always yields
    names, one more than it has commas, so at least one, and the
    certificate request carries them all. No name contains a comma, and none
    starts or ends with ASCII white space; a name may be empty. *)
Theorem SANs_one_more_than_commas (pd : string -> option Z)
    (annotations : gmap string string) (sanStr domain : string) :
  annotations !! "acm.tedens.dev/san" = Some sanStr ->
  let cfg := ParseIngressAnnotations pd annotations in
  List.length (SANs cfg) = S (countByte "," sanStr)
  /\ acmtypes.SubjectAlternativeNames (requestInput domain cfg) = SANs cfg
  /\ Forall (fun name => noByte "," name = true
                         /\ startsWithSpace name = false
                         /\ endsWithSpace name = false) (SANs cfg).
Proof.
  intros Hsan cfg.
  assert (Hs : SANs cfg = map strings.TrimSpace (strings.Split sanStr ","))
    by (unfold cfg; cbn [ParseIngressAnnotations SANs]; now rewrite Hsan).
  assert (Hlen : List.length (SANs cfg) = S (countByte "," sanStr)).
  { rewrite Hs, length_map. apply splitFrom_length. }
  split; [exact Hlen |]. split.
  - unfold requestInput. cbn [acmtypes.SubjectAlternativeNames].
    rewrite Hlen. reflexivity.
  - rewrite Hs. apply Forall_map.
    eapply Forall_impl; [apply (splitFrom_noByte "," sanStr ""); reflexivity |].
    intros piece Hp. cbn beta. unfold strings.TrimSpace. split; [| split].
    + now apply TrimRight_noByte, TrimLeft_noByte.
    + apply TrimRight_start, TrimLeft_start.
    + apply TrimRight_end.
Qed.

(** The resolved configuration depends on the nine annotations of the
    controller only: two annotation maps that agree on those keys resolve to
    the same configuration, whatever else they hold. *)
Theorem ParseIngressAnnotations_reads_own_keys (pd : string -> option Z)
    (annotations annotations' : gmap string string) :
  (forall key, In key controllerKeys -> annotations !! key = annotations' !! key) ->
  ParseIngressAnnotations pd annotations = ParseIngressAnnotations pd annotations'.
Proof.
  intros H. unfold ParseIngressAnnotations. rewrite !lookup_total_alt.
  rewrite !(H "acm.tedens.dev/managed"), !(H "acm.tedens.dev/domain"),
    !(H "acm.tedens.dev/zone-id"), !(H "acm.tedens.dev/wildcard"),
    !(H "acm.tedens.dev/reuse-existing"),
    !(H "acm.tedens.dev/delete-cert-on-ingress-delete"),
    !(H "acm.tedens.dev/fallback-wildcard"), !(H "acm.tedens.dev/san"),
    !(H "acm.tedens.dev/cert-ttl")
    by (unfold controllerKeys; cbn [In]; tauto).
  reflexivity.
Qed.

(** ** The server version gate of main *)

Section VersionGate.

Lemma ltb_first_byte_below (c c' : ascii) (x y : string) :
  (N_of_ascii c < N_of_ascii c')%N -> String.ltb (String c x) (String c' y) = true.
Proof.
  intros H. apply N.compare_lt_iff in H.
  unfold String.ltb. cbn [String.compare]. unfold Ascii.compare. now rewrite H.
Qed.

Lemma ltb_first_byte_above (c c' : ascii) (x y : string) :
  (N_of_ascii c' < N_of_ascii c)%N -> String.ltb (String c x) (String c' y) = false.
Proof.
  intros H. apply N.compare_gt_iff in H.
  unfold String.ltb. cbn [String.compare]. unfold Ascii.compare. now rewrite H.
Qed.

Lemma Split_major_minor (major : string) (c : ascii) (tail : string) :
  noByte "." major = true ->
  exists minor rest,
    strings.Split (major +:+ String "." (String c tail)) "." = major :: minor :: rest
    /\ ((Ascii.eqb c "." = true /\ minor = "") \/ exists x, minor = String c x).
Proof.
  intros Hm. unfold strings.Split.
  rewrite (splitFrom_piece "." major "" (String c tail) Hm).
  change ("" +:+ major) with major.
  cbn [strings.splitFrom]. rewrite HasPrefix_byte.
  destruct (Ascii.eqb c ".").
  - eexists "", _. split; [reflexivity | left; now split].
  - destruct (splitFrom_head "." tail ("" +:+ String c "")) as (x & l & ->).
    exists (String c x), l. split; [reflexivity | right; now exists x].
Qed.

(** The gate compares the minor version as text, so every version whose
    minor component starts with a byte below '3' is refused, whatever
    follows: v1.29, but also v1.100 and v2.0. *)
Theorem version_gate_refuses_minor_starting_below_3 (major : string) (c : ascii)
    (tail : string) :
  noByte "." major = true ->
  (N_of_ascii c < N_of_ascii "3")%N ->
  let gitVersion := "v" +:+ major +:+ "." +:+ String c tail in
  checkServerVersion gitVersion
  = Some (errorString ("unsupported Kubernetes version: " +:+ gitVersion)).
Proof.
  intros Hm Hc gitVersion. unfold checkServerVersion.
  change gitVersion with ("v" +:+ (major +:+ String "." (String c tail))).
  rewrite TrimPrefix_append.
  destruct (Split_major_minor major c tail Hm) as (minor & rest & -> & Hminor).
  cbn [List.length Nat.ltb Nat.leb nth].
  assert (Hlt : String.ltb minor "32" = true).
  { destruct Hminor as [[_ ->] | [x ->]]; [reflexivity |].
    now apply ltb_first_byte_below. }
  now rewrite Hlt, orb_true_r.
Qed.

(** And every version whose major component is not below "1" and whose
    minor component starts with a byte above '3' is let through, whatever
    follows: v1.40, but also v1.4 and v1.9. *)
Theorem version_gate_passes_minor_starting_above_3 (major : string) (c : ascii)
    (tail : string) :
  noByte "." major = true ->
  String.ltb major "1" = false ->
  (N_of_ascii "3" < N_of_ascii c)%N ->
  checkServerVersion ("v" +:+ major +:+ "." +:+ String c tail) = None.
Proof.
  intros Hm Hmajor Hc. unfold checkServerVersion.
  change ("v" +:+ major +:+ "." +:+ String c tail)
    with ("v" +:+ (major +:+ String "." (String c tail))).
  rewrite TrimPrefix_append.
  destruct (Split_major_minor major c tail Hm) as (minor & rest & -> & Hminor).
  cbn [List.length Nat.ltb Nat.leb nth]. rewrite Hmajor.
  assert (Hnot : Ascii.eqb c "." = false).
  { apply Ascii.eqb_neq. intros ->. cbn in Hc. lia. }
  assert (Hlt : String.ltb minor "32" = false).
  { destruct Hminor as [[Hdot _] | [x ->]]; [congruence |].
    now apply ltb_first_byte_above. }
  now rewrite Hlt.
Qed.

End VersionGate.

(** ** The domain of a pass *)

Section DomainOfPass.

Variable ParseDuration : string -> option Z.
Variable r : IngressReconciler.

Lemma resolveDomain_empty (ingress : Ingress) (cfg : IngressConfig) :
  DomainOverride cfg = "" -> Rules ingress = [] -> resolveDomain ingress cfg = "".
Proof. intros Ho Hr. unfold resolveDomain. now rewrite Ho, Hr. Qed.

(** Nothing stops a pass over a resource without a domain annotation and
    without routing rules: once the finalizer is in place and the reuse check
    finds nothing, it requests a certificate for the empty domain, or for
    "*." when wildcard is set. *)
Theorem Reconcile_requests_empty_domain (req : string) (s sE s1 : State)
    (ingress ingress' : Ingress) :
  let cfg := ParseIngressAnnotations ParseDuration (GetAnnotations ingress) in
  let request := requestInput "" cfg in
  Get r (log s) req = Ok ingress ->
  Managed cfg = true ->
  IsZero (DeletionTimestamp ingress) = true ->
  GetAnnotations ingress !! "acm.tedens.dev/domain" = None ->
  Rules ingress = [] ->
  finalizerEnsured r req s ingress ingress' sE ->
  reuseMisses r "" cfg sE s1 ->
  acmtypes.RequestDomainName request = Some (if Wildcard cfg then "*." else "")
  /\ exists evs,
       performed s1 (snd (Reconcile ParseDuration r req s))
         (evs ++ [EvRequestCertificate request]).
Proof.
  intros cfg request Hget Hm Hzero Hdom Hrules Hfin Hmiss. split.
  - unfold request, requestInput. cbn [acmtypes.RequestDomainName].
    now destruct (Wildcard cfg).
  - assert (Hd : resolveDomain ingress cfg = "").
    { apply resolveDomain_empty; [| exact Hrules].
      unfold cfg. cbn [ParseIngressAnnotations DomainOverride].
      now rewrite lookup_total_alt, Hdom. }
    assert (Hattach : forall obj, exists evs,
               performed s1 (snd (attachCertificate r obj "" cfg sE))
                 (evs ++ [EvRequestCertificate request])).
    { intros obj. unfold attachCertificate, bind.
      rewrite (ensureCertificate_miss _ _ _ _ _ Hmiss).
      destruct (requestAndValidate_request_first r "" cfg s1) as (evs & Hp & _).
      fold request in Hp.
      destruct (requestAndValidate r "" cfg s1) as [[certArn [err |]] s2];
        cbn [snd] in Hp.
      - exists evs. exact Hp.
      - rewrite perform_state. eexists (_ :: evs).
        destruct (Patch r (log s2) _ obj); unfold performed in *; cbn [snd ret];
          cbn [after perform snd log]; rewrite Hp; reflexivity. }
    unfold Reconcile, bind. rewrite perform_state, Hget. fold cfg.
    rewrite Hm, Hzero, Hd. cbn [negb]. cbv beta iota.
    destruct Hfin as [(Hc & -> & ->) | (Hc & Hupd & ->)]; rewrite Hc; cbn [negb];
      cbv beta iota.
    + apply Hattach.
    + rewrite perform_state, Hupd. apply Hattach.
Qed.

End DomainOfPass.

(** ** The further properties on concrete passes *)

Lemma Reconcile_read_failure_example :
  fst (Reconcile noDuration
         (withGet (fun _ _ => Err goneError) (passClients settledIngress [] None []))
         "default/web" initial)
  = (noResult, None).
Proof.
  rewrite (Reconcile_read_failure noDuration
             (withGet (fun _ _ => Err goneError) (passClients settledIngress [] None []))
             "default/web" initial goneError eq_refl).
  reflexivity.
Defined.

Lemma Reconcile_already_finalized_example :
  Reconcile noDuration (passClients finalizedIngress [fooCertificate] None [])
    "default/web" initial
  = ((noResult, None),
     after (passClients finalizedIngress [fooCertificate] None []) (EvGet "default/web")
       initial).
Proof.
  apply (Reconcile_already_finalized noDuration
           (passClients finalizedIngress [fooCertificate] None [])
           "default/web" initial finalizedIngress); reflexivity.
Defined.

Lemma Reconcile_finalizer_update_fails_example :
  fst (Reconcile noDuration
         (withUpdate (fun _ _ => Err (apiError "conflict"))
            (passClients (managedIngress [] None ∅) [] None [sampleZone]))
         "default/web" initial)
  = (noResult, Some (apiError "conflict")).
Proof.
  destruct (Reconcile_finalizer_update_fails noDuration
              (withUpdate (fun _ _ => Err (apiError "conflict"))
                 (passClients (managedIngress [] None ∅) [] None [sampleZone]))
              "default/web" initial (managedIngress [] None ∅) (apiError "conflict"))
    as [H _].
  - reflexivity.
  - vm_compute. reflexivity.
  - reflexivity.
  - vm_compute. reflexivity.
  - reflexivity.
  - rewrite H. reflexivity.
Defined.

Lemma Reconcile_attaches_certificate_example :
  fst (Reconcile noDuration (passClients settledIngress [fooCertificate] None [])
         "default/web" initial)
  = ({| RequeueAfter := 12 * Hour |}, None).
Proof.
  pose (r := passClients settledIngress [fooCertificate] None []).
  pose (sE := after r (EvGet "default/web") initial).
  destruct (Reconcile_attaches_certificate noDuration r "default/web" initial sE
              (after r (EvListCertificates listedStatuses) sE)
              settledIngress settledIngress "arn:foo") as [H _].
  - reflexivity.
  - reflexivity.
  - reflexivity.
  - left. repeat split.
  - reflexivity.
  - fold r. rewrite H. reflexivity.
Defined.

Lemma Reconcile_reuses_listed_certificate_example :
  log (snd (Reconcile noDuration
              (passClients kelvinIngress [barCertificate; kubeCertificate] None [])
              "default/web" initial))
  = [EvPatch (SetAnnotation kelvinIngress certificateArnAnnotation "arn:kube")
       kelvinIngress;
     EvListCertificates listedStatuses; EvGet "default/web"].
Proof.
  destruct (Reconcile_reuses_listed_certificate noDuration
              (passClients kelvinIngress [barCertificate; kubeCertificate] None [])
              "default/web" initial kelvinIngress [barCertificate] [] kubeCertificate)
    as (s' & Heq & Hlog).
  - reflexivity.
  - reflexivity.
  - reflexivity.
  - reflexivity.
  - reflexivity.
  - reflexivity.
  - repeat constructor.
  - reflexivity.
  - rewrite Heq. exact Hlog.
Defined.

Lemma Reconcile_deleting_never_requests_example :
  exists evs,
    performed initial
      (snd (Reconcile noDuration
              (passClients deletingIngress [fooCertificate; shoutedCertificate] None [])
              "default/web" initial)) evs
    /\ Forall (fun c => isDeletionPassCall c = true) evs
    /\ (countCalls isDelete evs <= 1)%nat.
Proof.
  apply (Reconcile_deleting_never_requests noDuration
           (passClients deletingIngress [fooCertificate; shoutedCertificate] None [])
           "default/web" initial deletingIngress); reflexivity.
Defined.

Lemma cleanup_first_match_example :
  log (snd (deleteCertificateForDomain
              (passClients deletingIngress
                 [barCertificate; kelvinCertificate; kubeCertificate] None [])
              "kube.example.com" initial))
  = [EvDeleteCertificate (Some "arn:kelvin"); EvListCertificates listedStatuses].
Proof.
  rewrite (deleteCertificateForDomain_first_match
             (passClients deletingIngress
                [barCertificate; kelvinCertificate; kubeCertificate] None [])
             "kube.example.com" initial [barCertificate] [kubeCertificate]
             kelvinCertificate eq_refl).
  - reflexivity.
  - repeat constructor.
  - reflexivity.
Defined.

Lemma ensureCertificate_list_fails_example :
  fst (ensureCertificate
         (withList (fun _ _ => Err (apiError "throttled"))
            (passClients settledIngress [] None []))
         "foo.example.com" sampleConfig initial)
  = ("", Some (apiError "throttled")).
Proof.
  rewrite (ensureCertificate_list_fails
             (withList (fun _ _ => Err (apiError "throttled"))
                (passClients settledIngress [] None []))
             "foo.example.com" sampleConfig initial (apiError "throttled")
             eq_refl eq_refl).
  reflexivity.
Defined.

Lemma ensureCertificate_request_fails_example :
  fst (ensureCertificate
         (withRequest (fun _ _ => Err (apiError "limit exceeded"))
            (passClients settledIngress [] None []))
         "foo.example.com" sampleConfig initial)
  = ("", Some (apiError "limit exceeded")).
Proof.
  set (r := withRequest (fun _ _ => Err (apiError "limit exceeded"))
              (passClients settledIngress [] None [])).
  rewrite (ensureCertificate_request_fails r "foo.example.com" sampleConfig initial
             (after r (EvListCertificates listedStatuses) initial)
             (apiError "limit exceeded")).
  - reflexivity.
  - right. split; [reflexivity |]. exists []. repeat split. constructor.
  - reflexivity.
Defined.

Lemma ensureCertificate_reads_four_fields_example :
  ensureCertificate (passClients settledIngress [] None [sampleZone]) "foo.example.com"
    sampleConfig initial
  = ensureCertificate (passClients settledIngress [] None [sampleZone]) "foo.example.com"
      otherConfig initial.
Proof.
  apply (ensureCertificate_reads_four_fields
           (passClients settledIngress [] None [sampleZone]) "foo.example.com"
           sampleConfig otherConfig initial); reflexivity.
Defined.

Lemma ensureCertificate_first_deciding_round_example :
  fst (ensureCertificate
         (withDescribe issuedAfterTwoSleeps
            (passClients settledIngress [] None [sampleZone]))
         "foo.example.com" sampleConfig initial)
  = ("arn:1", None).
Proof.
  set (r := withDescribe issuedAfterTwoSleeps
              (passClients settledIngress [] None [sampleZone])).
  pose (s1 := after r (EvListCertificates listedStatuses) initial).
  pose (s3 := snd (createRoute53ValidationRecords r "arn:1" (ZoneID sampleConfig)
                     (after r (EvRequestCertificate
                                 (requestInput "foo.example.com" sampleConfig)) s1))).
  rewrite (ensureCertificate_first_deciding_round r "foo.example.com" sampleConfig
             initial s1 s3 (Some "arn:1")
             (Ok (certificateIn acmtypes.CertificateStatusIssued)) 2).
  - reflexivity.
  - right. split; [reflexivity |]. exists []. repeat split. constructor.
  - reflexivity.
  - vm_compute. reflexivity.
  - intros k Hk. exists (certificateIn acmtypes.CertificateStatusPendingValidation).
    destruct k as [|[|k]]; [split; reflexivity | split; reflexivity | lia].
  - vm_compute. intros H. discriminate H.
  - reflexivity.
  - reflexivity.
Defined.

Lemma ensureCertificate_waits_on_every_other_status_example :
  fst (ensureCertificate
         (withDescribe (fun _ _ => Ok (certificateIn "REVOKED"))
            (passClients settledIngress [] None [sampleZone]))
         "foo.example.com" sampleConfig initial)
  = ("arn:1", Some (timeoutError "arn:1")).
Proof.
  pose (r := withDescribe (fun _ _ => Ok (certificateIn "REVOKED"))
               (passClients settledIngress [] None [sampleZone])).
  pose (s1 := after r (EvListCertificates listedStatuses) initial).
  pose (s3 := snd (createRoute53ValidationRecords r "arn:1" (ZoneID sampleConfig)
                     (after r (EvRequestCertificate
                                 (requestInput "foo.example.com" sampleConfig)) s1))).
  destruct (ensureCertificate_waits_on_every_other_status r "foo.example.com"
              sampleConfig initial s1 s3 (Some "arn:1")) as (n & s' & Heq & _).
  - right. split; [reflexivity |]. exists []. repeat split. constructor.
  - reflexivity.
  - vm_compute. reflexivity.
  - intros n _. exists (certificateIn "REVOKED"). split; reflexivity.
  - fold r. rewrite Heq. reflexivity.
Defined.

Lemma records_upserted_in_order_example :
  exists evs rest,
    performed initial
      (snd (createRoute53ValidationRecords (validationClients [sampleZone]) "arn:1" ""
              initial)) evs
    /\ [sampleRecord] = changedRecords evs ++ rest
    /\ (fst (createRoute53ValidationRecords (validationClients [sampleZone]) "arn:1" ""
               initial) = None -> rest = []).
Proof.
  exact (records_upserted_in_order (validationClients [sampleZone]) "" "arn:1" initial
           (pendingCertificate [sampleValidation; sampleValidation]) eq_refl).
Defined.

Lemma records_use_zone_override_example :
  exists evs,
    performed initial
      (snd (createRoute53ValidationRecords (validationClients []) "arn:1" "Z9" initial))
      (evs ++ [EvDescribeCertificate (Some "arn:1")])
    /\ Forall (fun c => exists record,
                 c = EvChangeResourceRecordSets (upsertChange "Z9" record)
                 /\ route53types.HostedZoneId (upsertChange "Z9" record) = Some "Z9"
                 /\ recordOfChange (upsertChange "Z9" record) = Some record) evs.
Proof.
  apply (records_use_zone_override (validationClients []) "Z9" "arn:1" initial).
  discriminate.
Defined.

Lemma zone_found_across_labels_example :
  fst (findMatchingHostedZone (zoneClients [sampleZone]) "notexample.com" initial)
  = ("Z1", None).
Proof.
  apply (zone_found_for_any_domain_ending_with_its_name (zoneClients [sampleZone])
           initial sampleZone "not" eq_refl); discriminate.
Defined.

Lemma SANs_one_more_than_commas_example :
  List.length
    (SANs (ParseIngressAnnotations noDuration
             {[ "acm.tedens.dev/san" := "a.example.com, b.example.com" ]}))
  = 2%nat.
Proof.
  destruct (SANs_one_more_than_commas noDuration
              {[ "acm.tedens.dev/san" := "a.example.com, b.example.com" ]}
              "a.example.com, b.example.com" "foo.example.com") as [H _].
  - vm_compute. reflexivity.
  - rewrite H. reflexivity.
Defined.

Lemma ParseIngressAnnotations_reads_own_keys_example :
  ParseIngressAnnotations noDuration {[ "acm.tedens.dev/managed" := "true" ]}
  = ParseIngressAnnotations noDuration
      {[ "acm.tedens.dev/managed" := "true"; "kubernetes.io/ingress.class" := "alb" ]}.
Proof.
  apply (ParseIngressAnnotations_reads_own_keys noDuration).
  intros key Hin. unfold controllerKeys in Hin. cbn [In] in Hin.
  repeat (destruct Hin as [<- | Hin]; [vm_compute; reflexivity |]).
  contradiction.
Defined.

Lemma version_gate_refuses_example :
  checkServerVersion "v1.100.0"
  = Some (errorString "unsupported Kubernetes version: v1.100.0").
Proof.
  apply (version_gate_refuses_minor_starting_below_3 "1" "1" "00.0"); reflexivity.
Defined.

Lemma version_gate_passes_example : checkServerVersion "v1.4.0" = None.
Proof.
  apply (version_gate_passes_minor_starting_above_3 "1" "4" ".0"); reflexivity.
Defined.

Lemma Reconcile_requests_empty_domain_example :
  exists evs,
    performed (after (passClients namelessIngress [] None []) (EvGet "default/web") initial)
      (snd (Reconcile noDuration (passClients namelessIngress [] None []) "default/web"
              initial))
      (evs ++ [EvRequestCertificate
                 (requestInput ""
                    (ParseIngressAnnotations noDuration (GetAnnotations namelessIngress)))]).
Proof.
  pose (r := passClients namelessIngress [] None []).
  destruct (Reconcile_requests_empty_domain noDuration r "default/web" initial
              (after r (EvGet "default/web") initial)
              (after r (EvGet "default/web") initial)
              namelessIngress namelessIngress) as [_ H].
  - reflexivity.
  - vm_compute. reflexivity.
  - reflexivity.
  - vm_compute. reflexivity.
  - reflexivity.
  - left. repeat split.
  - left. split; [vm_compute; reflexivity | reflexivity].
  - exact H.
Defined.
